(** * Stock-market sentiment pipeline: a shallow embedding

    The development follows the Python sources file by file:

    - [Pd]                 the few dataframe primitives the scripts rely on
                           (missing values, [shift], [pct_change], [dropna],
                           [sort_values], date formatting and parsing);
    - [SentimentFinbert]   [src/sentiment_finbert.py];
    - [LoadFinbert]        [load_finbert] of the same file;
    - [BuildPanel]         [src/build_panel.py];
    - [BuildWordclouds]    the date parsing of [src/build_wordclouds.py];
    - [FetchNews]          [src/fetch_news.py];
    - [FetchPrices]        [src/fetch_prices.py];
    - [BuildCorrelation]   [src/build_correlation.py];
    - [LeadLag]            [src/lead_lag_sentiment_return.py].

    Python floats are modelled by exact rationals ([Q]) extended with the
    IEEE special values the scripts can meet ([NaN], infinities).  Rounding is
    not modelled; the statements proved below are about order, thresholds,
    positions and presence of values. *)

From Stdlib Require Import List ZArith QArith Qabs Lqa String Ascii Bool Lia Arith.
From Stdlib Require Import Permutation Sorted.
Import ListNotations.

Set Implicit Arguments.

Close Scope Q_scope.
Open Scope string_scope.
Open Scope list_scope.
Open Scope nat_scope.

(* ===================================================================== *)
(** * Errors, output and the script monad                                *)
(* ===================================================================== *)

(** The Python exceptions the scripts raise, each with its message. *)
Inductive exn : Type :=
| KeyError (msg : string)
| ValueError (msg : string)
| TypeError (msg : string)
| FileNotFoundError (msg : string).

(** A fallible pure computation: [inl e] is a raised exception. *)
Definition result (A : Type) : Type := (exn + A)%type.

Definition rbind {A B : Type} (c : result A) (k : A -> result B) : result B :=
  match c with
  | inl e => inl e
  | inr x => k x
  end.

(* ===================================================================== *)
(** * Calendar dates                                                      *)
(* ===================================================================== *)

(** [datetime.date]: year, month, day. *)
Record date : Type := mkDate { year : N; month : N; day : N }.

Definition is_leap (y : N) : bool :=
  (((y mod 4 =? 0) && negb (y mod 100 =? 0)) || (y mod 400 =? 0))%N.

Definition days_in_month (y m : N) : N :=
  match m with
  | 1 | 3 | 5 | 7 | 8 | 10 | 12 => 31
  | 4 | 6 | 9 | 11 => 30
  | 2 => if is_leap y then 29 else 28
  | _ => 0
  end%N.

(** The check [datetime.date(y, m, d)] performs ([MINYEAR = 1],
    [MAXYEAR = 9999]). *)
Definition valid_ymd (y m d : N) : bool :=
  ((1 <=? y) && (y <=? 9999) && (1 <=? m) && (m <=? 12)
   && (1 <=? d) && (d <=? days_in_month y m))%N.

Definition valid_date (x : date) : bool := valid_ymd (year x) (month x) (day x).

Definition date_eqb (a b : date) : bool :=
  ((year a =? year b) && (month a =? month b) && (day a =? day b))%N.

(** Chronological order. *)
Definition date_leb (a b : date) : bool :=
  (if year a <? year b then true
   else if year b <? year a then false
   else if month a <? month b then true
   else if month b <? month a then false
   else day a <=? day b)%N.

(** Strictly earlier. *)
Definition before (a b : date) : Prop := date_leb b a = false.

(* ===================================================================== *)
(** * Floats                                                              *)
(* ===================================================================== *)

(** A float column cell: a number, an infinity or [NaN] (which is also how
    pandas stores a missing value). *)
Inductive float : Type :=
| NaN
| Inf (negative : bool)
| Fin (q : Q).

Definition notna (x : float) : bool :=
  match x with NaN => false | _ => true end.

Definition Qsign_neg (q : Q) : bool := (Qnum q <? 0)%Z.
Definition Qis_zero (q : Q) : bool := (Qnum q =? 0)%Z.

Definition fadd (x y : float) : float :=
  match x, y with
  | NaN, _ | _, NaN => NaN
  | Inf a, Inf b => if Bool.eqb a b then Inf a else NaN
  | Inf a, Fin _ => Inf a
  | Fin _, Inf b => Inf b
  | Fin p, Fin q => Fin (p + q)%Q
  end.

Definition fneg (x : float) : float :=
  match x with
  | NaN => NaN
  | Inf a => Inf (negb a)
  | Fin q => Fin (- q)%Q
  end.

Definition fsub (x y : float) : float := fadd x (fneg y).

(** IEEE division: a non-zero number over zero is an infinity, zero over
    zero is [NaN]. *)
Definition fdiv (x y : float) : float :=
  match x, y with
  | NaN, _ | _, NaN => NaN
  | Inf _, Inf _ => NaN
  | Inf a, Fin q => Inf (xorb a (Qsign_neg q))
  | Fin _, Inf _ => Fin 0%Q
  | Fin p, Fin q =>
      if Qis_zero q then (if Qis_zero p then NaN else Inf (Qsign_neg p))
      else Fin (p / q)%Q
  end.

(** Equality of cells up to the value of the rational. *)
Definition feq (x y : float) : Prop :=
  match x, y with
  | NaN, NaN => True
  | Inf a, Inf b => a = b
  | Fin p, Fin q => (p == q)%Q
  | _, _ => False
  end.

(* ===================================================================== *)
(** * Dataframe primitives                                                *)
(* ===================================================================== *)

Module Pd.

(** ** Decimal text *)

Definition digit (n : N) : ascii := ascii_of_N (48 + n mod 10).

(** [%d], [%m]: two digits, zero padded. *)
Definition pad2 (n : N) : string :=
  String (digit (n / 10)) (String (digit n) EmptyString).

(** [%Y]: four digits. *)
Definition pad4 (n : N) : string :=
  String (digit (n / 1000)) (String (digit (n / 100))
    (String (digit (n / 10)) (String (digit n) EmptyString))).

(** [Series.dt.strftime("%d/%m/%Y")] on one date. *)
Definition strftime_dmY (x : date) : string :=
  (pad2 (day x) ++ "/" ++ pad2 (month x) ++ "/" ++ pad4 (year x))%string.

Definition digit_value (c : ascii) : option N :=
  let n := N_of_ascii c in
  if ((48 <=? n) && (n <=? 57))%N then Some (n - 48)%N else None.

Fixpoint number_from (s : string) (acc : N) : option N :=
  match s with
  | EmptyString => Some acc
  | String c rest =>
      match digit_value c with
      | Some v => number_from rest (10 * acc + v)%N
      | None => None
      end
  end.

(** A non-empty run of decimal digits. *)
Definition parse_number (s : string) : option N :=
  match s with
  | EmptyString => None
  | _ => number_from s 0%N
  end.

(** [s.split(sep)]. *)
Fixpoint split (sep : ascii) (s : string) : list string :=
  match s with
  | EmptyString => [EmptyString]
  | String c rest =>
      if Ascii.eqb c sep then EmptyString :: split sep rest
      else match split sep rest with
           | [] => [String c EmptyString]
           | w :: ws => String c w :: ws
           end
  end.

(** The three numeric fields of a text [a/b/yyyy]: two fields of one or two
    digits and a year of four digits.  These are the texts the scorer
    writes; a text of any other shape is not read. *)
Definition slash_fields (s : string) : option (N * N * N) :=
  match split "/"%char s with
  | [a; b; y] =>
      if (String.length a <=? 2) && (String.length b <=? 2)
         && (String.length y =? 4)
      then match parse_number a, parse_number b, parse_number y with
           | Some na, Some nb, Some ny => Some (na, nb, ny)
           | _, _, _ => None
           end
      else None
  | _ => None
  end.

(** The two readings of [a/b/yyyy]. *)
Inductive dayorder : Type :=
| MonthFirst   (* "%m/%d/%Y" *)
| DayFirst.    (* "%d/%m/%Y" *)

(** [datetime.strptime(s, fmt).date()] for the two formats; [None] when the
    text does not match or names no calendar date. *)
Definition strptime (fmt : dayorder) (s : string) : option date :=
  match slash_fields s with
  | Some (a, b, y) =>
      let '(m, d) := match fmt with
                     | MonthFirst => (a, b)
                     | DayFirst => (b, a)
                     end in
      if valid_ymd y m d then Some (mkDate y m d) else None
  | None => None
  end.

(** How the date parser behind [pd.to_datetime] reads [a/b/yyyy].  With
    [dayfirst] at its default [False] the first field is the month unless
    it exceeds 12; with [dayfirst=True] the first field is the day whenever
    the second can be a month. *)
Definition resolve_order (dayfirst : bool) (a b : N) : dayorder :=
  if ((12 <? a) || (dayfirst && (b <=? 12)))%N then DayFirst else MonthFirst.

(** Parsing one text. *)
Definition parse_date (dayfirst : bool) (s : string) : option date :=
  match slash_fields s with
  | Some (a, b, _) => strptime (resolve_order dayfirst a b) s
  | None => None
  end.

(** The format [pd.to_datetime] infers from a text: the one under which the
    parsed date prints back as the text. *)
Definition guess_datetime_format (dayfirst : bool) (s : string) : option dayorder :=
  match slash_fields s with
  | Some (a, b, _) =>
      match parse_date dayfirst s with
      | Some _ => Some (resolve_order dayfirst a b)
      | None => None
      end
  | None => None
  end.

Fixpoint first_valid {A : Type} (col : list (option A)) : option A :=
  match col with
  | [] => None
  | Some x :: _ => Some x
  | None :: rest => first_valid rest
  end.

Definition on_text {B : Type} (f : string -> option B) (c : option string)
  : option B :=
  match c with
  | Some s => f s
  | None => None
  end.

(** [pd.to_datetime(col, dayfirst=.., errors="coerce").dt.date] on a text
    column (a cell is [None] when empty), as pandas 2 does it: the format is inferred from
    the first non-null text and applied to every cell; a cell that does not
    parse becomes [NaT] ([None]).  When no format can be inferred each cell
    is parsed on its own, which is also what earlier versions do with every
    column.  On a column of one text the two agree. *)
Definition to_datetime_coerce (dayfirst : bool) (col : list (option string))
  : list (option date) :=
  match first_valid col with
  | None => map (fun _ => None) col
  | Some s0 =>
      match guess_datetime_format dayfirst s0 with
      | Some fmt => map (on_text (strptime fmt)) col
      | None => map (on_text (parse_date dayfirst)) col
      end
  end.

(** ** The dtype of a column of dates *)

Inductive dtype : Type :=
| object
| datetime64.

Definition dtype_name (t : dtype) : string :=
  match t with
  | object => "object"
  | datetime64 => "datetime64[ns]"
  end.

Definition dtype_eqb (a b : dtype) : bool :=
  match a, b with
  | object, object | datetime64, datetime64 => true
  | _, _ => false
  end.

Definition is_nat {A : Type} (c : option A) : bool :=
  match c with
  | None => true
  | Some _ => false
  end.

(** The dtype of the column [Series.dt.date] makes: the dates are Python
    objects, so the column is an [object] column, unless it is not empty and
    every cell is [NaT]; such a column is inferred to be [datetime64[ns]]. *)
Definition date_dtype {A : Type} (col : list (option A)) : dtype :=
  match col with
  | [] => object
  | _ => if forallb is_nat col then datetime64 else object
  end.

(** The check [merge] makes on a key before joining: when exactly one of
    the two key columns is empty nothing is checked; otherwise a
    [datetime64] key cannot be joined with an [object] key. *)
Definition check_merge_keys (name : string) (left_len : nat) (left : dtype)
  (right_len : nat) (right : dtype) : result unit :=
  if xorb (left_len =? 0) (right_len =? 0) then inr tt
  else if dtype_eqb left right then inr tt
  else inl (ValueError ("You are trying to merge on " ++ dtype_name left
                        ++ " and " ++ dtype_name right ++ " columns for key '"
                        ++ name ++ "'. If you wish to proceed you should use pd.concat")%string).

(** ** Float columns *)

(** [Series.shift(1)]. *)
Definition shift_down (col : list float) : list float :=
  match col with
  | [] => []
  | _ => NaN :: removelast col
  end.

(** [Series.shift(-1)]. *)
Definition shift_up (col : list float) : list float :=
  match col with
  | [] => []
  | _ :: rest => rest ++ [NaN]
  end.

(** [Series.ffill()]: a missing value takes the last value seen before it. *)
Fixpoint ffill_from (last : float) (col : list float) : list float :=
  match col with
  | [] => []
  | x :: rest =>
      let y := if notna x then x else last in
      y :: ffill_from y rest
  end.

Definition ffill (col : list float) : list float := ffill_from NaN col.

Fixpoint zip_with {A B C : Type} (f : A -> B -> C) (l : list A) (r : list B)
  : list C :=
  match l, r with
  | x :: l', y :: r' => f x y :: zip_with f l' r'
  | _, _ => []
  end.

(** [Series.pct_change()]: with the default [fill_method] the column is
    padded, then [data / data.shift(1) - 1].  On a column without missing
    values the padding changes nothing.  The quotient and the difference
    are exact: the rounding, overflow and underflow of the floats of the
    code are not part of the embedding, and no statement below depends on
    the exact value of a return other than through this formula. *)
Definition pct_change (col : list float) : list float :=
  let data := ffill col in
  map (fun x => fsub x (Fin 1%Q)) (zip_with fdiv data (shift_down data)).

(** ** Sorting by date *)

Section SortValues.
Variable A : Type.
Variable key : A -> option date.

(** [a] goes before [b]. *)
Definition key_leb (a b : A) : bool :=
  match key a, key b with
  | Some x, Some y => date_leb x y
  | Some _, None => true
  | None, Some _ => false
  | None, None => true
  end.

Fixpoint insert_row (r : A) (l : list A) : list A :=
  match l with
  | [] => [r]
  | x :: rest => if key_leb r x then r :: x :: rest else x :: insert_row r rest
  end.

(** [a] is not after [b]; a row without a date is after every dated row. *)
Definition not_after (a b : A) : Prop := key_leb a b = true.

(** [df.sort_values(key)]: ascending, rows without a key last. *)
Definition sort_values (l : list A) : list A :=
  fold_right insert_row [] l.
End SortValues.

End Pd.

(* ===================================================================== *)
(** * Scripts: printed lines, written files, raised errors               *)
(* ===================================================================== *)

(** What a run has done so far: the lines printed and the files written,
    most recent last.  [F] is the type of a file's content. *)
Record world (F : Type) : Type := mkWorld {
  stdout : list string;
  written : list (string * F)
}.

Arguments mkWorld {F} _ _.

Definition start {F : Type} : world F := mkWorld [] [].

(** A script step: it changes the world and returns a value or raises. *)
Definition script (F A : Type) : Type := world F -> world F * result A.

Definition ret {F A : Type} (x : A) : script F A := fun w => (w, inr x).

Definition bind {F A B : Type} (c : script F A) (k : A -> script F B)
  : script F B :=
  fun w => match c w with
           | (w', inl e) => (w', inl e)
           | (w', inr x) => k x w'
           end.

Definition raise {F A : Type} (e : exn) : script F A := fun w => (w, inl e).

Definition print {F : Type} (line : string) : script F unit :=
  fun w => (mkWorld (stdout w ++ [line]) (written w), inr tt).

Definition to_csv {F : Type} (path : string) (content : F) : script F unit :=
  fun w => (mkWorld (stdout w) (written w ++ [(path, content)]), inr tt).

Definition lift {F A : Type} (r : result A) : script F A := fun w => (w, r).

Declare Scope script_scope.
Delimit Scope script_scope with script.
Notation "x <- c ;; k" := (bind c (fun x => k))
  (at level 61, c at next level, right associativity) : script_scope.
Notation "c ;; k" := (bind c (fun _ => k))
  (at level 61, right associativity) : script_scope.

(** A run ended without an exception. *)
Definition returned {F A : Type} (r : world F * result A) : Prop :=
  exists x, snd r = inr x.

(** A run was terminated by exception [e]. *)
Definition raised {F A : Type} (r : world F * result A) (e : exn) : Prop :=
  snd r = inl e.

(** Decimal text of a natural number, as [str(n)] prints it. *)
Fixpoint show_N_fuel (fuel : nat) (n : N) (acc : string) : string :=
  match fuel with
  | O => acc
  | S f =>
      let acc' := String (Pd.digit n) acc in
      if (n <? 10)%N then acc' else show_N_fuel f (n / 10)%N acc'
  end.

Definition show_nat (n : nat) : string :=
  show_N_fuel (S n) (N.of_nat n) EmptyString.

(** A table read from or written to a CSV file: its header and its rows. *)
Record frame (R : Type) : Type := mkFrame {
  columns : list string;
  rows : list R
}.

Arguments mkFrame {R} _ _.

Definition has_column {R : Type} (df : frame R) (name : string) : bool :=
  existsb (String.eqb name) (columns df).

(** [df.empty]: no rows or no columns. *)
Definition empty {R : Type} (df : frame R) : bool :=
  match rows df, columns df with
  | [], _ | _, [] => true
  | _, _ => false
  end.

(** [repr] of a list of strings, as an f-string prints it. *)
Definition repr_list (l : list string) : string :=
  ("[" ++ String.concat ", " (map (fun s => "'" ++ s ++ "'") l) ++ "]")%string.

(* ===================================================================== *)
(** * src/sentiment_finbert.py                                            *)
(* ===================================================================== *)

Module SentimentFinbert.

Definition MODEL_NAME : string := "ProsusAI/finbert".
Definition INPUT_CSV : string := "data/raw/news_AAPL.O.csv".
Definition OUTPUT_CSV : string := "data/processed/news_AAPL.O_finbert.csv".

Definition HEADLINE_COL_CANDIDATES : list string :=
  ["HEADLINE"; "headline"; "Title"; "title"].
Definition BATCH_SIZE : nat := 16.
Definition MAX_LENGTH : nat := 128.

(** A row of the raw news file: the text of each non-empty cell by column
    name; a column without an entry is [NaN]. *)
Definition raw_row : Type := list (string * string).

Fixpoint cell (r : raw_row) (col : string) : option string :=
  match r with
  | [] => None
  | (c, v) :: rest => if String.eqb c col then Some v else cell rest col
  end.

(** A row of the scored file.  [TIMESTAMP_PARSED] is kept as a column name
    only: no later step reads it. *)
Record scored_row : Type := mkScored {
  raw : raw_row;
  DATE : string;
  FINBERT_POS : Q;
  FINBERT_NEG : Q;
  FINBERT_NEU : Q;
  FINBERT_SCORE : Q;
  FINBERT_LABEL : string
}.

(** The error of [find_headline_column]. *)
Definition headline_error (cols : list string) : exn :=
  KeyError ("Could not find a headline column. Looked for "
            ++ repr_list HEADLINE_COL_CANDIDATES
            ++ ", got columns: " ++ repr_list cols)%string.

(** [find_headline_column]: the first candidate that is a column, else a
    [KeyError]. *)
Definition find_headline_column (cols : list string) : result string :=
  match find (fun col => existsb (String.eqb col) cols) HEADLINE_COL_CANDIDATES with
  | Some col => inr col
  | None => inl (headline_error cols)
  end.

(** [range(0, n, step)] for [0 < step]: [0, step, 2 step, ...] below [n]. *)
Fixpoint range_from (fuel i n step : nat) : list nat :=
  match fuel with
  | O => []
  | S f => if i <? n then i :: range_from f (i + step) n step else []
  end.

Definition range (n step : nat) : list nat := range_from n 0 n step.

(** [l[i:j]]. *)
Definition slice {A : Type} (l : list A) (i j : nat) : list A :=
  firstn (j - i) (skipn i l).

(** [chunked]: the successive slices [iterable[i:i + size]].  A zero [size]
    makes [range] raise. *)
Definition chunked {A : Type} (iterable : list A) (size : nat)
  : result (list (list A)) :=
  match size with
  | O => inl (ValueError "range() arg 3 must not be zero")
  | _ => inr (map (fun i => slice iterable i (i + size))
                  (range (List.length iterable) size))
  end.

(** The loaded classifier: tokenizer, forward pass and softmax taken
    together map a batch of texts to one row of class probabilities per
    text; the three class indices come from the model's label table. *)
Record finbert : Type := mkFinbert {
  probs_of_batch : list string -> list (list Q);
  pos_idx : nat;
  neg_idx : nat;
  neu_idx : nat
}.

(** [probs[:, idx].tolist()]. *)
Definition column_of (idx : nat) (probs : list (list Q)) : list Q :=
  map (fun row => nth idx row 0%Q) probs.

Definition extend3 (m : finbert) (acc : list Q * list Q * list Q)
  (batch : list string) : list Q * list Q * list Q :=
  let '(all_pos, all_neg, all_neu) := acc in
  let probs := probs_of_batch m batch in
  (all_pos ++ column_of (pos_idx m) probs,
   all_neg ++ column_of (neg_idx m) probs,
   all_neu ++ column_of (neu_idx m) probs).

(** [score_with_finbert]: one inference call per batch, results appended
    in batch order. *)
Definition score_with_finbert (texts : list string) (m : finbert)
  : result (list Q * list Q * list Q) :=
  rbind (chunked texts BATCH_SIZE)
        (fun batches => inr (fold_left (extend3 m) batches ([], [], []))).

(** The probability a row-wise classifier gives [text] for class [idx]. *)
Definition prob_at (classify : string -> list Q) (idx : nat) (text : string) : Q :=
  nth idx (classify text) 0%Q.

(** Continuous score: [POS - NEG]. *)
Definition score (pos neg : Q) : Q := (pos - neg)%Q.

Definition Qgtb (x y : Q) : bool := negb (Qle_bool x y).
Definition Qltb (x y : Q) : bool := negb (Qle_bool y x).

(** Discrete label. *)
Definition label (x : Q) : string :=
  if Qgtb x 0.05%Q then "positive"
  else if Qltb x (-0.05)%Q then "negative"
  else "neutral".

(** [df.dropna(subset=[col])]. *)
Definition dropna_subset (col : string) (df : frame raw_row) : frame raw_row :=
  mkFrame (columns df)
          (filter (fun r => match cell r col with Some _ => true | None => false end)
                  (rows df)).

(** [df[name] = ...]: a new column goes last, an existing one keeps its
    place. *)
Definition set_column (name : string) (cols : list string) : list string :=
  if existsb (String.eqb name) cols then cols else cols ++ [name].

Fixpoint zip3 (a b c : list Q) : list (Q * Q * Q) :=
  match a, b, c with
  | x :: a', y :: b', z :: c' => (x, y, z) :: zip3 a' b' c'
  | _, _, _ => []
  end.

(** [str(n)] with thousands separators, the [:,] format. *)
Fixpoint show_commas_fuel (fuel : nat) (n : N) (k : nat) (acc : string) : string :=
  match fuel with
  | O => acc
  | S f =>
      let acc' := if k =? 3 then String (Pd.digit n) (String ","%char acc)
                  else String (Pd.digit n) acc in
      let k' := if k =? 3 then 1 else S k in
      if (n <? 10)%N then acc' else show_commas_fuel f (n / 10)%N k' acc'
  end.

Definition show_commas (n : nat) : string :=
  show_commas_fuel (S n) (N.of_nat n) 0 EmptyString.

Section Run.
(** The UTC calendar date [pd.to_datetime(.., errors="coerce", utc=True)]
    reads from a timestamp text, [None] when it does not parse. *)
Variable parse_timestamp : string -> option date.
(** What [load_finbert] returns; loading itself is not part of the
    embedding. *)
Variable model : finbert.

Local Open Scope script_scope.

Definition F : Type := frame scored_row.

Definition timestamp_error : exn :=
  KeyError "TIMESTAMP column not found in news file; cannot derive DATE.".

Definition no_headlines : string := "No headlines found after dropping empty rows.".

(** [add_date_from_timestamp]: the rows with a valid timestamp, each with
    its [DATE] text. *)
Definition add_date_from_timestamp (df : frame raw_row)
  : script F (frame (raw_row * string)) :=
  if negb (has_column df "TIMESTAMP") then
    raise timestamp_error
  else
    print "Parsing TIMESTAMP -> DATE ..." ;;
    let ts := map (fun r => (r, Pd.on_text parse_timestamp (cell r "TIMESTAMP")))
                  (rows df) in
    let bad := List.length (filter (fun p => match snd p with None => true | Some _ => false end) ts) in
    (if 0 <? bad
     then print ("Dropping " ++ show_nat bad ++ " rows with invalid TIMESTAMP.")%string
     else ret tt) ;;
    let kept := flat_map (fun p => match snd p with
                                   | Some d => [(fst p, Pd.strftime_dmY d)]
                                   | None => []
                                   end) ts in
    ret (mkFrame (set_column "DATE" (set_column "TIMESTAMP_PARSED" (columns df)))
                 kept).

(** [df[col].astype(str)]. *)
Definition astype_str (col : string) (r : raw_row) : string :=
  match cell r col with Some s => s | None => "nan" end.

(** The error of [df[name] = values] for a list of the wrong length. *)
Definition length_error (values index : nat) : exn :=
  ValueError ("Length of values (" ++ show_nat values
              ++ ") does not match length of index (" ++ show_nat index ++ ")")%string.

(** The rows with their five sentiment columns: the three probability
    lists are assigned in turn, then [FINBERT_SCORE] and [FINBERT_LABEL] are
    computed row by row. *)
Definition add_sentiment (dated : list (raw_row * string))
  (pos neg neu : list Q) : result (list scored_row) :=
  let n := List.length dated in
  if negb (List.length pos =? n) then inl (length_error (List.length pos) n)
  else if negb (List.length neg =? n) then inl (length_error (List.length neg) n)
  else if negb (List.length neu =? n) then inl (length_error (List.length neu) n)
  else inr (Pd.zip_with (fun rd p =>
                           let '(p1, n1, u1) := p in
                           mkScored (fst rd) (snd rd) p1 n1 u1
                                    (score p1 n1) (label (score p1 n1)))
                        dated (zip3 pos neg neu)).

Definition sentiment_columns (cols : list string) : list string :=
  fold_left (fun acc name => set_column name acc)
            ["FINBERT_POS"; "FINBERT_NEG"; "FINBERT_NEU";
             "FINBERT_SCORE"; "FINBERT_LABEL"] cols.

(** [main].  [input] is the content of [INPUT_CSV], [None] when the file
    does not exist.  The pictograms that open the printed lines, the line
    that prints the model's label table and the table preview printed last
    are left out; arrows are written [->]. *)
Definition main (input : option (frame raw_row)) : script F unit :=
  match input with
  | None => raise (FileNotFoundError ("Input CSV not found at: " ++ INPUT_CSV)%string)
  | Some df0 =>
      print ("Reading news from: " ++ INPUT_CSV)%string ;;
      headline_col <- lift (find_headline_column (columns df0)) ;;
      print ("Using '" ++ headline_col ++ "' as headline text column.")%string ;;
      let df := dropna_subset headline_col df0 in
      if empty df then
        print no_headlines
      else
        dated <- add_date_from_timestamp df ;;
        print ("Loading FinBERT model: " ++ MODEL_NAME)%string ;;
        let headlines := map (fun rd => astype_str headline_col (fst rd)) (rows dated) in
        print ("Scoring " ++ show_nat (List.length headlines)
               ++ " headlines with FinBERT...")%string ;;
        probs <- lift (score_with_finbert headlines model) ;;
        let '(pos, neg, neu) := probs in
        scored <- lift (add_sentiment (rows dated) pos neg neu) ;;
        let out := mkFrame (sentiment_columns (columns dated)) scored in
        to_csv OUTPUT_CSV out ;;
        print ("Done. Saved " ++ show_commas (List.length scored) ++ " rows -> "
               ++ OUTPUT_CSV)%string ;;
        print ("Columns now include: DATE (dd/mm/yyyy), "
               ++ "FINBERT_POS, FINBERT_NEG, FINBERT_NEU, FINBERT_SCORE, FINBERT_LABEL")%string
  end.
End Run.

End SentimentFinbert.

(* ===================================================================== *)
(** * src/build_panel.py                                                  *)
(* ===================================================================== *)

Module BuildPanel.

Definition NEWS_FILE : string := "data/processed/news_AAPL.O_finbert.csv".
Definition PRICES_FILE : string := "data/raw/prices_AAPL.O.csv".
Definition OUTPUT_FILE : string := "data/processed/panel_AAPL_O_sentiment_prices.csv".

(** A row of the scored-news file as [pd.read_csv] returns it: text cells
    are [None] when empty, numeric cells are floats. *)
Module News.
Record row : Type := mkRow {
  DATE : option string;
  FINBERT_SCORE : float;
  FINBERT_LABEL : option string;
  FINBERT_POS : float;
  FINBERT_NEG : float;
  FINBERT_NEU : float
}.
End News.

(** One row per calendar date. *)
Module Daily.
Record row : Type := mkRow {
  DATE : date;
  DAILY_SENTIMENT : float;
  NUM_HEADLINES : nat;
  POS_SHARE : float;
  NEG_SHARE : float
}.
End Daily.

(** A price bar.  [CLOSE] is the cell of the column that the renaming calls
    [CLOSE]; the other columns are carried along in [rest]. *)
Module Price.
Record csv_row : Type := mkCsv {
  TIMESTAMP : option string;
  close_cell : float;
  rest_cells : list (string * string)
}.
Record row : Type := mkRow {
  DATE : option date;
  CLOSE : float;
  RETURN : float;
  rest : list (string * string)
}.
End Price.

(** A panel row: a price bar with the sentiment of the same date. *)
Module Panel.
Record row : Type := mkRow {
  price : Price.row;
  daily : Daily.row
}.
Definition DATE (r : row) : option date := Price.DATE (price r).
End Panel.

(** ** [load_news] *)

Definition sentiment_cols : list string :=
  ["DATE"; "FINBERT_SCORE"; "FINBERT_LABEL";
   "FINBERT_POS"; "FINBERT_NEG"; "FINBERT_NEU"].

(** [Series.mean()]: missing values are skipped. *)
Definition mean (col : list float) : float :=
  match filter notna col with
  | [] => NaN
  | xs => fdiv (fold_left fadd xs (Fin 0%Q))
               (Fin (inject_Z (Z.of_nat (List.length xs))))
  end.

(** [Series.count()]: the number of values that are not missing. *)
Definition count (col : list float) : nat := List.length (filter notna col).

Definition label_is (name : string) (c : option string) : bool :=
  match c with
  | Some s => String.eqb s name
  | None => false
  end.

(** The value of [x == name] as a number. *)
Definition indicator (name : string) (c : option string) : Q :=
  if label_is name c then 1%Q else 0%Q.

(** [(x == name).mean()]: the proportion of cells equal to [name]. *)
Definition share (name : string) (col : list (option string)) : float :=
  mean (map (fun c => if label_is name c then Fin 1%Q else Fin 0%Q) col).

(** The group keys of [groupby("DATE")]: the distinct dates in increasing
    order; rows without a date belong to no group. *)
Fixpoint insert_key (d : date) (keys : list date) : list date :=
  match keys with
  | [] => [d]
  | x :: rest =>
      if date_eqb d x then keys
      else if date_leb d x then d :: keys
      else x :: insert_key d rest
  end.

Definition group_keys (col : list (option date)) : list date :=
  fold_right (fun c acc => match c with
                           | Some d => insert_key d acc
                           | None => acc
                           end) [] col.

Definition on_date (d : date) (c : option date) : bool :=
  match c with
  | Some x => date_eqb x d
  | None => false
  end.

(** The rows of one group, in file order. *)
Definition group (d : date) (dated : list (option date * News.row))
  : list News.row :=
  map snd (filter (fun p => on_date d (fst p)) dated).

Definition aggregate (d : date) (g : list News.row) : Daily.row :=
  Daily.mkRow d
    (mean (map News.FINBERT_SCORE g))
    (count (map News.FINBERT_SCORE g))
    (share "positive" (map News.FINBERT_LABEL g))
    (share "negative" (map News.FINBERT_LABEL g)).

(** [news.groupby("DATE").agg(...).reset_index()]. *)
Definition daily_of (dated : list (option date * News.row)) : list Daily.row :=
  map (fun d => aggregate d (group d dated)) (group_keys (map fst dated)).

Definition missing_columns {R : Type} (df : frame R) (names : list string)
  : list string :=
  filter (fun n => negb (has_column df n)) names.

Definition date_error : exn := KeyError "FinBERT file must contain DATE column.".

(** The rows with [df["DATE"]] converted to dates; [dayfirst] is left at
    its default. *)
Definition dated (df : frame News.row) : list (option date * News.row) :=
  combine (Pd.to_datetime_coerce false (map News.DATE (rows df))) (rows df).

(** [load_news] on the content of [NEWS_FILE]. *)
Definition load_news (df : frame News.row) : result (list Daily.row) :=
  if negb (has_column df "DATE") then inl date_error
  else
    match missing_columns df sentiment_cols with
    | [] => inr (daily_of (dated df))
    | missing => inl (KeyError (repr_list missing ++ " not in index")%string)
    end.

(** ** [load_prices] *)

Definition rename (col : string) : string :=
  if String.eqb col "TRDPRC_1" then "CLOSE"
  else if String.eqb col "HIGH_1" then "HIGH"
  else if String.eqb col "LOW_1" then "LOW"
  else if String.eqb col "OPEN_PRC" then "OPEN"
  else if String.eqb col "ACVOL_UNS" then "VOLUME"
  else col.

Section Prices.
(** The calendar date [pd.to_datetime(.., errors="coerce")] reads from a
    price timestamp, [None] when it does not parse. *)
Variable parse_timestamp : string -> option date.

Definition with_date (r : Price.csv_row) : Price.row :=
  Price.mkRow (Pd.on_text parse_timestamp (Price.TIMESTAMP r))
              (Price.close_cell r) NaN (Price.rest_cells r).

Definition set_return (r : Price.row) (x : float) : Price.row :=
  Price.mkRow (Price.DATE r) (Price.CLOSE r) x (Price.rest r).

(** The rows in date order, each with its [RETURN]. *)
Definition with_returns (sorted : list Price.row) : list Price.row :=
  Pd.zip_with set_return sorted (Pd.pct_change (map Price.CLOSE sorted)).

(** The error of [df["RETURN"] = ...] when the renaming has made two
    columns called [CLOSE], so that [df["CLOSE"]] is a frame of two
    columns. *)
Definition two_closes_error : exn :=
  ValueError "Cannot set a DataFrame with multiple columns to the single column RETURN".

(** [load_prices] on the content of [PRICES_FILE]. *)
Definition load_prices (df : frame Price.csv_row) : result (list Price.row) :=
  if negb (has_column df "TIMESTAMP") then inl (KeyError "TIMESTAMP")
  else if negb (existsb (String.eqb "CLOSE") (map rename (columns df)))
  then inl (KeyError "CLOSE")
  else if 1 <? List.length (filter (String.eqb "CLOSE") (map rename (columns df)))
  then inl two_closes_error
  else inr (with_returns (Pd.sort_values Price.DATE (map with_date (rows df)))).

(** ** The join *)

Definition same_date (p : Price.row) (n : Daily.row) : bool :=
  on_date (Daily.DATE n) (Price.DATE p).

(** [prices.merge(news, on="DATE", how="inner")]: every pair of a price row
    and a sentiment row with the same date, in the order of the price
    rows. *)
Definition merge_inner (prices : list Price.row) (news : list Daily.row)
  : list Panel.row :=
  flat_map (fun p => map (Panel.mkRow p) (filter (same_date p) news)) prices.

(** The dtype of the [DATE] column of the table [load_news] returns: that
    of the column it groups by. *)
Definition news_key_dtype (news_file : option (frame News.row)) : Pd.dtype :=
  match news_file with
  | Some df => Pd.date_dtype (map fst (dated df))
  | None => Pd.object
  end.

(** The dtype of the [DATE] column of the table [load_prices] returns. *)
Definition price_key_dtype (prices : list Price.row) : Pd.dtype :=
  Pd.date_dtype (map Price.DATE prices).

(** [prices.merge(news, on="DATE", how="inner")] with the check of the
    key's dtypes that comes before the join. *)
Definition merge (prices : list Price.row) (news_dtype : Pd.dtype)
  (news : list Daily.row) : result (list Panel.row) :=
  rbind (Pd.check_merge_keys "DATE" (List.length prices) (price_key_dtype prices)
                             (List.length news) news_dtype)
        (fun _ => inr (merge_inner prices news)).

Local Open Scope script_scope.

Definition F : Type := list Panel.row.

(** [main].  The inputs are the contents of the two files, [None] for a
    file that does not exist.  The pictograms of the printed lines and
    the column list and preview printed last are left out. *)
Definition main (news_file : option (frame News.row))
  (prices_file : option (frame Price.csv_row)) : script F unit :=
  print "Loading sentiment..." ;;
  news <- match news_file with
          | None => raise (FileNotFoundError NEWS_FILE)
          | Some df => lift (load_news df)
          end ;;
  print ("News rows: " ++ show_nat (List.length news))%string ;;
  print "Loading prices..." ;;
  prices <- match prices_file with
            | None => raise (FileNotFoundError PRICES_FILE)
            | Some df => lift (load_prices df)
            end ;;
  print ("Price rows: " ++ show_nat (List.length prices))%string ;;
  panel <- lift (merge prices (news_key_dtype news_file) news) ;;
  to_csv OUTPUT_FILE panel ;;
  print "PANEL MERGED SUCCESSFULLY" ;;
  print ("Saved to: " ++ OUTPUT_FILE)%string ;;
  print ("Final rows: " ++ show_nat (List.length panel))%string.
End Prices.

End BuildPanel.

(* ===================================================================== *)
(** * src/build_wordclouds.py                                             *)
(* ===================================================================== *)

Module BuildWordclouds.

Definition NEWS_FILE : string := "data/processed/news_AAPL.O_finbert.csv".

(** The first step of [main]: the [DATE] column of the scored file, read
    day first ([pd.to_datetime(df["DATE"], dayfirst=True,
    errors="coerce")]).  The rest of the script renders pictures and is
    not part of the embedding. *)
Definition dates (df : frame BuildPanel.News.row) : list (option date) :=
  Pd.to_datetime_coerce true (map BuildPanel.News.DATE (rows df)).

End BuildWordclouds.

(* ===================================================================== *)
(** * The panel file as the analytics scripts read it                     *)
(* ===================================================================== *)

Module PanelFile.
(** [DATE] is the date [pd.to_datetime] reads from the cell ([None] for an
    empty cell); the numeric cells are kept by column name, a cell that
    is empty or not numeric being [NaN] for [pd.to_numeric(..,
    errors="coerce")]. *)
Record row : Type := mkRow {
  DATE : option date;
  values : list (string * float)
}.

Fixpoint get (vs : list (string * float)) (col : string) : float :=
  match vs with
  | [] => NaN
  | (c, v) :: rest => if String.eqb c col then v else get rest col
  end.

Definition value (col : string) (r : row) : float := get (values r) col.
Definition RETURN : row -> float := value "RETURN".
Definition DAILY_SENTIMENT : row -> float := value "DAILY_SENTIMENT".
End PanelFile.

(** What an analytics script writes: a table or a figure. *)
Inductive artifact : Type :=
| Table (header : list string) (body : list (list float))
| DatedTable (header : list string) (body : list (option date * list float))
| Figure (title : string).

Definition START_DATE : date := mkDate 2025 8 8.
Definition END_DATE : date := mkDate 2025 11 17.

(** [(df["DATE"] >= START_DATE) & (df["DATE"] <= END_DATE)]; a comparison
    with [NaT] is false. *)
Definition in_range (r : PanelFile.row) : bool :=
  match PanelFile.DATE r with
  | Some d => date_leb START_DATE d && date_leb d END_DATE
  | None => false
  end.

(** [df.loc[mask].sort_values("DATE").reset_index(drop=True)]. *)
Definition ranged (rows : list PanelFile.row) : list PanelFile.row :=
  Pd.sort_values PanelFile.DATE (filter in_range rows).

(* ===================================================================== *)
(** * src/build_correlation.py                                            *)
(* ===================================================================== *)

Module BuildCorrelation.

Definition PANEL_FILE : string := "data/processed/panel_AAPL_O_sentiment_prices.csv".
Definition CORR_TABLE : string := "data/processed/correlation_table.csv".
Definition CORR_PLOT : string := "data/processed/correlation_heatmap.png".
Definition DAILY_CORR_FILE : string := "data/processed/daily_correlation.csv".
Definition DAILY_CORR_PLOT : string :=
  "data/processed/rolling_corr_return_daily_sentiment.png".
Definition ROLL_WINDOW_DAYS : nat := 5.

Definition price_cols : list string :=
  ["CLOSE"; "HIGH"; "LOW"; "OPEN"; "VOLUME"; "BID"; "ASK"; "TRNOVR_UNS"; "VWAP";
   "BLKCOUNT"; "BLKVOLUM"; "NUM_MOVES"; "NAVALUE"; "VWAP_VOL"; "RETURN"].
Definition sentiment_cols : list string :=
  ["DAILY_SENTIMENT"; "POS_SHARE"; "NEG_SHARE"; "NUM_HEADLINES"].

Definition present {R : Type} (df : frame R) (names : list string) : list string :=
  filter (has_column df) names.

(** [df[df["RETURN"].notna()]]. *)
Definition drop_missing_return (rows : list PanelFile.row) : list PanelFile.row :=
  filter (fun r => notna (PanelFile.RETURN r)) rows.

(** The rows every statistic of the script is computed from (the frame
    after line 57). *)
Definition analysis_rows (rows : list PanelFile.row) : list PanelFile.row :=
  drop_missing_return (ranged rows).

Definition column (col : string) (rows : list PanelFile.row) : list float :=
  map (PanelFile.value col) rows.

Section Statistics.
(** [Series.corr]: Pearson correlation of two columns. *)
Variable corr : list float -> list float -> float.
(** [Series.rolling(w).corr(other)]. *)
Variable rolling_corr : nat -> list float -> list float -> list float.
(** The [:.4f] format. *)
Variable fmt4 : float -> string.

Local Open Scope script_scope.

(** [df[num_cols].corr()]. *)
Definition corr_matrix (cols : list string) (rows : list PanelFile.row)
  : list (list float) :=
  map (fun a => map (fun b => corr (column a rows) (column b rows)) cols) cols.

Definition rolling_name (col : string) : string :=
  ("RCORR_RETURN_" ++ col ++ "_" ++ show_nat ROLL_WINDOW_DAYS ++ "d")%string.

Fixpoint transpose_onto (dates : list (option date)) (cols : list (list float))
  : list (option date * list float) :=
  match dates with
  | [] => []
  | d :: rest =>
      (d, map (fun c => hd NaN c) cols) :: transpose_onto rest (map (@tl float) cols)
  end.

(** The line printed for each rolling column, in the order of the loop. *)
Fixpoint announce (cols : list string) : script artifact unit :=
  match cols with
  | [] => ret tt
  | col :: rest =>
      print ("Added rolling correlation column: " ++ rolling_name col)%string ;;
      announce rest
  end.

(** [main].  [panel_file] is the content of [PANEL_FILE], [None] when the
    file does not exist.  The pictograms and rules of the printed lines
    are left out. *)
Definition main (panel_file : option (frame PanelFile.row))
  : script artifact unit :=
  print ("Loading panel -> " ++ PANEL_FILE)%string ;;
  df <- match panel_file with
        | None => raise (FileNotFoundError PANEL_FILE)
        | Some df => ret df
        end ;;
  if negb (has_column df "DATE") then
    raise (KeyError "Expected a DATE column in the panel file.")
  else
    let filtered := ranged (rows df) in
    print ("Filtered rows: " ++ show_nat (List.length filtered)
           ++ " (from 2025-08-08 to 2025-11-17)")%string ;;
    let pcols := present df price_cols in
    let scols := present df sentiment_cols in
    if negb (existsb (String.eqb "RETURN") pcols) then raise (KeyError "RETURN")
    else
      let rows := drop_missing_return filtered in
      let num_cols := pcols ++ scols in
      print "Numeric fields considered for GLOBAL correlation:" ;;
      print (repr_list num_cols) ;;
      to_csv CORR_TABLE (Table num_cols (corr_matrix num_cols rows)) ;;
      print ("Correlation table saved -> " ++ CORR_TABLE)%string ;;
      to_csv CORR_PLOT (Figure "Correlation Heatmap: Sentiment vs Price Metrics") ;;
      print ("Correlation heatmap saved -> " ++ CORR_PLOT)%string ;;
      (if existsb (String.eqb "DAILY_SENTIMENT") scols then
         print "GLOBAL KEY RELATIONSHIP (over full period)" ;;
         print ("Correlation(DAILY_SENTIMENT, RETURN) = "
                ++ fmt4 (corr (column "RETURN" rows)
                              (column "DAILY_SENTIMENT" rows)))%string
       else ret tt) ;;
      let rolled := map (fun col => rolling_corr ROLL_WINDOW_DAYS
                                      (column "RETURN" rows) (column col rows))
                        scols in
      announce scols ;;
      to_csv DAILY_CORR_FILE
             (DatedTable ("DATE" :: map rolling_name scols)
                         (transpose_onto (map PanelFile.DATE rows) rolled)) ;;
      print ("Daily rolling correlations saved -> " ++ DAILY_CORR_FILE)%string ;;
      if existsb (String.eqb "DAILY_SENTIMENT") scols then
        to_csv DAILY_CORR_PLOT
               (Figure "5-Day Rolling Correlation: RETURN vs DAILY_SENTIMENT") ;;
        print ("Rolling correlation plot saved -> " ++ DAILY_CORR_PLOT)%string
      else
        print "No DAILY_SENTIMENT rolling correlation column found to plot.".
End Statistics.

End BuildCorrelation.

(* ===================================================================== *)
(** * src/lead_lag_sentiment_return.py                                    *)
(* ===================================================================== *)

Module LeadLag.

Definition PANEL_FILE : string := "data/processed/panel_AAPL_O_sentiment_prices.csv".
Definition LEAD_LAG_CSV : string := "data/processed/lead_lag_sentiment_return.csv".
Definition LEAD_LAG_PLOT_PNG : string :=
  "data/processed/lead_lag_sentiment_return_linechart.png".

(** A row of [df[["DATE", "DAILY_SENTIMENT", "RETURN_TOMORROW"]]]. *)
Record row : Type := mkRow {
  DATE : option date;
  DAILY_SENTIMENT : float;
  RETURN_TOMORROW : float
}.

(** No cell of the row is missing. *)
Definition complete (r : row) : bool :=
  match DATE r with
  | Some _ => notna (DAILY_SENTIMENT r) && notna (RETURN_TOMORROW r)
  | None => false
  end.

(** A row whose shifted return is the missing value [shift(-1)] fills in. *)
Definition last_row (r : PanelFile.row) : row :=
  mkRow (PanelFile.DATE r) (PanelFile.DAILY_SENTIMENT r) NaN.

(** The three columns after [df["RETURN_TOMORROW"] = df["RETURN"].shift(-1)]. *)
Definition with_tomorrow (rows : list PanelFile.row) : list row :=
  Pd.zip_with (fun r x => mkRow (PanelFile.DATE r) (PanelFile.DAILY_SENTIMENT r) x)
              rows (Pd.shift_up (map PanelFile.RETURN rows)).

(** [lead_lag]: the rows left by [dropna()]. *)
Definition lead_lag_table (rows : list PanelFile.row) : list row :=
  filter complete (with_tomorrow rows).

Definition body_of (t : list row) : list (option date * list float) :=
  map (fun r => (DATE r, [DAILY_SENTIMENT r; RETURN_TOMORROW r])) t.

Section Statistics.
(** [Series.corr]: Pearson correlation of two columns. *)
Variable corr : list float -> list float -> float.
(** The [:.4f] format. *)
Variable fmt4 : float -> string.

Local Open Scope script_scope.

Definition no_rows_error : exn :=
  ValueError "No rows after date filtering - check START_DATE / END_DATE.".

(** [main].  [panel_file] is the content of [PANEL_FILE], [None] when the
    file does not exist.  The pictograms and rules of the printed lines
    are left out and the dash of the first [ValueError] is written [-]. *)
Definition main (panel_file : option (frame PanelFile.row))
  : script artifact unit :=
  print ("Loading panel -> " ++ PANEL_FILE)%string ;;
  df <- match panel_file with
        | None => raise (FileNotFoundError PANEL_FILE)
        | Some df => ret df
        end ;;
  if negb (has_column df "DATE") then
    raise (KeyError "Expected a DATE column in the panel file.")
  else if negb (has_column df "RETURN") then raise (KeyError "RETURN")
  else if negb (has_column df "DAILY_SENTIMENT") then
    raise (KeyError "DAILY_SENTIMENT")
  else
    let filtered := mkFrame (columns df) (ranged (rows df)) in
    if empty filtered then
      raise (ValueError "No rows after date filtering - check START_DATE / END_DATE.")
    else
      let lead_lag := lead_lag_table (rows filtered) in
      match lead_lag with
      | [] => raise (ValueError "Lead/lag dataframe is empty - check RETURN column.")
      | _ =>
          print "LEAD/LAG CORRELATION" ;;
          print "Sentiment today  vs  Return tomorrow" ;;
          print ("Correlation(DAILY_SENTIMENT_t, RETURN_t+1) = "
                 ++ fmt4 (corr (map DAILY_SENTIMENT lead_lag)
                               (map RETURN_TOMORROW lead_lag)))%string ;;
          to_csv LEAD_LAG_CSV
                 (DatedTable ["DATE"; "DAILY_SENTIMENT"; "RETURN_TOMORROW"]
                             (body_of lead_lag)) ;;
          print ("Lead/lag data saved -> " ++ LEAD_LAG_CSV)%string ;;
          to_csv LEAD_LAG_PLOT_PNG
                 (Figure "Lead/Lag: Sentiment Today vs Return Tomorrow (AAPL.O)") ;;
          print ("Lead/lag line chart saved -> " ++ LEAD_LAG_PLOT_PNG)%string
      end.
End Statistics.

End LeadLag.

(* ===================================================================== *)
(** * src/sentiment_finbert.py: [load_finbert]                            *)
(* ===================================================================== *)

Module LoadFinbert.

(** [c.lower()] for one character of an ASCII text. *)
Definition lower_char (c : ascii) : ascii :=
  let n := N_of_ascii c in
  if ((65 <=? n) && (n <=? 90))%N then ascii_of_N (n + 32) else c.

(** [s.lower()] for an ASCII text. *)
Fixpoint lower (s : string) : string :=
  match s with
  | EmptyString => EmptyString
  | String c rest => String (lower_char c) (lower rest)
  end.

(** [d[key] = value] on a dict kept in insertion order. *)
Fixpoint dict_set (key : string) (value : nat) (d : list (string * nat))
  : list (string * nat) :=
  match d with
  | [] => [(key, value)]
  | (k, v) :: rest =>
      if String.eqb k key then (k, value) :: rest
      else (k, v) :: dict_set key value rest
  end.

(** [d.get(key)]. *)
Fixpoint dict_get (d : list (string * nat)) (key : string) : option nat :=
  match d with
  | [] => None
  | (k, v) :: rest => if String.eqb k key then Some v else dict_get rest key
  end.

(** One step of the comprehension: [d[v.lower()] = k]. *)
Definition enter (d : list (string * nat)) (kv : nat * string) : list (string * nat) :=
  dict_set (lower (snd kv)) (fst kv) d.

(** [{v.lower(): k for k, v in id2label.items()}]: the items are taken in
    order, a later one replacing an earlier one of the same key. *)
Definition label2id (id2label : list (nat * string)) : list (string * nat) :=
  fold_left enter id2label [].

(** [label2id[name]]. *)
Definition index_of (d : list (string * nat)) (name : string) : result nat :=
  match dict_get d name with
  | Some k => inr k
  | None => inl (KeyError name)
  end.

(** [load_finbert], given what [from_pretrained] provides: the classifier
    and its label table [model.config.id2label] (the items of the dict, in
    order).  The two lines it prints are left out. *)
Definition load_finbert (probs : list string -> list (list Q))
  (id2label : list (nat * string)) : result SentimentFinbert.finbert :=
  let d := label2id id2label in
  rbind (index_of d "positive") (fun pos_idx =>
  rbind (index_of d "negative") (fun neg_idx =>
  rbind (index_of d "neutral") (fun neu_idx =>
  inr (SentimentFinbert.mkFinbert probs pos_idx neg_idx neu_idx)))).

End LoadFinbert.

(* ===================================================================== *)
(** * src/fetch_news.py                                                   *)
(* ===================================================================== *)

Module FetchNews.

Definition OUTPUT_DIR : string := "../data/raw".
Definition RIC : string := "AAPL.O".
Definition LANG : string := "EN".
Definition START_DATE : date := mkDate 2025 8 10.
Definition END_DATE : date := mkDate 2025 11 22.

(** [os.path.join(OUTPUT_DIR, f"news_{RIC}.csv")]. *)
Definition out_file : string := (OUTPUT_DIR ++ "/news_" ++ RIC ++ ".csv")%string.

(** A UTC timestamp: its calendar date and the time of day, in
    nanoseconds. *)
Record stamp : Type := mkStamp { on : date; at_ns : N }.

Definition stamp_leb (a b : stamp) : bool :=
  if date_eqb (on a) (on b) then (at_ns a <=? at_ns b)%N
  else date_leb (on a) (on b).

(** A row of the frame the news API returns: the text of its index value
    (empty when missing) and its cells by column name. *)
Record api_row : Type := mkApi {
  index : option string;
  cells : SentimentFinbert.raw_row
}.

(** The frame [to_df(res.data)]: the name of its index, its columns and
    its rows.  Names are strings. *)
Record api_frame : Type := mkApiFrame {
  index_name : option string;
  api_columns : list string;
  api_rows : list api_row
}.

(** [df.empty]. *)
Definition api_empty (df : api_frame) : bool :=
  match api_rows df, api_columns df with
  | [], _ | _, [] => true
  | _, _ => false
  end.

(** The name [reset_index] gives the column made of the index: the name of
    the index, or [index] ([level_0] when there is an [index] column) for an
    index without a name. *)
Definition index_column (df : api_frame) : string :=
  match index_name df with
  | Some n => n
  | None => if existsb (String.eqb "index") (api_columns df)
            then "level_0" else "index"
  end.

(** The column that lines 58 to 61 rename to [TIMESTAMP]: the name of the
    index when it is truthy, [index] otherwise. *)
Definition timestamp_key (df : api_frame) : string :=
  match index_name df with
  | Some n => if String.eqb n EmptyString then "index" else n
  | None => "index"
  end.

(** [df.reset_index()]: the index becomes the first column; a column of
    that name must not exist. *)
Definition reset_index (df : api_frame) : result (frame SentimentFinbert.raw_row) :=
  if existsb (String.eqb (index_column df)) (api_columns df)
  then inl (ValueError ("cannot insert " ++ index_column df ++ ", already exists")%string)
  else inr (mkFrame (index_column df :: api_columns df)
                    (map (fun r => match index r with
                                   | Some t => (index_column df, t) :: cells r
                                   | None => cells r
                                   end) (api_rows df))).

(** [rename_map]. *)
Definition rename_map (col : string) : string :=
  if String.eqb col "headline" then "HEADLINE"
  else if String.eqb col "storyId" then "STORY_ID"
  else if String.eqb col "sourceCode" then "SOURCE"
  else col.

(** The two renamings, one after the other. *)
Definition relabel (df : api_frame) (col : string) : string :=
  rename_map (if String.eqb col (timestamp_key df) then "TIMESTAMP" else col).

Definition renamed (df : api_frame) (t : frame SentimentFinbert.raw_row)
  : frame SentimentFinbert.raw_row :=
  mkFrame (map (relabel df) (columns t))
          (map (map (fun cv => (relabel df (fst cv), snd cv))) (rows t)).

Definition keep_cols : list string :=
  ["TIMESTAMP"; "DATE"; "HEADLINE"; "SOURCE"; "STORY_ID"; "RIC"].

(** [[c for c in keep_cols if c in df.columns]], after [DATE] and [RIC]
    have been assigned. *)
Definition kept_columns (cols : list string) : list string :=
  let all := SentimentFinbert.set_column "RIC"
               (SentimentFinbert.set_column "DATE" cols) in
  filter (fun c => existsb (String.eqb c) all) keep_cols.

(** A row of the file the script writes.  A field whose column the file
    does not have is [None]. *)
Module News.
Record row : Type := mkRow {
  TIMESTAMP : stamp;
  DATE : date;
  HEADLINE : option string;
  SOURCE : option string;
  STORY_ID : option string;
  RIC : string
}.
End News.

(** [(df["DATE"] >= START_DATE.date()) & (df["DATE"] <= END_DATE.date())]. *)
Definition in_range (s : stamp) : bool :=
  date_leb START_DATE (on s) && date_leb (on s) END_DATE.

Definition id_eqb (a b : option string) : bool :=
  match a, b with
  | Some x, Some y => String.eqb x y
  | None, None => true
  | _, _ => false
  end.

(** [df.drop_duplicates(subset=["STORY_ID"])]: of the rows of one story
    id the first is kept; missing ids count as one id. *)
Fixpoint drop_duplicates_from (seen : list (option string)) (l : list News.row)
  : list News.row :=
  match l with
  | [] => []
  | x :: rest =>
      if existsb (id_eqb (News.STORY_ID x)) seen then drop_duplicates_from seen rest
      else x :: drop_duplicates_from (News.STORY_ID x :: seen) rest
  end.

Definition drop_duplicates (l : list News.row) : list News.row :=
  drop_duplicates_from [] l.

(** [df.sort_values("TIMESTAMP")]: ascending. *)
Fixpoint insert_row (r : News.row) (l : list News.row) : list News.row :=
  match l with
  | [] => [r]
  | x :: rest =>
      if stamp_leb (News.TIMESTAMP r) (News.TIMESTAMP x) then r :: x :: rest
      else x :: insert_row r rest
  end.

Definition sort_values (l : list News.row) : list News.row :=
  fold_right insert_row [] l.

(** [a] is not later than [b]. *)
Definition not_after (a b : News.row) : Prop :=
  stamp_leb (News.TIMESTAMP a) (News.TIMESTAMP b) = true.

Section Run.
(** The UTC timestamp [pd.to_datetime(.., errors="coerce", utc=True)] reads
    from an index value, [None] when it does not parse. *)
Variable parse_timestamp : string -> option stamp.

Local Open Scope script_scope.

Definition F : Type := frame News.row.

(** The rows that have a timestamp, each with it ([dropna] on
    [TIMESTAMP]). *)
Definition stamped (rows : list SentimentFinbert.raw_row)
  : list (stamp * SentimentFinbert.raw_row) :=
  flat_map (fun r => match Pd.on_text parse_timestamp
                             (SentimentFinbert.cell r "TIMESTAMP") with
                     | Some s => [(s, r)]
                     | None => []
                     end) rows.

Definition row_of (p : stamp * SentimentFinbert.raw_row) : News.row :=
  News.mkRow (fst p) (on (fst p))
             (SentimentFinbert.cell (snd p) "HEADLINE")
             (SentimentFinbert.cell (snd p) "SOURCE")
             (SentimentFinbert.cell (snd p) "STORY_ID")
             RIC.

(** The column [df["DATE"] = df["TIMESTAMP"].dt.date], before the rows
    without a timestamp are dropped. *)
Definition date_column (df : frame SentimentFinbert.raw_row) : list (option date) :=
  map (fun r => option_map on (Pd.on_text parse_timestamp
                                 (SentimentFinbert.cell r "TIMESTAMP")))
      (rows df).

(** The error of the date filter on a [DATE] column that is not made of
    dates: a [datetime64] column cannot be compared with a date. *)
Definition date_filter_error : exn :=
  TypeError "Invalid comparison between dtype=datetime64[ns] and date".

(** The rows left by the date filter, in the order of the frame. *)
Definition in_range_rows (df : frame SentimentFinbert.raw_row)
  : list (stamp * SentimentFinbert.raw_row) :=
  filter (fun p => in_range (fst p)) (stamped (rows df)).

(** The same rows with the columns [main] keeps. *)
Definition news_rows (df : frame SentimentFinbert.raw_row) : list News.row :=
  map row_of (in_range_rows df).

(** [main] from line 51 on.  [res] is the frame made of the answer of the
    news API; opening the session and the request are not part of the
    embedding.  Column names are taken to be distinct after the renamings.
    When no timestamp of the answer parses, [DATE] is a [datetime64] column
    and the date filter raises.  The pictograms of the printed lines and the sample printed last are
    left out; arrows are written [->]. *)
Definition main (res : api_frame) : script F unit :=
  print "Session opened for news." ;;
  print "Query Used:" ;;
  print ("R:" ++ RIC ++ " AND Language:" ++ LANG)%string ;;
  if api_empty res then
    print "Still no data. Something is wrong in SDK or permissions."
  else
    indexed <- lift (reset_index res) ;;
    let df := renamed res indexed in
    if negb (has_column df "TIMESTAMP") then raise (KeyError "TIMESTAMP")
    else if Pd.dtype_eqb (Pd.date_dtype (date_column df)) Pd.datetime64
    then raise date_filter_error
    else
      print "Filtered to range 2025-08-10 -> 2025-11-22" ;;
      print ("Rows after filtering: "
             ++ show_nat (List.length (in_range_rows df)))%string ;;
      let header := kept_columns (columns df) in
      let news := news_rows df in
      let unique := if existsb (String.eqb "STORY_ID") header
                    then drop_duplicates news else news in
      let sorted := sort_values unique in
      to_csv out_file (mkFrame header sorted) ;;
      print ("Saved " ++ show_nat (List.length sorted) ++ " headlines -> "
             ++ out_file)%string.
End Run.

End FetchNews.

(* ===================================================================== *)
(** * src/fetch_prices.py                                                 *)
(* ===================================================================== *)

Module FetchPrices.

Definition OUTPUT_DIR : string := "../data/raw".
Definition RIC : string := "AAPL.O".

(** [os.path.join(OUTPUT_DIR, f"prices_{RIC}.csv")]. *)
Definition out : string := (OUTPUT_DIR ++ "/prices_" ++ RIC ++ ".csv")%string.

(** [df.rename(columns={key: "TIMESTAMP"})]. *)
Definition to_timestamp (key col : string) : string :=
  if String.eqb col key then "TIMESTAMP" else col.

Definition rename (key : string) (t : frame SentimentFinbert.raw_row)
  : frame SentimentFinbert.raw_row :=
  mkFrame (map (to_timestamp key) (columns t))
          (map (map (fun cv => (to_timestamp key (fst cv), snd cv))) (rows t)).

(** Lines 35 to 38: an index that has a name becomes the column
    [TIMESTAMP]; without one, a [DATE] column is renamed and the index is
    left where it is, to be dropped when the file is written. *)
Definition with_timestamp (df : FetchNews.api_frame)
  : result (frame SentimentFinbert.raw_row) :=
  match FetchNews.index_name df with
  | Some n => rbind (FetchNews.reset_index df) (fun t => inr (rename n t))
  | None =>
      let t := mkFrame (FetchNews.api_columns df)
                       (map FetchNews.cells (FetchNews.api_rows df)) in
      if existsb (String.eqb "DATE") (FetchNews.api_columns df)
      then inr (rename "DATE" t) else inr t
  end.

Local Open Scope script_scope.

Definition F : Type := frame SentimentFinbert.raw_row.

(** [main] from line 32 on.  [res] is the frame made of the answer of the
    pricing API; the session and the request are not part of the embedding.
    Names are strings and distinct.  The pictograms of the printed lines
    are left out; the arrow is written [->]. *)
Definition main (res : FetchNews.api_frame) : script F unit :=
  print "Session opened." ;;
  df <- lift (with_timestamp res) ;;
  match rows df with
  | [] => print "No rows returned."
  | _ =>
      to_csv out df ;;
      print ("Saved -> " ++ out)%string ;;
      print ("Columns: " ++ repr_list (columns df))%string
  end.

End FetchPrices.

(* ===================================================================== *)
(** * src/sentiment_finbert.py: the columns [main] adds                   *)
(* ===================================================================== *)

Module Scorer.

(** The columns [main] assigns, in the order of the assignments:
    [TIMESTAMP_PARSED] and [DATE] in [add_date_from_timestamp], then the
    five sentiment columns. *)
Definition added_columns : list string :=
  ["TIMESTAMP_PARSED"; "DATE"; "FINBERT_POS"; "FINBERT_NEG"; "FINBERT_NEU";
   "FINBERT_SCORE"; "FINBERT_LABEL"].

End Scorer.

(* ===================================================================== *)
(** * Predicates on cells                                                 *)
(* ===================================================================== *)

Module Pred.

(** A score cell that is missing or a number between [lo] and [hi]. *)
Definition score_within (lo hi : Q) (x : float) : Prop :=
  match x with
  | Fin q => (lo <= q <= hi)%Q
  | NaN => True
  | Inf _ => False
  end.

(** The label of the opposite sentiment. *)
Definition opposite (l : string) : string :=
  if String.eqb l "positive" then "negative"
  else if String.eqb l "negative" then "positive"
  else l.

(** The labels in the order negative, neutral, positive. *)
Definition rank (l : string) : nat :=
  if String.eqb l "negative" then 0
  else if String.eqb l "positive" then 2
  else 1.

End Pred.

(* ===================================================================== *)
(** * The words of the specification                                      *)
(* ===================================================================== *)

Module Spec.

Definition Qsum (qs : list Q) : Q := fold_left Qplus qs 0%Q.

(** The arithmetic mean of a list of numbers. *)
Definition arithmetic_mean (qs : list Q) : Q :=
  (Qsum qs / inject_Z (Z.of_nat (List.length qs)))%Q.

(** The proportion of the elements of [l] that satisfy [p]. *)
Definition proportion {A : Type} (p : A -> bool) (l : list A) : Q :=
  (inject_Z (Z.of_nat (List.length (filter p l)))
   / inject_Z (Z.of_nat (List.length l)))%Q.

(** The change of a value over the one before it: [cur / prev - 1]. *)
Definition change (cur prev : float) : float := fsub (fdiv cur prev) (Fin 1%Q).

(** The lead-lag pairing: each row but the last with the return of the row
    that follows it. *)
Fixpoint pair_with_next (rows : list PanelFile.row) : list LeadLag.row :=
  match rows with
  | r :: ((next :: _) as rest) =>
      LeadLag.mkRow (PanelFile.DATE r) (PanelFile.DAILY_SENTIMENT r)
                    (PanelFile.RETURN next)
      :: pair_with_next rest
  | _ => []
  end.

End Spec.

(* ===================================================================== *)
(** * Sample inputs                                                       *)
(* ===================================================================== *)

Module Sample.

(** A classifier that gives every text the same three probabilities, with
    the label table negative = 0, neutral = 1, positive = 2. *)
Definition constant_model : SentimentFinbert.finbert :=
  SentimentFinbert.mkFinbert
    (fun batch => map (fun _ => [0.1%Q; 0.2%Q; 0.7%Q]) batch) 2 0 1.

(** A classifier whose answer depends on the text: one row for texts of
    fewer than ten characters, another for longer ones. *)
Definition by_length (text : string) : list Q :=
  if String.length text <? 10 then [0.1%Q; 0.2%Q; 0.7%Q]
  else [0.6%Q; 0.3%Q; 0.1%Q].

Definition length_model : SentimentFinbert.finbert :=
  SentimentFinbert.mkFinbert (map by_length) 2 0 1.

(** Timestamps that are a date [yyyy-mm-dd] followed by a time. *)
Definition iso_date (s : string) : option date :=
  match Pd.parse_number (substring 0 4 s),
        Pd.parse_number (substring 5 2 s),
        Pd.parse_number (substring 8 2 s) with
  | Some y, Some m, Some d =>
      if valid_ymd y m d then Some (mkDate y m d) else None
  | _, _, _ => None
  end.

Definition one_headline : frame SentimentFinbert.raw_row :=
  mkFrame ["TIMESTAMP"; "HEADLINE"; "STORY_ID"]
          [[("TIMESTAMP", "2025-09-15T10:00:00Z"); ("HEADLINE", "Apple rises");
            ("STORY_ID", "s1")]].

Definition one_scored : SentimentFinbert.scored_row :=
  SentimentFinbert.mkScored
    [("TIMESTAMP", "2025-09-15T10:00:00Z"); ("HEADLINE", "Apple rises");
     ("STORY_ID", "s1")]
    "15/09/2025" 0.7%Q 0.1%Q 0.2%Q
    (SentimentFinbert.score 0.7%Q 0.1%Q)
    (SentimentFinbert.label (SentimentFinbert.score 0.7%Q 0.1%Q)).

(** A news file whose two rows have no headline text. *)
Definition blank_headlines : frame SentimentFinbert.raw_row :=
  mkFrame ["TIMESTAMP"; "HEADLINE"]
          [[("TIMESTAMP", "2025-09-15T10:00:00Z")];
           [("TIMESTAMP", "2025-09-16T11:30:00Z")]].

(** A panel whose only row is dated before [START_DATE]. *)
Definition stale_panel : frame PanelFile.row :=
  mkFrame ["DATE"; "CLOSE"; "RETURN"; "DAILY_SENTIMENT"]
          [PanelFile.mkRow (Some (mkDate 2024 1 2))
             [("CLOSE", Fin 100%Q); ("RETURN", Fin 0.01%Q);
              ("DAILY_SENTIMENT", Fin 0.2%Q)]].

Definition no_corr (_ _ : list float) : float := NaN.
Definition show_nan (_ : float) : string := "nan".

(** The scored file of one headline of 5 September 2025, as the scorer
    writes it and [pd.read_csv] reads it. *)
Definition scored_5_september : frame BuildPanel.News.row :=
  mkFrame ["TIMESTAMP"; "HEADLINE"; "TIMESTAMP_PARSED"; "DATE"; "FINBERT_POS";
           "FINBERT_NEG"; "FINBERT_NEU"; "FINBERT_SCORE"; "FINBERT_LABEL"]
          [BuildPanel.News.mkRow (Some (Pd.strftime_dmY (mkDate 2025 9 5)))
             (Fin (SentimentFinbert.score 0.7%Q 0.1%Q))
             (Some (SentimentFinbert.label (SentimentFinbert.score 0.7%Q 0.1%Q)))
             (Fin 0.7%Q) (Fin 0.1%Q) (Fin 0.2%Q)].

Definition scored (d : string) (s : Q) : BuildPanel.News.row :=
  BuildPanel.News.mkRow (Some d) (Fin s) (Some (SentimentFinbert.label s))
                        (Fin 0%Q) (Fin 0%Q) (Fin 0%Q).

(** A scored file with three headlines of one date, of scores 0.2, -0.4
    and 0.1, each with the label the scorer gives its score. *)
Definition three_headlines : frame BuildPanel.News.row :=
  mkFrame BuildPanel.sentiment_cols
          [scored "15/09/2025" 0.2%Q; scored "15/09/2025" (-0.4)%Q;
           scored "15/09/2025" 0.1%Q].

Definition rows_of {A : Type} (r : result (list A)) : list A :=
  match r with
  | inr l => l
  | inl _ => []
  end.

Definition three_daily : list BuildPanel.Daily.row :=
  rows_of (BuildPanel.load_news three_headlines).

(** Three headlines on 15 September, one on the 16th and one on the 20th. *)
Definition scored_file : frame BuildPanel.News.row :=
  mkFrame BuildPanel.sentiment_cols
          [scored "15/09/2025" 0.2%Q; scored "16/09/2025" 0.3%Q;
           scored "15/09/2025" (-0.4)%Q; scored "20/09/2025" 0.0%Q;
           scored "15/09/2025" 0.1%Q].

(** Price bars of 16, 14 and 15 September. *)
Definition price_file : frame BuildPanel.Price.csv_row :=
  mkFrame ["TIMESTAMP"; "TRDPRC_1"; "ACVOL_UNS"]
          [BuildPanel.Price.mkCsv (Some "2025-09-16") (Fin 103%Q) [("ACVOL_UNS", "900")];
           BuildPanel.Price.mkCsv (Some "2025-09-14") (Fin 100%Q) [("ACVOL_UNS", "700")];
           BuildPanel.Price.mkCsv (Some "2025-09-15") (Fin 105%Q) [("ACVOL_UNS", "800")]].

Definition daily_rows : list BuildPanel.Daily.row :=
  rows_of (BuildPanel.load_news scored_file).

Definition price_rows : list BuildPanel.Price.row :=
  rows_of (BuildPanel.load_prices iso_date price_file).

Definition panel_row (d : date) (ret sentiment : float) : PanelFile.row :=
  PanelFile.mkRow (Some d) [("RETURN", ret); ("DAILY_SENTIMENT", sentiment)].

(** Four dates of the range with sentiments 0.1, 0.2, 0.3, 0.4 and returns
    0.01, -0.02, 0.03, 0.04, the rows of the file not in date order. *)
Definition four_days : frame PanelFile.row :=
  mkFrame ["DATE"; "RETURN"; "DAILY_SENTIMENT"]
          [panel_row (mkDate 2025 9 17) (Fin 0.03%Q) (Fin 0.3%Q);
           panel_row (mkDate 2025 9 15) (Fin 0.01%Q) (Fin 0.1%Q);
           panel_row (mkDate 2025 9 18) (Fin 0.04%Q) (Fin 0.4%Q);
           panel_row (mkDate 2025 9 16) (Fin (-0.02)%Q) (Fin 0.2%Q)].

(** Three dates of the range; the return of the second is missing. *)
Definition gap_in_returns : frame PanelFile.row :=
  mkFrame ["DATE"; "RETURN"; "DAILY_SENTIMENT"]
          [panel_row (mkDate 2025 9 15) (Fin 0.01%Q) (Fin 0.1%Q);
           panel_row (mkDate 2025 9 16) NaN (Fin 0.2%Q);
           panel_row (mkDate 2025 9 17) (Fin 0.03%Q) (Fin 0.3%Q)].

End Sample.

(* ===================================================================== *)
(** * Further sample inputs                                               *)
(* ===================================================================== *)

Module Cases.

(** A news file whose header has two of the accepted names, the later
    candidate first. *)
Definition two_candidates : list string := ["TIMESTAMP"; "title"; "HEADLINE"].

(** The label table the source quotes. *)
Definition finbert_labels : list (nat * string) :=
  [(0, "negative"); (1, "neutral"); (2, "positive")].

(** Three headlines: one without text, one whose timestamp does not parse,
    one complete; the file already has a [DATE] column. *)
Definition mixed_news : frame SentimentFinbert.raw_row :=
  mkFrame ["TIMESTAMP"; "DATE"; "HEADLINE"; "STORY_ID"]
          [[("TIMESTAMP", "2025-09-15T10:00:00Z"); ("DATE", "2025-09-15");
            ("STORY_ID", "s1")];
           [("TIMESTAMP", "soon"); ("DATE", "2025-09-16");
            ("HEADLINE", "Apple shares fall"); ("STORY_ID", "s2")];
           [("TIMESTAMP", "2025-09-17T08:30:00Z"); ("DATE", "2025-09-17");
            ("HEADLINE", "iPhone"); ("STORY_ID", "s3")]].

(** The same file without its [TIMESTAMP] column. *)
Definition no_timestamp : frame SentimentFinbert.raw_row :=
  mkFrame ["DATE"; "HEADLINE"]
          [[("DATE", "2025-09-17"); ("HEADLINE", "iPhone")]].

(** A scored row whose score and label are missing. *)
Definition unscored (d : string) : BuildPanel.News.row :=
  BuildPanel.News.mkRow (Some d) NaN None NaN NaN NaN.

(** A day without any score, and a day with one score and one gap. *)
Definition partly_scored : frame BuildPanel.News.row :=
  mkFrame BuildPanel.sentiment_cols
          [unscored "15/09/2025"; Sample.scored "16/09/2025" 0.3%Q;
           unscored "16/09/2025"].

(** Price bars of three days, the close of the second one missing. *)
Definition gap_prices : frame BuildPanel.Price.csv_row :=
  mkFrame ["TIMESTAMP"; "TRDPRC_1"]
          [BuildPanel.Price.mkCsv (Some "2025-09-14") (Fin 100%Q) [];
           BuildPanel.Price.mkCsv (Some "2025-09-15") NaN [];
           BuildPanel.Price.mkCsv (Some "2025-09-16") (Fin 103%Q) []].

(** A price file whose timestamps are not dates. *)
Definition undated_prices : frame BuildPanel.Price.csv_row :=
  mkFrame ["TIMESTAMP"; "TRDPRC_1"]
          [BuildPanel.Price.mkCsv (Some "n/a") (Fin 100%Q) [];
           BuildPanel.Price.mkCsv (Some "n/a") (Fin 105%Q) []].

(** A panel with one row, dated in the range. *)
Definition single_day : frame PanelFile.row :=
  mkFrame ["DATE"; "RETURN"; "DAILY_SENTIMENT"]
          [Sample.panel_row (mkDate 2025 9 15) (Fin 0.01%Q) (Fin 0.1%Q)].

(** A scored file with headlines of 5, 15 and 10 September 2025, the
    [DATE] column as the scorer writes it. *)
Definition september : frame BuildPanel.News.row :=
  mkFrame BuildPanel.sentiment_cols
          [Sample.scored (Pd.strftime_dmY (mkDate 2025 9 5)) 0.2%Q;
           Sample.scored (Pd.strftime_dmY (mkDate 2025 9 15)) 0.3%Q;
           Sample.scored (Pd.strftime_dmY (mkDate 2025 9 10)) 0.1%Q].

(** Timestamps [yyyy-mm-ddThh:mm...]: the date and the hour of the day. *)
Definition iso_stamp (s : string) : option FetchNews.stamp :=
  match Sample.iso_date s, Pd.parse_number (substring 11 2 s) with
  | Some d, Some h => Some (FetchNews.mkStamp d (h * 3600000000000)%N)
  | _, _ => None
  end.

(** An answer of the news API, newest first: story [s2] twice, one
    headline of July and one row whose time is missing. *)
Definition api_answer : FetchNews.api_frame :=
  FetchNews.mkApiFrame (Some "versionCreated") ["headline"; "storyId"; "title"]
    [FetchNews.mkApi (Some "2025-09-17T08:30:00Z")
       [("headline", "iPhone"); ("storyId", "s3")];
     FetchNews.mkApi (Some "2025-09-16T12:00:00Z")
       [("headline", "Apple shares fall (update)"); ("storyId", "s2")];
     FetchNews.mkApi (Some "2025-09-16T09:00:00Z")
       [("headline", "Apple shares fall"); ("storyId", "s2")];
     FetchNews.mkApi None [("headline", "Undated"); ("storyId", "s4")];
     FetchNews.mkApi (Some "2025-07-01T10:00:00Z")
       [("headline", "Old news"); ("storyId", "s1")]].

(** Eighteen headlines: more than one batch. *)
Definition eighteen_texts : list string :=
  repeat "Apple up" 17 ++ ["iPhone"].

(** A classifier whose answer depends on the batch: the rows of a full
    batch differ from those of a shorter one. *)
Definition batch_model : SentimentFinbert.finbert :=
  SentimentFinbert.mkFinbert
    (fun batch => map (fun _ => if List.length batch <? 16
                                then [0.6%Q; 0.3%Q; 0.1%Q]
                                else [0.1%Q; 0.2%Q; 0.7%Q]) batch)
    2 0 1.


(** An answer whose index values are not timestamps. *)
Definition undated_answer : FetchNews.api_frame :=
  FetchNews.mkApiFrame (Some "versionCreated") ["headline"; "storyId"]
    [FetchNews.mkApi (Some "n/a") [("headline", "iPhone"); ("storyId", "s3")];
     FetchNews.mkApi None [("headline", "Undated"); ("storyId", "s4")]].

(** The same answer with an index whose name is the empty text. *)
Definition blank_index_name : FetchNews.api_frame :=
  FetchNews.mkApiFrame (Some EmptyString) (FetchNews.api_columns api_answer)
                       (FetchNews.api_rows api_answer).

(** An answer of the pricing API: two daily bars under an index called
    [Date]. *)
Definition price_answer : FetchNews.api_frame :=
  FetchNews.mkApiFrame (Some "Date") ["TRDPRC_1"; "ACVOL_UNS"]
    [FetchNews.mkApi (Some "2025-09-15") [("TRDPRC_1", "105"); ("ACVOL_UNS", "800")];
     FetchNews.mkApi (Some "2025-09-16") [("TRDPRC_1", "103"); ("ACVOL_UNS", "900")]].

Definition mixed_scored : frame SentimentFinbert.scored_row :=
  mkFrame ["TIMESTAMP"; "DATE"; "HEADLINE"; "STORY_ID"; "TIMESTAMP_PARSED";
           "FINBERT_POS"; "FINBERT_NEG"; "FINBERT_NEU"; "FINBERT_SCORE";
           "FINBERT_LABEL"]
          [SentimentFinbert.mkScored
             [("TIMESTAMP", "2025-09-17T08:30:00Z"); ("DATE", "2025-09-17");
              ("HEADLINE", "iPhone"); ("STORY_ID", "s3")]
             "17/09/2025" 0.7%Q 0.1%Q 0.2%Q
             (SentimentFinbert.score 0.7%Q 0.1%Q)
             (SentimentFinbert.label (SentimentFinbert.score 0.7%Q 0.1%Q))].

End Cases.

(* ===================================================================== *)
(** * Properties of the sentiment scorer                                  *)
(* ===================================================================== *)

Section ScorerFacts.
Import SentimentFinbert.
Local Open Scope Q_scope.

Lemma Qgtb_true (x y : Q) : Qgtb x y = true <-> y < x.
Proof.
  unfold Qgtb. rewrite negb_true_iff.
  destruct (Qle_bool x y) eqn:E.
  - apply Qle_bool_iff in E. split; [discriminate | intros H; exfalso; lra].
  - split; [intros _ | reflexivity].
    apply Qnot_le_lt. intros H. apply Qle_bool_iff in H. congruence.
Qed.

Lemma Qltb_true (x y : Q) : Qltb x y = true <-> x < y.
Proof. unfold Qltb. apply (Qgtb_true y x). Qed.

Lemma label_positive (x : Q) : 0.05 < x -> label x = "positive"%string.
Proof.
  intros H. unfold label. apply Qgtb_true in H. rewrite H. reflexivity.
Qed.

Lemma label_negative (x : Q) : x < -0.05 -> label x = "negative"%string.
Proof.
  intros H. unfold label.
  destruct (Qgtb x 0.05) eqn:E.
  - apply Qgtb_true in E. exfalso. lra.
  - apply Qltb_true in H. rewrite H. reflexivity.
Qed.

Lemma label_neutral (x : Q) : -0.05 <= x <= 0.05 -> label x = "neutral"%string.
Proof.
  intros [H1 H2]. unfold label.
  destruct (Qgtb x 0.05) eqn:E.
  - apply Qgtb_true in E. exfalso. lra.
  - destruct (Qltb x (-0.05)) eqn:E'.
    + apply Qltb_true in E'. exfalso. lra.
    + reflexivity.
Qed.

(** The label depends on the value of the score only. *)
Lemma label_compat (x y : Q) : x == y -> label x = label y.
Proof.
  intros H.
  destruct (Qlt_le_dec 0.05 x) as [Hp | Hp].
  - rewrite !label_positive; [reflexivity | lra | lra].
  - destruct (Qlt_le_dec x (-0.05)) as [Hn | Hn].
    + rewrite !label_negative; [reflexivity | lra | lra].
    + rewrite !label_neutral; [reflexivity | lra | lra].
Qed.

Lemma score_bounds (pos neg : Q) :
  0 <= pos <= 1 -> 0 <= neg <= 1 -> -1 <= score pos neg <= 1.
Proof. unfold score. intros [? ?] [? ?]. split; lra. Qed.

(** The bound survives any rounding of the difference that is monotone and
    leaves [-1] and [1] alone, as float subtraction does. *)
Lemma score_bounds_rounded (rnd : Q -> Q) (pos neg : Q) :
  (forall a b, a <= b -> rnd a <= rnd b) -> rnd (-1) == -1 -> rnd 1 == 1 ->
  0 <= pos <= 1 -> 0 <= neg <= 1 -> -1 <= rnd (score pos neg) <= 1.
Proof.
  intros Hm Hlo Hhi Hp Hn.
  destruct (score_bounds Hp Hn) as [H1 H2]. split.
  - rewrite <- Hlo. apply Hm. exact H1.
  - rewrite <- Hhi. apply Hm. exact H2.
Qed.

Lemma zip_with_In {A B C : Type} (f : A -> B -> C) (l : list A) (r : list B) (z : C) :
  In z (Pd.zip_with f l r) -> exists x y, In x l /\ In y r /\ z = f x y.
Proof.
  revert r. induction l as [| a l IH]; intros [| b r]; simpl; try tauto.
  intros [<- | H].
  - exists a, b. auto.
  - destruct (IH _ H) as (x & y & ? & ? & ?). exists x, y. auto.
Qed.

(** Every row built by [add_sentiment] carries the score and the label of
    its own probabilities. *)
Lemma add_sentiment_rows dated pos neg neu scored (r : scored_row) :
  add_sentiment dated pos neg neu = inr scored -> In r scored ->
  FINBERT_SCORE r = score (FINBERT_POS r) (FINBERT_NEG r)
  /\ FINBERT_LABEL r = label (FINBERT_SCORE r).
Proof.
  unfold add_sentiment. repeat (destruct (negb _); [discriminate |]).
  intros [= <-] H. apply zip_with_In in H.
  destruct H as (rd & [[p n] u] & _ & _ & ->). simpl. auto.
Qed.

(** What [main] writes is one file made of [add_sentiment]'s rows. *)
Lemma main_written parse model input path (out : frame scored_row) :
  In (path, out) (written (fst (main parse model input start))) ->
  path = OUTPUT_CSV
  /\ exists dated pos neg neu, add_sentiment dated pos neg neu = inr (rows out).
Proof.
  destruct input as [df |]; [| simpl; tauto].
  cbv beta iota zeta delta [main add_date_from_timestamp bind print lift
    to_csv raise ret start fst snd written stdout].
  destruct (find_headline_column (columns df)) as [e | col]; [simpl; tauto |].
  destruct (empty _); [simpl; tauto |].
  destruct (negb _); [simpl; tauto |].
  destruct (0 <? _)%nat;
  (destruct (score_with_finbert _ model) as [e | [[pos neg] neu]]; [simpl; tauto |]);
  (match goal with |- context [add_sentiment ?d ?p ?n ?u] =>
     destruct (add_sentiment d p n u) as [e | scored] eqn:E end; [simpl; tauto |]);
  simpl; (intros [[= <- <-] | []]); (split; [reflexivity |]); simpl; eauto.
Qed.

End ScorerFacts.

(** C1.  Every row the scorer writes has score = POS - NEG, which lies in
    [-1, 1] when both probabilities lie in [0, 1]; its label is [label] of
    the score, and [label] is "positive" above 0.05, "negative" below -0.05
    and "neutral" in between, the two thresholds included. *)
Theorem scorer_score_and_label
  (parse : string -> option date) (model : SentimentFinbert.finbert)
  (input : option (frame SentimentFinbert.raw_row)) (path : string)
  (out : frame SentimentFinbert.scored_row) (r : SentimentFinbert.scored_row) :
  In (path, out) (written (fst (SentimentFinbert.main parse model input start))) ->
  In r (rows out) ->
  (0 <= SentimentFinbert.FINBERT_POS r <= 1)%Q ->
  (0 <= SentimentFinbert.FINBERT_NEG r <= 1)%Q ->
  (SentimentFinbert.FINBERT_SCORE r
   == SentimentFinbert.FINBERT_POS r - SentimentFinbert.FINBERT_NEG r)%Q
  /\ (-1 <= SentimentFinbert.FINBERT_SCORE r <= 1)%Q
  /\ SentimentFinbert.FINBERT_LABEL r
     = SentimentFinbert.label (SentimentFinbert.FINBERT_SCORE r)
  /\ (forall x y : Q, (x == y)%Q -> SentimentFinbert.label x = SentimentFinbert.label y)
  /\ (forall x : Q, (0.05 < x)%Q -> SentimentFinbert.label x = "positive")
  /\ (forall x : Q, (x < -0.05)%Q -> SentimentFinbert.label x = "negative")
  /\ (forall x : Q, (-0.05 <= x <= 0.05)%Q -> SentimentFinbert.label x = "neutral")
  /\ SentimentFinbert.label 0.05%Q = "neutral"
  /\ SentimentFinbert.label (-0.05)%Q = "neutral".
Proof.
  intros Hw Hr Hp Hn.
  destruct (main_written _ _ _ _ _ Hw) as (_ & dated & pos & neg & neu & Hadd).
  destruct (add_sentiment_rows _ _ _ _ _ Hadd Hr) as [Hs Hl].
  split; [rewrite Hs; reflexivity |].
  split; [rewrite Hs; apply score_bounds; assumption |].
  split; [exact Hl |].
  split; [exact label_compat |].
  split; [exact label_positive |].
  split; [exact label_negative |].
  split; [exact label_neutral |].
  split; reflexivity.
Qed.

Lemma scorer_score_and_label_witness :
  (SentimentFinbert.FINBERT_SCORE Sample.one_scored == 0.7 - 0.1)%Q
  /\ (-1 <= SentimentFinbert.FINBERT_SCORE Sample.one_scored <= 1)%Q
  /\ SentimentFinbert.FINBERT_LABEL Sample.one_scored = "positive".
Proof.
  destruct (@scorer_score_and_label Sample.iso_date Sample.constant_model
              (Some Sample.one_headline) SentimentFinbert.OUTPUT_CSV
              (mkFrame ["TIMESTAMP"; "HEADLINE"; "STORY_ID"; "TIMESTAMP_PARSED";
                        "DATE"; "FINBERT_POS"; "FINBERT_NEG"; "FINBERT_NEU";
                        "FINBERT_SCORE"; "FINBERT_LABEL"] [Sample.one_scored])
              Sample.one_scored)
    as (H1 & H2 & H3 & _).
  - left. reflexivity.
  - left. reflexivity.
  - simpl. split; lra.
  - simpl. split; lra.
  - split; [exact H1 | split; [exact H2 | rewrite H3; reflexivity]].
Defined.

(* ===================================================================== *)
(** * Batching                                                            *)
(* ===================================================================== *)

Section Chunks.
Import SentimentFinbert.
Variable A : Type.
Variable texts : list A.
Variable size : nat.
Hypothesis size_pos : 0 < size.

Let n := List.length texts.
Let chunk (i : nat) : list A := slice texts i (i + size).

Lemma slice_step (i : nat) : chunk i ++ skipn (i + size) texts = skipn i texts.
Proof.
  unfold chunk, slice.
  replace (i + size - i) with size by lia.
  rewrite Nat.add_comm, <- skipn_skipn. apply firstn_skipn.
Qed.

(** With enough fuel the slices starting at [i] make up the rest of the
    list from [i] on. *)
Lemma chunks_from (fuel : nat) :
  forall i, n - i <= fuel ->
    List.concat (map chunk (range_from fuel i n size)) = skipn i texts.
Proof.
  induction fuel as [| fuel IH]; intros i Hi; simpl.
  - symmetry. apply skipn_all2. fold n. lia.
  - destruct (Nat.ltb_spec i n) as [Hlt | Hge]; simpl.
    + rewrite IH by lia. apply slice_step.
    + symmetry. apply skipn_all2. fold n. lia.
Qed.

(** The [k]-th start produced by [range_from] is [i + k * size], and it is
    below [n]. *)
Lemma range_from_nth (fuel : nat) :
  forall i k j, nth_error (range_from fuel i n size) k = Some j ->
    j = i + k * size /\ j < n.
Proof.
  induction fuel as [| fuel IH]; intros i k j; simpl.
  - destruct k; discriminate.
  - destruct (Nat.ltb_spec i n) as [Hlt | Hge].
    + destruct k as [| k]; simpl.
      * intros [= <-]. lia.
      * intros H. apply IH in H. lia.
    + destruct k; discriminate.
Qed.

Lemma chunked_eq : chunked texts size = inr (map chunk (range n size)).
Proof.
  unfold chunked, chunk, n. destruct size; [lia | reflexivity].
Qed.

Lemma chunked_concat :
  exists batches, chunked texts size = inr batches /\ List.concat batches = texts.
Proof.
  exists (map chunk (range n size)). split; [apply chunked_eq |].
  unfold range. rewrite chunks_from by lia. reflexivity.
Qed.

Lemma chunked_nth (batches : list (list A)) (k : nat) (b : list A) :
  chunked texts size = inr batches -> nth_error batches k = Some b ->
  b = firstn size (skipn (k * size) texts) /\ k * size < n
  /\ 0 < List.length b <= size.
Proof.
  rewrite chunked_eq. intros [= <-] H.
  rewrite nth_error_map in H.
  destruct (nth_error (range n size) k) as [j |] eqn:Hj; [| discriminate].
  injection H as <-.
  apply range_from_nth in Hj. destruct Hj as [-> Hlt]. simpl in *.
  unfold chunk, slice. replace (k * size + size - k * size) with size by lia.
  split; [reflexivity |]. split; [exact Hlt |].
  rewrite length_firstn, length_skipn. fold n. lia.
Qed.

End Chunks.

Section Alignment.
Import SentimentFinbert.
Variable model : finbert.
(** The probabilities of one text. *)
Variable classify : string -> list Q.
(** Inference works row by row: a text gets the same probabilities in
    whatever batch it is scored. *)
Hypothesis rowwise : forall batch, probs_of_batch model batch = map classify batch.

Let prob_at := SentimentFinbert.prob_at classify.

Lemma column_of_batch (idx : nat) (batch : list string) :
  column_of idx (probs_of_batch model batch) = map (prob_at idx) batch.
Proof. unfold column_of. rewrite rowwise, map_map. reflexivity. Qed.

(** The accumulators after a run of batches: what they held, followed by
    the probabilities of the texts of the batches, batch after batch. *)
Lemma fold_extend3 (batches : list (list string)) :
  forall all_pos all_neg all_neu,
    fold_left (extend3 model) batches (all_pos, all_neg, all_neu)
    = (all_pos ++ map (prob_at (pos_idx model)) (List.concat batches),
       all_neg ++ map (prob_at (neg_idx model)) (List.concat batches),
       all_neu ++ map (prob_at (neu_idx model)) (List.concat batches)).
Proof.
  induction batches as [| b batches IH]; intros all_pos all_neg all_neu; simpl.
  - rewrite !app_nil_r. reflexivity.
  - rewrite IH, !column_of_batch, !map_app, !app_assoc. reflexivity.
Qed.

Lemma score_with_finbert_aligned (texts : list string) :
  score_with_finbert texts model
  = inr (map (prob_at (pos_idx model)) texts,
         map (prob_at (neg_idx model)) texts,
         map (prob_at (neu_idx model)) texts).
Proof.
  unfold score_with_finbert.
  destruct (@chunked_concat _ texts BATCH_SIZE) as (batches & -> & Hc).
  - unfold BATCH_SIZE. lia.
  - simpl. rewrite fold_extend3, Hc. reflexivity.
Qed.

End Alignment.

Section Blocks.
Variables B C : Type.
Variable f : B -> list C.
Variable width : nat.

(** In the concatenation of blocks of which all but the last have [width]
    elements, the [j]-th element of the [k]-th block is at position
    [k * width + j]. *)
Lemma nth_error_concat_blocks (blocks : list B) :
  forall k j b x,
    (forall k' b', nth_error blocks k' = Some b' -> S k' < List.length blocks ->
                   List.length (f b') = width) ->
    nth_error blocks k = Some b -> nth_error (f b) j = Some x ->
    nth_error (List.concat (map f blocks)) (k * width + j) = Some x.
Proof.
  induction blocks as [| b0 blocks IH]; intros k j b x Hfull Hk Hj;
    [destruct k; discriminate |].
  cbn [map List.concat]. destruct k as [| k].
  - injection Hk as ->. cbn [Nat.mul Nat.add].
    rewrite nth_error_app1; [exact Hj |]. apply nth_error_Some. congruence.
  - cbn [nth_error] in Hk.
    assert (Hw : List.length (f b0) = width).
    { apply (Hfull 0 b0 eq_refl). simpl.
      assert (k < List.length blocks) by (apply nth_error_Some; congruence). lia. }
    rewrite nth_error_app2 by (rewrite Hw; simpl; lia).
    replace (S k * width + j - List.length (f b0)) with (k * width + j)
      by (rewrite Hw; simpl; lia).
    apply IH with (b := b); [| exact Hk | exact Hj].
    intros k' b' Hk' Hlt. apply (Hfull (S k') b' Hk'). simpl. lia.
Qed.

End Blocks.

Section BatchOutputs.
Import SentimentFinbert.
Variable model : finbert.

(** What one inference call adds to a list: the column [idx] of the
    probabilities of the batch. *)
Let column (idx : nat) (batch : list string) : list Q :=
  column_of idx (probs_of_batch model batch).

(** The accumulators after a run of batches, for any classifier: what they
    held, followed by the outputs of the batches, batch after batch. *)
Lemma fold_extend3_outputs (batches : list (list string)) :
  forall all_pos all_neg all_neu,
    fold_left (extend3 model) batches (all_pos, all_neg, all_neu)
    = (all_pos ++ List.concat (map (column (pos_idx model)) batches),
       all_neg ++ List.concat (map (column (neg_idx model)) batches),
       all_neu ++ List.concat (map (column (neu_idx model)) batches)).
Proof.
  induction batches as [| b batches IH]; intros all_pos all_neg all_neu; simpl.
  - rewrite !app_nil_r. reflexivity.
  - rewrite IH, !app_assoc. reflexivity.
Qed.

Lemma score_with_finbert_outputs (texts : list string) (batches : list (list string)) :
  chunked texts BATCH_SIZE = inr batches ->
  score_with_finbert texts model
  = inr (List.concat (map (column (pos_idx model)) batches),
         List.concat (map (column (neg_idx model)) batches),
         List.concat (map (column (neu_idx model)) batches)).
Proof.
  intros Hb. unfold score_with_finbert. rewrite Hb. simpl.
  rewrite fold_extend3_outputs. reflexivity.
Qed.

End BatchOutputs.

(** C9.  For a positive batch size [chunked] cuts the texts into the
    consecutive slices [texts[k*size : k*size + size]], each non-empty and of
    at most [size] elements, whose concatenation is the input.  For any
    classifier, the three lists [score_with_finbert] returns are the
    concatenations, in the order of the batches of [chunked texts 16], of
    the three columns of the probabilities of each batch; the [k]-th batch
    is [texts[16*k : 16*k + 16]].  So when the classifier gives one row for
    each text of a batch, in the order of the batch, the [k]-th elements of
    the three lists are the probabilities of the [k]-th text, read from its
    row in the output of its batch. *)
Theorem batches_keep_input_order
  (model : SentimentFinbert.finbert) (texts : list string) :
  (forall size, 0 < size ->
     exists batches,
       SentimentFinbert.chunked texts size = inr batches
       /\ List.concat batches = texts
       /\ forall k b, nth_error batches k = Some b ->
            b = firstn size (skipn (k * size) texts)
            /\ 0 < List.length b <= size)
  /\ (exists batches,
        SentimentFinbert.chunked texts SentimentFinbert.BATCH_SIZE = inr batches
        /\ List.concat batches = texts
        /\ (forall k b, nth_error batches k = Some b ->
              b = firstn 16 (skipn (k * 16) texts))
        /\ SentimentFinbert.score_with_finbert texts model
           = inr (List.concat
                    (map (fun b => SentimentFinbert.column_of
                                     (SentimentFinbert.pos_idx model)
                                     (SentimentFinbert.probs_of_batch model b))
                         batches),
                  List.concat
                    (map (fun b => SentimentFinbert.column_of
                                     (SentimentFinbert.neg_idx model)
                                     (SentimentFinbert.probs_of_batch model b))
                         batches),
                  List.concat
                    (map (fun b => SentimentFinbert.column_of
                                     (SentimentFinbert.neu_idx model)
                                     (SentimentFinbert.probs_of_batch model b))
                         batches))
        /\ ((forall b, In b batches ->
               List.length (SentimentFinbert.probs_of_batch model b) = List.length b) ->
            exists all_pos all_neg all_neu,
              SentimentFinbert.score_with_finbert texts model
              = inr (all_pos, all_neg, all_neu)
              /\ List.length all_pos = List.length texts
              /\ List.length all_neg = List.length texts
              /\ List.length all_neu = List.length texts
              /\ forall k j b row,
                   nth_error batches k = Some b ->
                   nth_error (SentimentFinbert.probs_of_batch model b) j = Some row ->
                   nth_error all_pos (k * 16 + j)
                   = Some (nth (SentimentFinbert.pos_idx model) row 0%Q)
                   /\ nth_error all_neg (k * 16 + j)
                      = Some (nth (SentimentFinbert.neg_idx model) row 0%Q)
                   /\ nth_error all_neu (k * 16 + j)
                      = Some (nth (SentimentFinbert.neu_idx model) row 0%Q)
                   /\ nth_error texts (k * 16 + j) = nth_error b j))
  /\ (forall classify : string -> list Q,
        (forall batch, SentimentFinbert.probs_of_batch model batch
                       = map classify batch) ->
        exists all_pos all_neg all_neu,
          SentimentFinbert.score_with_finbert texts model
          = inr (all_pos, all_neg, all_neu)
          /\ List.length all_pos = List.length texts
          /\ List.length all_neg = List.length texts
          /\ List.length all_neu = List.length texts
          /\ forall k t, nth_error texts k = Some t ->
               nth_error all_pos k
               = Some (nth (SentimentFinbert.pos_idx model) (classify t) 0%Q)
               /\ nth_error all_neg k
                  = Some (nth (SentimentFinbert.neg_idx model) (classify t) 0%Q)
               /\ nth_error all_neu k
                  = Some (nth (SentimentFinbert.neu_idx model) (classify t) 0%Q)).
Proof.
  assert (H16 : 0 < SentimentFinbert.BATCH_SIZE)
    by (unfold SentimentFinbert.BATCH_SIZE; lia).
  split; [| split].
  - intros size Hsize.
    destruct (@chunked_concat _ texts size Hsize) as (batches & Hb & Hc).
    exists batches. split; [exact Hb |]. split; [exact Hc |].
    intros k b Hk.
    destruct (@chunked_nth _ texts size Hsize batches k b Hb Hk) as (? & _ & ?).
    auto.
  - destruct (@chunked_concat _ texts SentimentFinbert.BATCH_SIZE H16)
      as (batches & Hb & Hc).
    exists batches. split; [exact Hb |]. split; [exact Hc |].
    assert (Hslice : forall k b, nth_error batches k = Some b ->
              b = firstn 16 (skipn (k * 16) texts)
              /\ 0 < List.length b <= 16).
    { intros k b Hk.
      destruct (@chunked_nth _ texts SentimentFinbert.BATCH_SIZE H16 batches k b Hb Hk)
        as (? & _ & ?). auto. }
    split; [intros k b Hk; apply (Hslice k b Hk) |].
    split; [apply (@score_with_finbert_outputs model texts batches Hb) |].
    intros Hrows.
    eexists _, _, _.
    split; [apply (@score_with_finbert_outputs model texts batches Hb) |].
    assert (Hfull : forall k b, nth_error batches k = Some b ->
              S k < List.length batches -> List.length b = 16).
    { intros k b Hk Hlt.
      destruct (nth_error batches (S k)) as [b' |] eqn:Hk';
        [| apply nth_error_None in Hk'; lia].
      destruct (@chunked_nth _ texts SentimentFinbert.BATCH_SIZE H16 batches (S k) b'
                  Hb Hk') as (_ & Hlt' & _).
      destruct (Hslice k b Hk) as [-> _].
      rewrite length_firstn, length_skipn.
      unfold SentimentFinbert.BATCH_SIZE in Hlt'. lia. }
    assert (Hlen : forall idx,
              List.length
                (List.concat
                   (map (fun b => SentimentFinbert.column_of idx
                                    (SentimentFinbert.probs_of_batch model b)) batches))
              = List.length texts).
    { intros idx. rewrite <- Hc. clear - Hrows.
      induction batches as [| b batches IH]; [reflexivity |].
      cbn [map List.concat]. rewrite !length_app, IH.
      - unfold SentimentFinbert.column_of. rewrite length_map, Hrows;
          [reflexivity | left; reflexivity].
      - intros b' Hb'. apply Hrows. right. exact Hb'. }
    split; [apply Hlen |]. split; [apply Hlen |]. split; [apply Hlen |].
    intros k j b row Hk Hj.
    assert (Hpos : forall idx,
              nth_error
                (List.concat
                   (map (fun b => SentimentFinbert.column_of idx
                                    (SentimentFinbert.probs_of_batch model b)) batches))
                (k * 16 + j)
              = Some (nth idx row 0%Q)).
    { intros idx.
      apply (@nth_error_concat_blocks (list string) Q
               (fun b => SentimentFinbert.column_of idx
                           (SentimentFinbert.probs_of_batch model b))
               16 batches k j b).
      - intros k' b' Hk' Hlt. unfold SentimentFinbert.column_of.
        rewrite length_map, Hrows; [| apply nth_error_In with (n := k'); exact Hk'].
        apply (Hfull k' b' Hk' Hlt).
      - exact Hk.
      - unfold SentimentFinbert.column_of. rewrite nth_error_map, Hj. reflexivity. }
    split; [apply Hpos |]. split; [apply Hpos |]. split; [apply Hpos |].
    rewrite <- Hc.
    assert (Hjb : j < List.length b).
    { rewrite <- (Hrows b (nth_error_In _ _ Hk)). apply nth_error_Some. congruence. }
    destruct (nth_error b j) as [t |] eqn:Et; [| apply nth_error_None in Et; lia].
    rewrite <- (map_id batches) at 1.
    apply (@nth_error_concat_blocks (list string) string (fun b => b)
             16 batches k j b).
    + intros k' b' Hk' Hlt. apply (Hfull k' b' Hk' Hlt).
    + exact Hk.
    + exact Et.
  - intros classify Hrow.
    eexists _, _, _. split; [apply (@score_with_finbert_aligned model classify Hrow) |].
    rewrite !length_map. repeat split; try reflexivity.
    all: rewrite nth_error_map, H; reflexivity.
Qed.

Lemma batches_keep_input_order_witness :
  SentimentFinbert.chunked Cases.eighteen_texts 16
  = inr [firstn 16 Cases.eighteen_texts; skipn 16 Cases.eighteen_texts]
  /\ SentimentFinbert.score_with_finbert Cases.eighteen_texts Cases.batch_model
     = inr (repeat 0.7%Q 16 ++ [0.1%Q; 0.1%Q],
            repeat 0.1%Q 16 ++ [0.6%Q; 0.6%Q],
            repeat 0.2%Q 16 ++ [0.3%Q; 0.3%Q]).
Proof.
  destruct (@batches_keep_input_order Cases.batch_model Cases.eighteen_texts)
    as (_ & (batches & Hb & _ & _ & Hs & _) & _).
  vm_compute in Hb. injection Hb as <-.
  split; [reflexivity |]. rewrite Hs. reflexivity.
Defined.

(* ===================================================================== *)
(** * Failure paths of the scorer                                         *)
(* ===================================================================== *)

Section ScorerFailures.
Import SentimentFinbert.
Variable parse : string -> option date.
Variable model : finbert.

Lemma existsb_eqb_In (name : string) (cols : list string) :
  existsb (String.eqb name) cols = true <-> In name cols.
Proof.
  rewrite existsb_exists. split.
  - intros (x & Hx & E). apply String.eqb_eq in E. subst. exact Hx.
  - intros H. exists name. split; [exact H | apply String.eqb_refl].
Qed.

Lemma find_headline_column_cases (cols : list string) :
  (exists col, find_headline_column cols = inr col
               /\ In col HEADLINE_COL_CANDIDATES /\ In col cols)
  \/ (find_headline_column cols = inl (headline_error cols)
      /\ forall c, In c HEADLINE_COL_CANDIDATES -> ~ In c cols).
Proof.
  unfold find_headline_column.
  destruct (find _ HEADLINE_COL_CANDIDATES) as [col |] eqn:E.
  - left. exists col. apply find_some in E. destruct E as [Hin Hex].
    apply existsb_eqb_In in Hex. auto.
  - right. split; [reflexivity |].
    intros c Hc Hin. apply (find_none _ _ E) in Hc.
    apply existsb_eqb_In in Hin. congruence.
Qed.

Lemma find_headline_column_error (cols : list string) :
  find_headline_column cols = inl (headline_error cols)
  <-> forall c, In c HEADLINE_COL_CANDIDATES -> ~ In c cols.
Proof.
  destruct (find_headline_column_cases cols) as [(col & E & Hc & Hin) | [E H]].
  - rewrite E. split; [discriminate | intros H; exfalso; exact (H col Hc Hin)].
  - rewrite E. split; [intros _; exact H | reflexivity].
Qed.

(** Sixteen is not zero: scoring never raises. *)
Lemma score_with_finbert_returns (texts : list string) :
  exists probs, score_with_finbert texts model = inr probs.
Proof. unfold score_with_finbert, chunked, BATCH_SIZE. simpl. eauto. Qed.

Ltac run_main :=
  cbv beta iota zeta delta [main add_date_from_timestamp bind print lift
    to_csv raise ret start fst snd written stdout raised returned].

(** Without a headline column the run stops right after its first line. *)
Lemma main_headline_missing (df : frame raw_row) :
  find_headline_column (columns df) = inl (headline_error (columns df)) ->
  main parse model (Some df) start
  = (mkWorld [("Reading news from: " ++ INPUT_CSV)%string] [],
     inl (headline_error (columns df))).
Proof. intros E. run_main. rewrite E. reflexivity. Qed.

(** With a headline column the run does not end in the headline error. *)
Lemma main_headline_present (df : frame raw_row) (col : string) :
  find_headline_column (columns df) = inr col ->
  ~ raised (main parse model (Some df) start) (headline_error (columns df)).
Proof.
  intros E. run_main. rewrite E.
  destruct (empty _); [discriminate |].
  destruct (negb _); [discriminate |].
  destruct (0 <? _)%nat;
  (match goal with |- context [score_with_finbert ?t model] =>
     destruct (score_with_finbert_returns t) as [[[pos neg] neu] ->] end);
  unfold add_sentiment; repeat (destruct (negb _); [discriminate |]);
  discriminate.
Qed.

(** A run that raises has written nothing. *)
Lemma main_raised_nothing_written (input : option (frame raw_row)) (e : exn) :
  raised (main parse model input start) e ->
  written (fst (main parse model input start)) = [].
Proof.
  destruct input as [df |]; [| reflexivity].
  run_main.
  destruct (find_headline_column (columns df)) as [e' | col]; [reflexivity |].
  destruct (empty _); [reflexivity |].
  destruct (negb _); [reflexivity |].
  destruct (0 <? _)%nat;
  (destruct (score_with_finbert _ model) as [e' | [[pos neg] neu]]; [reflexivity |]);
  (match goal with |- context [add_sentiment ?d ?p ?n ?u] =>
     destruct (add_sentiment d p n u) as [e' | scored] end; [reflexivity |]);
  discriminate.
Qed.

(** No headline left after [dropna]: three lines are printed, nothing is
    written and the run returns. *)
Lemma main_no_headlines (df : frame raw_row) (col : string) :
  find_headline_column (columns df) = inr col ->
  rows (dropna_subset col df) = [] ->
  main parse model (Some df) start
  = (mkWorld [("Reading news from: " ++ INPUT_CSV)%string;
              ("Using '" ++ col ++ "' as headline text column.")%string;
              no_headlines] [],
     inr tt).
Proof.
  intros E Hrows. run_main. rewrite E.
  unfold empty. rewrite Hrows. reflexivity.
Qed.

End ScorerFailures.

(* ===================================================================== *)
(** * Failure paths of the panel builder and of the lead-lag script        *)
(* ===================================================================== *)

Section PanelFailures.
Import BuildPanel.
Variable parse : string -> option date.

Lemma has_column_In {R : Type} (df : frame R) (name : string) :
  has_column df name = true <-> In name (columns df).
Proof. apply existsb_eqb_In. Qed.

Lemma load_news_date_error (df : frame News.row) :
  load_news df = inl date_error <-> ~ In "DATE" (columns df).
Proof.
  unfold load_news. rewrite <- has_column_In.
  destruct (has_column df "DATE"); cbn [negb].
  - split; [| intros H; exfalso; apply H; reflexivity].
    destruct (missing_columns df sentiment_cols); intros H; [discriminate H |].
    unfold repr_list, date_error in H. cbn [String.append] in H. discriminate H.
  - split; [intros _; discriminate | reflexivity].
Qed.

Ltac run_panel :=
  cbv beta iota zeta delta [main bind print lift to_csv raise ret start
    fst snd written stdout raised returned].

Lemma panel_date_missing (df : frame News.row)
  (prices_file : option (frame Price.csv_row)) :
  load_news df = inl date_error ->
  main parse (Some df) prices_file start
  = (mkWorld ["Loading sentiment..."] [], inl date_error).
Proof. intros E. run_panel. rewrite E. reflexivity. Qed.

Lemma panel_date_present (df : frame News.row)
  (prices_file : option (frame Price.csv_row)) :
  load_news df <> inl date_error ->
  ~ raised (main parse (Some df) prices_file start) date_error.
Proof.
  intros E. run_panel.
  destruct (load_news df) as [e | news].
  - intros [= ->]. apply E. reflexivity.
  - destruct prices_file as [pf |]; [| discriminate].
    unfold load_prices.
    destruct (negb _); [discriminate |].
    destruct (negb _); [discriminate |].
    destruct (1 <? _); [discriminate |].
    unfold merge, rbind, Pd.check_merge_keys.
    destruct (xorb _ _); [discriminate |].
    destruct (Pd.dtype_eqb _ _); discriminate.
Qed.

Lemma panel_raised_nothing_written (news_file : option (frame News.row))
  (prices_file : option (frame Price.csv_row)) (e : exn) :
  raised (main parse news_file prices_file start) e ->
  written (fst (main parse news_file prices_file start)) = [].
Proof.
  run_panel.
  destruct news_file as [df |]; [| reflexivity].
  destruct (load_news df) as [e' | news]; [reflexivity |].
  destruct prices_file as [pf |]; [| reflexivity].
  destruct (load_prices parse pf) as [e' | prices]; [reflexivity |].
  destruct (merge prices _ news) as [e' | panel]; [reflexivity | discriminate].
Qed.

End PanelFailures.

Section LeadLagFailures.
Import LeadLag.
Variable corr : list float -> list float -> float.
Variable fmt4 : float -> string.

(** No row in the date range: the run is ended by a [ValueError] after its
    first line, before anything is written. *)
Lemma lead_lag_no_rows (df : frame PanelFile.row) :
  has_column df "DATE" = true -> has_column df "RETURN" = true ->
  has_column df "DAILY_SENTIMENT" = true ->
  ranged (rows df) = [] ->
  main corr fmt4 (Some df) start
  = (mkWorld [("Loading panel -> " ++ PANEL_FILE)%string] [], inl no_rows_error).
Proof.
  intros H1 H2 H3 Hr.
  cbv beta iota zeta delta [main bind print lift to_csv raise ret start].
  rewrite H1, H2, H3. simpl negb. cbv iota.
  unfold empty. simpl rows. rewrite Hr. reflexivity.
Qed.

End LeadLagFailures.

(** C8.  [find_headline_column] raises its [KeyError] exactly when none of
    the accepted names is a column, and so does the scorer's run; the panel
    builder raises its [KeyError] exactly when the scored file has no
    [DATE] column; a run of either script that raises has written no
    file. *)
Theorem missing_column_is_fatal
  (parse : string -> option date) (model : SentimentFinbert.finbert)
  (df : frame SentimentFinbert.raw_row)
  (news : frame BuildPanel.News.row)
  (prices_file : option (frame BuildPanel.Price.csv_row)) :
  (SentimentFinbert.find_headline_column (columns df)
   = inl (SentimentFinbert.headline_error (columns df))
   <-> forall c, In c SentimentFinbert.HEADLINE_COL_CANDIDATES -> ~ In c (columns df))
  /\ (raised (SentimentFinbert.main parse model (Some df) start)
             (SentimentFinbert.headline_error (columns df))
      <-> forall c, In c SentimentFinbert.HEADLINE_COL_CANDIDATES -> ~ In c (columns df))
  /\ (forall e, raised (SentimentFinbert.main parse model (Some df) start) e ->
                written (fst (SentimentFinbert.main parse model (Some df) start)) = [])
  /\ (BuildPanel.load_news news = inl BuildPanel.date_error
      <-> ~ In "DATE" (columns news))
  /\ (raised (BuildPanel.main parse (Some news) prices_file start) BuildPanel.date_error
      <-> ~ In "DATE" (columns news))
  /\ (forall e, raised (BuildPanel.main parse (Some news) prices_file start) e ->
                written (fst (BuildPanel.main parse (Some news) prices_file start)) = []).
Proof.
  split; [apply find_headline_column_error |].
  split.
  { destruct (find_headline_column_cases (columns df)) as [(col & E & Hc & Hin) | [E H]].
    - split.
      + intros Hr. exfalso. exact (@main_headline_present parse model df col E Hr).
      + intros H. exfalso. exact (H col Hc Hin).
    - split; [intros _; exact H |].
      intros _. unfold raised. rewrite (@main_headline_missing parse model df E).
      reflexivity. }
  split; [apply main_raised_nothing_written |].
  split; [apply load_news_date_error |].
  split; [| apply panel_raised_nothing_written].
  rewrite <- load_news_date_error. split.
  - intros Hr.
    destruct (has_column news "DATE") eqn:E.
    + exfalso. apply (@panel_date_present parse news prices_file); [| exact Hr].
      intros Hl. apply load_news_date_error in Hl. apply Hl.
      apply has_column_In. exact E.
    + apply load_news_date_error. rewrite <- has_column_In. congruence.
  - intros E. unfold raised. rewrite (@panel_date_missing parse news prices_file E).
    reflexivity.
Qed.

(** C7 (as the code has it).  In the scorer, when no headline is left after
    the rows with an empty headline are dropped, the run prints its
    diagnostic, writes nothing and returns.  In the lead-lag script, when no
    row is left after the date filter, the run is ended by a [ValueError]
    before anything is written. *)
Theorem empty_input_outcomes
  (parse : string -> option date) (model : SentimentFinbert.finbert)
  (df : frame SentimentFinbert.raw_row) (col : string)
  (corr : list float -> list float -> float) (fmt4 : float -> string)
  (panel : frame PanelFile.row) :
  SentimentFinbert.find_headline_column (columns df) = inr col ->
  rows (SentimentFinbert.dropna_subset col df) = [] ->
  has_column panel "DATE" = true ->
  has_column panel "RETURN" = true ->
  has_column panel "DAILY_SENTIMENT" = true ->
  ranged (rows panel) = [] ->
  (returned (SentimentFinbert.main parse model (Some df) start)
   /\ written (fst (SentimentFinbert.main parse model (Some df) start)) = []
   /\ last (stdout (fst (SentimentFinbert.main parse model (Some df) start))) EmptyString
      = SentimentFinbert.no_headlines)
  /\ (raised (LeadLag.main corr fmt4 (Some panel) start) LeadLag.no_rows_error
      /\ (returned (LeadLag.main corr fmt4 (Some panel) start) -> False)
      /\ written (fst (LeadLag.main corr fmt4 (Some panel) start)) = []).
Proof.
  intros Hcol Hrows H1 H2 H3 Hr. split.
  - rewrite (@main_no_headlines parse model df col Hcol Hrows).
    split; [exists tt; reflexivity |]. split; reflexivity.
  - rewrite (@lead_lag_no_rows corr fmt4 panel H1 H2 H3 Hr).
    split; [reflexivity |]. split; [| reflexivity].
    intros [x Hx]. discriminate Hx.
Qed.

Lemma empty_input_outcomes_witness :
  returned (SentimentFinbert.main Sample.iso_date Sample.constant_model
              (Some Sample.blank_headlines) start)
  /\ raised (LeadLag.main Sample.no_corr Sample.show_nan
               (Some Sample.stale_panel) start)
            LeadLag.no_rows_error.
Proof.
  destruct (@empty_input_outcomes Sample.iso_date Sample.constant_model
              Sample.blank_headlines "HEADLINE" Sample.no_corr Sample.show_nan
              Sample.stale_panel)
    as [(Hs & _) (Hl & _)]; try reflexivity.
  split; [exact Hs | exact Hl].
Defined.

(** C7 as stated fails on the lead-lag script: a panel whose only row is
    dated outside the range leaves no row after the filter, and the run is
    ended by a [ValueError] instead of returning. *)
Lemma lead_lag_empty_filter_raises :
  ranged (rows Sample.stale_panel) = []
  /\ LeadLag.main Sample.no_corr Sample.show_nan (Some Sample.stale_panel) start
     = (mkWorld [("Loading panel -> " ++ LeadLag.PANEL_FILE)%string] [],
        inl (ValueError "No rows after date filtering - check START_DATE / END_DATE."))
  /\ (returned (LeadLag.main Sample.no_corr Sample.show_nan
                  (Some Sample.stale_panel) start) -> False).
Proof.
  split; [reflexivity |]. split; [reflexivity |].
  intros [x Hx]. discriminate Hx.
Qed.

(* ===================================================================== *)
(** * The DATE text, written and read back                                *)
(* ===================================================================== *)

Section DateText.
Import Pd.
Local Open Scope N_scope.

Lemma digit_cases (k : N) :
  k mod 10 = 0 \/ k mod 10 = 1 \/ k mod 10 = 2 \/ k mod 10 = 3 \/ k mod 10 = 4
  \/ k mod 10 = 5 \/ k mod 10 = 6 \/ k mod 10 = 7 \/ k mod 10 = 8 \/ k mod 10 = 9.
Proof.
  assert (H : k mod 10 < 10) by (apply N.mod_lt; discriminate).
  revert H. generalize (k mod 10). intros r H. lia.
Qed.

Ltac by_digit k :=
  unfold digit;
  destruct (digit_cases k) as [E|[E|[E|[E|[E|[E|[E|[E|[E|E]]]]]]]]];
  rewrite E; reflexivity.

Lemma digit_value_digit (k : N) : digit_value (digit k) = Some (k mod 10).
Proof. by_digit k. Qed.

Lemma digit_not_slash (k : N) : Ascii.eqb (digit k) "/"%char = false.
Proof. by_digit k. Qed.

(** The fields read back from the text of a date. *)
Lemma slash_fields_strftime (x : date) :
  day x < 100 -> month x < 100 -> year x < 10000 ->
  slash_fields (strftime_dmY x) = Some (day x, month x, year x).
Proof.
  intros Hd Hm Hy.
  unfold strftime_dmY, pad2, pad4, slash_fields.
  cbn [String.append split]. rewrite !digit_not_slash.
  cbn [Ascii.eqb Bool.eqb split String.length Nat.leb Nat.eqb andb parse_number number_from].
  rewrite !digit_value_digit.
  f_equal. f_equal; [f_equal |]; zify; Z.to_euclidean_division_equations; lia.
Qed.

Lemma month_cases (m : N) :
  1 <= m <= 12 ->
  m = 1 \/ m = 2 \/ m = 3 \/ m = 4 \/ m = 5 \/ m = 6 \/ m = 7 \/ m = 8
  \/ m = 9 \/ m = 10 \/ m = 11 \/ m = 12.
Proof. lia. Qed.

Lemma days_in_month_bounds (y m : N) :
  1 <= m <= 12 -> 28 <= days_in_month y m <= 31.
Proof.
  intros H.
  destruct (month_cases H) as [E|[E|[E|[E|[E|[E|[E|[E|[E|[E|[E|E]]]]]]]]]]];
    subst m; cbn [days_in_month]; try lia.
  destruct (is_leap y); lia.
Qed.

Lemma valid_ymd_bounds (y m d : N) :
  valid_ymd y m d = true <->
  1 <= y <= 9999 /\ 1 <= m <= 12 /\ 1 <= d <= days_in_month y m.
Proof.
  unfold valid_ymd. rewrite !andb_true_iff, !N.leb_le. tauto.
Qed.

(** The text of a date, read back with the default day order: the date
    itself when its day is above 12, and otherwise the date with day and
    month exchanged. *)
Lemma parse_date_strftime (x : date) :
  valid_date x = true ->
  parse_date false (strftime_dmY x)
  = Some (if 12 <? day x then x else mkDate (year x) (day x) (month x)).
Proof.
  destruct x as [y m d]. unfold valid_date. cbn [year month day].
  intros Hv. pose proof Hv as Hb. apply valid_ymd_bounds in Hb.
  destruct Hb as (Hy & Hm & Hd).
  pose proof (days_in_month_bounds y Hm) as Hdm.
  assert (Hf : slash_fields (strftime_dmY (mkDate y m d)) = Some (d, m, y))
    by (apply slash_fields_strftime; cbn [year month day]; lia).
  unfold parse_date, strptime, resolve_order. rewrite Hf.
  cbn [andb]. rewrite orb_false_r.
  destruct (N.ltb_spec 12 d) as [Hgt | Hle].
  - rewrite Hv. reflexivity.
  - assert (Hsw : valid_ymd y d m = true).
    { apply valid_ymd_bounds.
      pose proof (@days_in_month_bounds y d). lia. }
    rewrite Hsw. reflexivity.
Qed.

(** The round trip is the identity exactly on the dates whose day is above
    12 or equal to the month. *)
Lemma parse_date_strftime_id (x : date) :
  valid_date x = true ->
  (parse_date false (strftime_dmY x) = Some x <-> 12 < day x \/ day x = month x).
Proof.
  intros Hv. rewrite (parse_date_strftime x Hv).
  destruct x as [y m d]. cbn [year month day].
  destruct (N.ltb_spec 12 d) as [Hgt | Hle].
  - split; [intros _; left; exact Hgt | reflexivity].
  - split.
    + intros [= E]. right. congruence.
    + intros [H | ->]; [lia | reflexivity].
Qed.

(** A one-row column is read the same way, whether the format is inferred
    from the column or the text is parsed on its own. *)
Lemma to_datetime_one (x : date) :
  valid_date x = true ->
  to_datetime_coerce false [Some (strftime_dmY x)]
  = [Some (if 12 <? day x then x else mkDate (year x) (day x) (month x))].
Proof.
  intros Hv. pose proof (parse_date_strftime x Hv) as Hp.
  unfold to_datetime_coerce, guess_datetime_format. cbn [first_valid].
  unfold parse_date in Hp |- *.
  destruct (slash_fields (strftime_dmY x)) as [[[a b] y] |] eqn:Hf; [| discriminate].
  rewrite Hp. cbn [map on_text]. rewrite Hp. reflexivity.
Qed.

(** Read day first, the text of a date gives the date back. *)
Lemma parse_date_dayfirst_strftime (x : date) :
  valid_date x = true -> parse_date true (strftime_dmY x) = Some x.
Proof.
  destruct x as [y m d]. unfold valid_date. cbn [year month day].
  intros Hv. pose proof Hv as Hb. apply valid_ymd_bounds in Hb.
  destruct Hb as (Hy & Hm & Hd).
  pose proof (days_in_month_bounds y Hm) as Hdm.
  assert (Hf : slash_fields (strftime_dmY (mkDate y m d)) = Some (d, m, y))
    by (apply slash_fields_strftime; cbn [year month day]; lia).
  unfold parse_date, strptime, resolve_order. rewrite Hf.
  cbn [andb]. replace (m <=? 12) with true by (symmetry; apply N.leb_le; lia).
  rewrite orb_true_r, Hv. reflexivity.
Qed.

Lemma to_datetime_dayfirst_one (x : date) :
  valid_date x = true ->
  to_datetime_coerce true [Some (strftime_dmY x)] = [Some x].
Proof.
  intros Hv. pose proof (parse_date_dayfirst_strftime x Hv) as Hp.
  unfold to_datetime_coerce, guess_datetime_format. cbn [first_valid].
  unfold parse_date in Hp |- *.
  destruct (slash_fields (strftime_dmY x)) as [[[a b] y] |] eqn:Hf; [| discriminate].
  rewrite Hp. cbn [map on_text]. rewrite Hp. reflexivity.
Qed.

End DateText.

(** C6 does not hold of the code.  The scorer writes 5 September 2025 as
    "05/09/2025"; the panel builder reads that text back as 9 May 2025,
    and it groups the headline under that date.  In general the panel
    builder reads the text of a date back as the date with day and month
    exchanged, unless its day is above 12.  The word-cloud script reads the
    same column day first and gets every date back. *)
Theorem date_text_read_month_first :
  Pd.strftime_dmY (mkDate 2025 9 5) = "05/09/2025"
  /\ Pd.to_datetime_coerce false [Some (Pd.strftime_dmY (mkDate 2025 9 5))]
     = [Some (mkDate 2025 5 9)]
  /\ Pd.to_datetime_coerce false [Some "05/09/2025"; Some "15/09/2025"]
     = [Some (mkDate 2025 5 9); None]
  /\ BuildWordclouds.dates Sample.scored_5_september = [Some (mkDate 2025 9 5)]
  /\ (exists daily, BuildPanel.load_news Sample.scored_5_september = inr daily
                     /\ map BuildPanel.Daily.DATE daily = [mkDate 2025 5 9])
  /\ (forall x : date, valid_date x = true ->
        Pd.parse_date false (Pd.strftime_dmY x)
        = Some (if (12 <? day x)%N then x
                else mkDate (year x) (day x) (month x)))
  /\ (forall x : date, valid_date x = true ->
        (Pd.parse_date false (Pd.strftime_dmY x) = Some x
         <-> (12 < day x)%N \/ day x = month x))
  /\ (forall x : date, valid_date x = true ->
        Pd.parse_date true (Pd.strftime_dmY x) = Some x)
  /\ (forall x : date, valid_date x = true ->
        Pd.to_datetime_coerce false [Some (Pd.strftime_dmY x)]
        = [Some (if (12 <? day x)%N then x
                 else mkDate (year x) (day x) (month x))]
        /\ Pd.to_datetime_coerce true [Some (Pd.strftime_dmY x)] = [Some x]).
Proof.
  split; [reflexivity |]. split; [reflexivity |]. split; [reflexivity |].
  split; [reflexivity |].
  split; [eexists; split; reflexivity |].
  split; [exact parse_date_strftime |].
  split; [exact parse_date_strftime_id |].
  split; [exact parse_date_dayfirst_strftime |].
  intros x Hv. split; [apply to_datetime_one | apply to_datetime_dayfirst_one]; exact Hv.
Qed.

(* ===================================================================== *)
(** * Dates: equality and order                                           *)
(* ===================================================================== *)

Section DateOrder.

Lemma date_eqb_eq (a b : date) : date_eqb a b = true <-> a = b.
Proof.
  destruct a as [y m d], b as [y' m' d']. unfold date_eqb. cbn [year month day].
  rewrite !andb_true_iff, !N.eqb_eq. split.
  - intros [[-> ->] ->]. reflexivity.
  - intros [= -> -> ->]. auto.
Qed.

Lemma date_eqb_refl (a : date) : date_eqb a a = true.
Proof. apply date_eqb_eq. reflexivity. Qed.

Ltac order_cases :=
  repeat match goal with
         | |- context [N.ltb ?x ?y] => destruct (N.ltb_spec x y)
         | |- context [N.leb ?x ?y] => destruct (N.leb_spec x y)
         | H : context [N.ltb ?x ?y] |- _ => destruct (N.ltb_spec x y)
         | H : context [N.leb ?x ?y] |- _ => destruct (N.leb_spec x y)
         end.

Lemma date_leb_refl (a : date) : date_leb a a = true.
Proof. unfold date_leb. order_cases; try reflexivity; lia. Qed.

Lemma date_leb_total (a b : date) : date_leb a b = false -> date_leb b a = true.
Proof. unfold date_leb. order_cases; try reflexivity; try discriminate; lia. Qed.

Lemma date_leb_trans (a b c : date) :
  date_leb a b = true -> date_leb b c = true -> date_leb a c = true.
Proof.
  unfold date_leb. intros H1 H2.
  order_cases; try reflexivity; try discriminate; lia.
Qed.

Lemma date_leb_antisym (a b : date) :
  date_leb a b = true -> date_leb b a = true -> a = b.
Proof.
  destruct a as [y m d], b as [y' m' d']. unfold date_leb. cbn [year month day].
  intros H1 H2.
  order_cases; try discriminate;
    assert (y = y') by lia; assert (m = m') by lia; assert (d = d') by lia;
    subst; reflexivity.
Qed.

End DateOrder.

(* ===================================================================== *)
(** * The join                                                            *)
(* ===================================================================== *)

Section Join.
Import BuildPanel.

Lemma on_date_true (d : date) (c : option date) : on_date d c = true <-> c = Some d.
Proof.
  destruct c as [x |]; simpl.
  - rewrite date_eqb_eq. split; [intros ->; reflexivity | intros [= ->]; reflexivity].
  - split; discriminate.
Qed.

(** The rows of the join: the pairs of a price row and a sentiment row of
    the same date. *)
Lemma merge_inner_In (prices : list Price.row) (news : list Daily.row)
  (r : Panel.row) :
  In r (merge_inner prices news) <->
  In (Panel.price r) prices /\ In (Panel.daily r) news
  /\ Price.DATE (Panel.price r) = Some (Daily.DATE (Panel.daily r)).
Proof.
  unfold merge_inner. rewrite in_flat_map. split.
  - intros (p & Hp & Hr). apply in_map_iff in Hr.
    destruct Hr as (n & <- & Hn). apply filter_In in Hn. destruct Hn as [Hn Hs].
    apply on_date_true in Hs. simpl. auto.
  - intros (Hp & Hn & Hd). exists (Panel.price r). split; [exact Hp |].
    apply in_map_iff. exists (Panel.daily r). split; [destruct r; reflexivity |].
    apply filter_In. split; [exact Hn |]. apply on_date_true. exact Hd.
Qed.

Lemma merge_inner_dates (prices : list Price.row) (news : list Daily.row)
  (d : date) :
  In (Some d) (map Panel.DATE (merge_inner prices news)) <->
  In (Some d) (map Price.DATE prices) /\ In d (map Daily.DATE news).
Proof.
  rewrite !in_map_iff. split.
  - intros (r & Hd & Hr). apply merge_inner_In in Hr.
    destruct Hr as (Hp & Hn & He). unfold Panel.DATE in Hd. split.
    + exists (Panel.price r). auto.
    + exists (Panel.daily r). split; [congruence | exact Hn].
  - intros [(p & Hpd & Hp) (n & Hnd & Hn)].
    exists (Panel.mkRow p n). split; [exact Hpd |].
    apply merge_inner_In. simpl. subst d. auto.
Qed.

Lemma merge_inner_dated (prices : list Price.row) (news : list Daily.row) :
  ~ In None (map Panel.DATE (merge_inner prices news)).
Proof.
  rewrite in_map_iff. intros (r & Hd & Hr). apply merge_inner_In in Hr.
  destruct Hr as (_ & _ & He). unfold Panel.DATE in Hd. congruence.
Qed.

End Join.


(* ===================================================================== *)
(** * The daily aggregate                                                 *)
(* ===================================================================== *)

Section Daily.
Import BuildPanel.

Lemma feq_refl (x : float) : feq x x.
Proof. destruct x; simpl; auto. reflexivity. Qed.

Lemma filter_notna_Fin (qs : list Q) : filter notna (map Fin qs) = map Fin qs.
Proof. induction qs as [| q qs IH]; simpl; [reflexivity | rewrite IH; reflexivity]. Qed.

Lemma fold_fadd_Fin (qs : list Q) :
  forall a, fold_left fadd (map Fin qs) (Fin a) = Fin (fold_left Qplus qs a).
Proof. induction qs as [| q qs IH]; intros a; simpl; [reflexivity | apply IH]. Qed.

(** The mean of a non-empty column of numbers is their arithmetic mean. *)
Lemma mean_Fin (qs : list Q) :
  qs <> [] -> mean (map Fin qs) = Fin (Spec.arithmetic_mean qs).
Proof.
  intros Hne. unfold mean. rewrite filter_notna_Fin.
  destruct qs as [| q qs]; [congruence |].
  cbn [map]. change (Fin q :: map Fin qs) with (map Fin (q :: qs)).
  rewrite fold_fadd_Fin, length_map. reflexivity.
Qed.

Lemma count_Fin (qs : list Q) : count (map Fin qs) = List.length qs.
Proof. unfold count. rewrite filter_notna_Fin. apply length_map. Qed.

(** [count] is the number of rows whose cell is not missing. *)
Lemma count_rows {R : Type} (f : R -> float) (g : list R) :
  count (map f g) = List.length (filter (fun r => notna (f r)) g).
Proof.
  unfold count. induction g as [| r g IH]; [reflexivity |].
  cbn [map filter]. destruct (notna (f r)); simpl; rewrite IH; reflexivity.
Qed.

Lemma indicator_sum (name : string) (col : list (option string)) :
  forall a : Q,
    (fold_left Qplus (map (indicator name) col) a
     == a + inject_Z (Z.of_nat (List.length (filter (label_is name) col))))%Q.
Proof.
  induction col as [| c col IH]; intros a; simpl.
  - unfold inject_Z. simpl. ring.
  - rewrite IH. unfold indicator. destruct (label_is name c); simpl List.length.
    + rewrite Nat2Z.inj_succ, <- Z.add_1_r, inject_Z_plus. simpl. ring.
    + ring.
Qed.

(** The share of a label in a non-empty column is the proportion of the
    cells that carry it. *)
Lemma share_proportion (name : string) (col : list (option string)) :
  col <> [] -> feq (share name col) (Fin (Spec.proportion (label_is name) col)).
Proof.
  intros Hne. unfold share.
  replace (map (fun c => if label_is name c then Fin 1%Q else Fin 0%Q) col)
    with (map Fin (map (indicator name) col)).
  - rewrite mean_Fin.
    + simpl. unfold Spec.arithmetic_mean, Spec.proportion, Spec.Qsum.
      rewrite indicator_sum, length_map. apply Qdiv_comp; [ring | reflexivity].
    + destruct col; [congruence | discriminate].
  - rewrite map_map. apply map_ext. intros c. unfold indicator.
    destruct (label_is name c); reflexivity.
Qed.

(** ** The group keys *)

Lemma insert_key_In (d x : date) (keys : list date) :
  In x (insert_key d keys) <-> x = d \/ In x keys.
Proof.
  induction keys as [| k keys IH]; simpl.
  - intuition.
  - destruct (date_eqb d k) eqn:E.
    + apply date_eqb_eq in E. subst k. simpl. intuition.
    + destruct (date_leb d k); simpl; [intuition |].
      rewrite IH. intuition.
Qed.

Lemma group_keys_In (col : list (option date)) (d : date) :
  In d (group_keys col) <-> In (Some d) col.
Proof.
  induction col as [| c col IH]; simpl; [tauto |].
  destruct c as [x |].
  - rewrite insert_key_In, IH. split.
    + intros [-> | H]; auto.
    + intros [[= ->] | H]; auto.
  - rewrite IH. split; [auto | intros [H | H]; [discriminate | exact H]].
Qed.

Lemma before_leb (a b : date) : before a b -> date_leb a b = true.
Proof. apply date_leb_total. Qed.

Lemma before_trans_leb (a b c : date) :
  date_leb a b = true -> before b c -> before a c.
Proof.
  unfold before. intros H1 H2.
  destruct (date_leb c a) eqn:E; [| reflexivity].
  rewrite (date_leb_trans _ _ _ E H1) in H2. discriminate.
Qed.

Lemma insert_key_sorted (d : date) (keys : list date) :
  StronglySorted before keys -> StronglySorted before (insert_key d keys).
Proof.
  induction 1 as [| k keys Hs IH Hall]; simpl.
  - constructor; constructor.
  - destruct (date_eqb d k) eqn:E; [constructor; assumption |].
    destruct (date_leb d k) eqn:L.
    + assert (Hdk : before d k).
      { unfold before. destruct (date_leb k d) eqn:L'; [| reflexivity].
        rewrite (date_leb_antisym _ _ L L'), date_eqb_refl in E. discriminate. }
      constructor; [constructor; assumption |].
      constructor; [exact Hdk |].
      rewrite Forall_forall in Hall |- *. intros x Hx.
      eapply before_trans_leb; [apply before_leb; exact Hdk | exact (Hall x Hx)].
    + constructor; [exact IH |].
      rewrite Forall_forall in Hall |- *. intros x Hx.
      apply insert_key_In in Hx. destruct Hx as [-> | Hx]; [exact L | auto].
Qed.

Lemma group_keys_sorted (col : list (option date)) :
  StronglySorted before (group_keys col).
Proof.
  induction col as [| [x |] col IH]; simpl.
  - constructor.
  - apply insert_key_sorted. exact IH.
  - exact IH.
Qed.

Lemma sorted_NoDup (keys : list date) : StronglySorted before keys -> NoDup keys.
Proof.
  induction 1 as [| k keys Hs IH Hall]; constructor; [| exact IH].
  intros Hin. rewrite Forall_forall in Hall. specialize (Hall k Hin).
  unfold before in Hall. rewrite date_leb_refl in Hall. discriminate.
Qed.

Lemma daily_of_dates (dated : list (option date * News.row)) :
  map Daily.DATE (daily_of dated) = group_keys (map fst dated).
Proof. unfold daily_of. rewrite map_map. simpl. apply map_id. Qed.

(** A key of [groupby] has at least one row. *)
Lemma group_nonempty (dated : list (option date * News.row)) (d : date) :
  In (Some d) (map fst dated) -> group d dated <> [].
Proof.
  intros H. apply in_map_iff in H. destruct H as ([c r] & Hc & Hin).
  simpl in Hc. subst c. unfold group.
  assert (Hf : In (Some d, r) (filter (fun p => on_date d (fst p)) dated)).
  { apply filter_In. split; [exact Hin |]. apply on_date_true. reflexivity. }
  destruct (filter _ dated); [contradiction | discriminate].
Qed.

(** The rows of a group are the rows of that date. *)
Lemma group_In (dated : list (option date * News.row)) (d : date) (r : News.row) :
  In r (group d dated) <-> In (Some d, r) dated.
Proof.
  unfold group. rewrite in_map_iff. split.
  - intros ([c r'] & <- & H). apply filter_In in H. destruct H as [H E].
    apply on_date_true in E. simpl in *. subst c. exact H.
  - intros H. exists (Some d, r). split; [reflexivity |].
    apply filter_In. split; [exact H | apply on_date_true; reflexivity].
Qed.

Lemma daily_of_row (dated : list (option date * News.row)) (row : Daily.row) :
  In row (daily_of dated) ->
  In (Some (Daily.DATE row)) (map fst dated)
  /\ row = aggregate (Daily.DATE row) (group (Daily.DATE row) dated).
Proof.
  unfold daily_of. rewrite in_map_iff. intros (d & <- & Hd).
  apply group_keys_In in Hd. simpl. auto.
Qed.

End Daily.

(** C3 (as the code has it).  The aggregate has exactly one row for each
    date that has a headline.  In the row of a date, the headline count is
    the number of that date's rows that have a score; when no score is
    missing the mean score is the arithmetic mean of the scores of that
    date's rows and the count is the number of those rows; the positive and
    negative shares are the proportions of that date's rows labelled
    "positive" and "negative".  For three headlines of scores 0.2, -0.4 and
    0.1, labelled as the scorer labels them, the row has mean -1/30, count
    3, positive share 2/3 and negative share 1/3. *)
Theorem daily_aggregate
  (df : frame BuildPanel.News.row) (daily : list BuildPanel.Daily.row) :
  BuildPanel.load_news df = inr daily ->
  (forall d, In d (map BuildPanel.Daily.DATE daily)
             <-> In (Some d) (map fst (BuildPanel.dated df)))
  /\ NoDup (map BuildPanel.Daily.DATE daily)
  /\ (forall row, In row daily ->
        BuildPanel.group (BuildPanel.Daily.DATE row) (BuildPanel.dated df) <> []
        /\ (forall r, In r (BuildPanel.group (BuildPanel.Daily.DATE row)
                                             (BuildPanel.dated df))
                      <-> In (Some (BuildPanel.Daily.DATE row), r) (BuildPanel.dated df))
        /\ BuildPanel.Daily.NUM_HEADLINES row
           = List.length
               (filter (fun r => notna (BuildPanel.News.FINBERT_SCORE r))
                       (BuildPanel.group (BuildPanel.Daily.DATE row)
                                         (BuildPanel.dated df)))
        /\ (forall qs,
              map BuildPanel.News.FINBERT_SCORE
                  (BuildPanel.group (BuildPanel.Daily.DATE row) (BuildPanel.dated df))
              = map Fin qs ->
              BuildPanel.Daily.DAILY_SENTIMENT row = Fin (Spec.arithmetic_mean qs)
              /\ BuildPanel.Daily.NUM_HEADLINES row
                 = List.length (BuildPanel.group (BuildPanel.Daily.DATE row)
                                                 (BuildPanel.dated df)))
        /\ feq (BuildPanel.Daily.POS_SHARE row)
               (Fin (Spec.proportion (BuildPanel.label_is "positive")
                       (map BuildPanel.News.FINBERT_LABEL
                            (BuildPanel.group (BuildPanel.Daily.DATE row)
                                              (BuildPanel.dated df)))))
        /\ feq (BuildPanel.Daily.NEG_SHARE row)
               (Fin (Spec.proportion (BuildPanel.label_is "negative")
                       (map BuildPanel.News.FINBERT_LABEL
                            (BuildPanel.group (BuildPanel.Daily.DATE row)
                                              (BuildPanel.dated df))))))
  /\ (exists row,
        BuildPanel.load_news Sample.three_headlines = inr [row]
        /\ BuildPanel.Daily.DATE row = mkDate 2025 9 15
        /\ feq (BuildPanel.Daily.DAILY_SENTIMENT row) (Fin (- (1 # 30))%Q)
        /\ BuildPanel.Daily.NUM_HEADLINES row = 3
        /\ feq (BuildPanel.Daily.POS_SHARE row) (Fin (2 # 3)%Q)
        /\ feq (BuildPanel.Daily.NEG_SHARE row) (Fin (1 # 3)%Q)).
Proof.
  intros Hload.
  assert (Hd : daily = BuildPanel.daily_of (BuildPanel.dated df)).
  { unfold BuildPanel.load_news in Hload.
    destruct (negb _); [discriminate |].
    destruct (BuildPanel.missing_columns df BuildPanel.sentiment_cols);
      [congruence | discriminate]. }
  subst daily. rewrite daily_of_dates.
  split; [intros d; apply group_keys_In |].
  split; [apply sorted_NoDup, group_keys_sorted |].
  split.
  - intros row Hrow. apply daily_of_row in Hrow. destruct Hrow as [Hin Hrow].
    set (g := BuildPanel.group (BuildPanel.Daily.DATE row) (BuildPanel.dated df)) in *.
    assert (Hg : g <> []) by (apply group_nonempty; exact Hin).
    split; [exact Hg |].
    split; [intros r; apply group_In |].
    split; [rewrite Hrow at 1; apply count_rows |].
    split.
    + intros qs Hqs. rewrite Hrow. cbn [BuildPanel.Daily.DAILY_SENTIMENT
        BuildPanel.Daily.NUM_HEADLINES BuildPanel.aggregate].
      rewrite Hqs, count_Fin. split.
      * apply mean_Fin. intros ->. destruct g; [congruence | discriminate].
      * rewrite <- (length_map Fin qs), <- Hqs. apply length_map.
    + rewrite Hrow. cbn [BuildPanel.Daily.POS_SHARE BuildPanel.Daily.NEG_SHARE
        BuildPanel.aggregate].
      split; apply share_proportion; intros E; apply map_eq_nil in E; congruence.
  - eexists. split; [reflexivity |].
    split; [reflexivity |]. split; [reflexivity |]. split; [reflexivity |].
    split; reflexivity.
Qed.

Lemma daily_aggregate_witness :
  NoDup (map BuildPanel.Daily.DATE Sample.three_daily)
  /\ exists row,
       BuildPanel.load_news Sample.three_headlines = inr [row]
       /\ BuildPanel.Daily.NUM_HEADLINES row = 3.
Proof.
  destruct (@daily_aggregate Sample.three_headlines Sample.three_daily)
    as (_ & Hnd & _ & (row & Hrow & _ & _ & Hn & _)).
  - reflexivity.
  - split; [exact Hnd |]. exists row. split; [exact Hrow | exact Hn].
Defined.

(** C3 as stated fails in its example: of the scores 0.2, -0.4 and 0.1 two
    are above 0.05, so two of the three headlines are labelled "positive"
    and the positive share of the date is 2/3, not 1/3. *)
Lemma positive_share_of_example :
  map SentimentFinbert.label [0.2%Q; (-0.4)%Q; 0.1%Q]
  = ["positive"; "negative"; "positive"]
  /\ exists row,
       BuildPanel.load_news Sample.three_headlines = inr [row]
       /\ feq (BuildPanel.Daily.POS_SHARE row) (Fin (2 # 3)%Q)
       /\ (feq (BuildPanel.Daily.POS_SHARE row) (Fin (1 # 3)%Q) -> False).
Proof.
  split; [reflexivity |].
  eexists. split; [reflexivity |]. split; [reflexivity |].
  simpl. intros H. discriminate H.
Qed.

(* ===================================================================== *)
(** * The run of the panel builder                                        *)
(* ===================================================================== *)

Section KeyCheck.
Import BuildPanel.

Lemma load_news_daily (df : frame News.row) (daily : list Daily.row) :
  load_news df = inr daily -> daily = daily_of (dated df).
Proof.
  unfold load_news. destruct (negb _); [discriminate |].
  destruct (missing_columns df sentiment_cols); [congruence | discriminate].
Qed.

Lemma forallb_is_nat {A : Type} (col : list (option A)) :
  forallb (@Pd.is_nat A) col = true <-> forall c, In c col -> c = None.
Proof.
  rewrite forallb_forall. split; intros H c Hc.
  - specialize (H c Hc). destruct c; [discriminate | reflexivity].
  - rewrite (H c Hc). reflexivity.
Qed.

(** A column of dates is a [datetime64] column exactly when it is not
    empty and holds no date. *)
Lemma date_dtype_datetime64 {A : Type} (col : list (option A)) :
  Pd.date_dtype col = Pd.datetime64
  <-> col <> [] /\ forall c, In c col -> c = None.
Proof.
  destruct col as [| c col]; [simpl; split; [discriminate | intros [H _]; congruence] |].
  unfold Pd.date_dtype. rewrite <- forallb_is_nat.
  destruct (forallb _ (c :: col)); split; try discriminate; try tauto.
  - intros _. split; [discriminate | reflexivity].
  - intros [_ H]. discriminate H.
Qed.

Lemma date_dtype_cases {A : Type} (col : list (option A)) :
  Pd.date_dtype col = Pd.datetime64 \/ Pd.date_dtype col = Pd.object.
Proof. unfold Pd.date_dtype. destruct col; [auto |]. destruct (forallb _ _); auto. Qed.

(** The table of the days is empty exactly when no row of the scored file
    has a date. *)
Lemma daily_of_nil (dated : list (option date * News.row)) :
  daily_of dated = [] <-> forall c, In c (map fst dated) -> c = None.
Proof.
  unfold daily_of. split.
  - intros E [d |] Hc; [| reflexivity].
    apply group_keys_In in Hc. apply map_eq_nil in E. rewrite E in Hc. contradiction.
  - intros H. destruct (group_keys (map fst dated)) as [| d keys] eqn:E; [reflexivity |].
    assert (Hd : In d (group_keys (map fst dated))) by (rewrite E; left; reflexivity).
    apply group_keys_In in Hd. specialize (H _ Hd). discriminate H.
Qed.

Lemma merge_returns (prices : list Price.row) (dt : Pd.dtype) (news : list Daily.row)
  (panel : list Panel.row) :
  merge prices dt news = inr panel -> panel = merge_inner prices news.
Proof.
  unfold merge, rbind. destruct (Pd.check_merge_keys _ _ _ _ _); [discriminate |].
  intros [= <-]. reflexivity.
Qed.

Lemma merge_raises (prices : list Price.row) (dt : Pd.dtype) (news : list Daily.row)
  (e : exn) :
  merge prices dt news = inl e -> exists msg, e = ValueError msg.
Proof.
  unfold merge, rbind, Pd.check_merge_keys.
  destruct (xorb _ _); [discriminate |].
  destruct (Pd.dtype_eqb _ _); [discriminate |].
  intros [= <-]. eexists. reflexivity.
Qed.

(** When the keys pass the check the result is the join. *)
Lemma merge_cases (prices : list Price.row) (dt : Pd.dtype) (news : list Daily.row) :
  merge prices dt news = inr (merge_inner prices news)
  \/ exists msg, merge prices dt news = inl (ValueError msg).
Proof.
  destruct (merge prices dt news) as [e | panel] eqn:E.
  - right. destruct (merge_raises _ _ _ E) as [msg ->]. exists msg. reflexivity.
  - left. rewrite (merge_returns _ _ _ E). reflexivity.
Qed.

Lemma length_zero {A : Type} (l : list A) : (List.length l =? 0) = true <-> l = [].
Proof. destruct l; simpl; split; congruence. Qed.

(** The key check fails in two cases: no price row has a date while there
    are days to join, or there is no price row and the scored file has rows
    but none with a date. *)
Lemma merge_fails (news_df : frame News.row) (prices : list Price.row) :
  (exists e, merge prices (news_key_dtype (Some news_df)) (daily_of (dated news_df))
             = inl e)
  <-> (prices <> [] /\ (forall p, In p prices -> Price.DATE p = None)
       /\ daily_of (dated news_df) <> [])
      \/ (prices = [] /\ map fst (dated news_df) <> []
          /\ forall c, In c (map fst (dated news_df)) -> c = None).
Proof.
  unfold merge, rbind, Pd.check_merge_keys, news_key_dtype, price_key_dtype.
  set (col := map fst (dated news_df)).
  set (news := daily_of (dated news_df)).
  assert (Hnil : news = [] <-> forall c, In c col -> c = None) by apply daily_of_nil.
  destruct prices as [| p prices].
  - cbn [List.length Nat.eqb map Pd.date_dtype].
    destruct news as [| n news'] eqn:En.
    + cbn [List.length Nat.eqb xorb].
      destruct (date_dtype_cases col) as [E | E]; rewrite E; cbn [Pd.dtype_eqb].
      * apply date_dtype_datetime64 in E. split.
        -- intros _. right. split; [reflexivity | exact E].
        -- intros _. eexists. reflexivity.
      * split; [intros [e He]; discriminate He |].
        intros [[H _] | (_ & H1 & H2)]; [congruence |].
        assert (Hd : Pd.date_dtype col = Pd.datetime64)
          by (apply date_dtype_datetime64; split; assumption).
        congruence.
    + cbn [List.length Nat.eqb xorb]. split; [intros [e He]; discriminate He |].
      intros [[H _] | (_ & _ & H2)]; [congruence |].
      apply Hnil in H2. discriminate H2.
  - cbn [List.length Nat.eqb].
    destruct news as [| n news'] eqn:En.
    + cbn [List.length Nat.eqb xorb]. split; [intros [e He]; discriminate He |].
      intros [(_ & _ & H) | (H & _)]; [congruence | discriminate H].
    + cbn [List.length Nat.eqb xorb].
      assert (Hobj : Pd.date_dtype col = Pd.object).
      { destruct (date_dtype_cases col) as [E | E]; [| exact E].
        apply date_dtype_datetime64 in E. destruct E as [_ E].
        apply Hnil in E. discriminate E. }
      rewrite Hobj.
      destruct (date_dtype_cases (map Price.DATE (p :: prices))) as [E | E];
        rewrite E; cbn [Pd.dtype_eqb].
      * apply date_dtype_datetime64 in E. destruct E as [_ E]. split.
        -- intros _. left. split; [discriminate |]. split; [| discriminate].
           intros q Hq. apply E. apply in_map. exact Hq.
        -- intros _. eexists. reflexivity.
      * split; [intros [e He]; discriminate He |].
        intros [(_ & H & _) | (H & _)]; [| discriminate H].
        assert (Hd : Pd.date_dtype (map Price.DATE (p :: prices)) = Pd.datetime64).
        { apply date_dtype_datetime64. split; [discriminate |].
          intros c Hc. apply in_map_iff in Hc. destruct Hc as (q & <- & Hq).
          apply H. exact Hq. }
        congruence.
Qed.

(** A date common to the two tables passes the key check. *)
Lemma common_date_merges (news_df : frame News.row) (prices : list Price.row)
  (d : date) :
  In (Some d) (map Price.DATE prices) ->
  In d (map Daily.DATE (daily_of (dated news_df))) ->
  forall e, merge prices (news_key_dtype (Some news_df)) (daily_of (dated news_df))
            <> inl e.
Proof.
  intros Hp Hn e He.
  assert (Hf : exists e, merge prices (news_key_dtype (Some news_df))
                               (daily_of (dated news_df)) = inl e)
    by (exists e; exact He).
  apply merge_fails in Hf. destruct Hf as [(_ & Hall & _) | (Hnil & _)].
  - apply in_map_iff in Hp. destruct Hp as (p & Hd & Hin).
    rewrite (Hall p Hin) in Hd. discriminate Hd.
  - subst prices. contradiction.
Qed.

End KeyCheck.

Section JoinRun.
Import BuildPanel.
Variable parse : string -> option date.

(** What [main] does once both files have loaded. *)
Lemma main_merge_returns (news_df : frame News.row) (prices_df : frame Price.csv_row)
  (news : list Daily.row) (prices : list Price.row) (panel : list Panel.row) :
  load_news news_df = inr news -> load_prices parse prices_df = inr prices ->
  merge prices (news_key_dtype (Some news_df)) news = inr panel ->
  written (fst (main parse (Some news_df) (Some prices_df) start))
  = [(OUTPUT_FILE, panel)]
  /\ returned (main parse (Some news_df) (Some prices_df) start).
Proof.
  intros Hn Hp Hm.
  cbv beta iota zeta delta [main bind print lift to_csv raise ret start
    fst snd written stdout returned].
  rewrite Hn, Hp, Hm. split; [reflexivity | exists tt; reflexivity].
Qed.

Lemma main_merge_raises (news_df : frame News.row) (prices_df : frame Price.csv_row)
  (news : list Daily.row) (prices : list Price.row) (e : exn) :
  load_news news_df = inr news -> load_prices parse prices_df = inr prices ->
  merge prices (news_key_dtype (Some news_df)) news = inl e ->
  written (fst (main parse (Some news_df) (Some prices_df) start)) = []
  /\ raised (main parse (Some news_df) (Some prices_df) start) e.
Proof.
  intros Hn Hp Hm.
  cbv beta iota zeta delta [main bind print lift to_csv raise ret start
    fst snd written stdout raised].
  rewrite Hn, Hp, Hm. split; reflexivity.
Qed.

(** The run writes the join, or is ended by the key check of [merge]
    having written nothing. *)
Lemma main_writes_join (news_df : frame News.row) (prices_df : frame Price.csv_row)
  (news : list Daily.row) (prices : list Price.row) :
  load_news news_df = inr news -> load_prices parse prices_df = inr prices ->
  (written (fst (main parse (Some news_df) (Some prices_df) start))
   = [(OUTPUT_FILE, merge_inner prices news)]
   /\ returned (main parse (Some news_df) (Some prices_df) start)
   /\ forall e, merge prices (news_key_dtype (Some news_df)) news <> inl e)
  \/ (written (fst (main parse (Some news_df) (Some prices_df) start)) = []
      /\ exists msg,
           raised (main parse (Some news_df) (Some prices_df) start) (ValueError msg)
           /\ merge prices (news_key_dtype (Some news_df)) news = inl (ValueError msg)).
Proof.
  intros Hn Hp.
  destruct (merge_cases prices (news_key_dtype (Some news_df)) news) as [E | [msg E]].
  - left. destruct (main_merge_returns _ _ Hn Hp E) as [Hw Hr].
    split; [exact Hw |]. split; [exact Hr |]. intros e He. congruence.
  - right. destruct (main_merge_raises _ _ Hn Hp E) as [Hw Hr].
    split; [exact Hw |]. exists msg. split; assumption.
Qed.

End JoinRun.

(** C2.  The panel [main] writes is the inner join on the date: a date is
    the date of a panel row exactly when it is the date of a price row and
    of a sentiment row; no panel row is without a date; and every panel row
    pairs a price row and a sentiment row of one and the same date.  When
    the two tables have a date in common the run writes this panel.  The
    run writes no panel in two cases only, in which the key check of
    [merge] ends it with a [ValueError]: no price row has a date while
    there are days to join, or there is no price row and the scored file
    has rows but none with a date; no date is then common to the two
    tables, so no row is missing from a panel. *)
Theorem panel_is_inner_join
  (parse : string -> option date)
  (news_df : frame BuildPanel.News.row)
  (prices_df : frame BuildPanel.Price.csv_row)
  (news : list BuildPanel.Daily.row) (prices : list BuildPanel.Price.row) :
  BuildPanel.load_news news_df = inr news ->
  BuildPanel.load_prices parse prices_df = inr prices ->
  (forall path panel,
     In (path, panel)
        (written (fst (BuildPanel.main parse (Some news_df) (Some prices_df) start))) ->
     path = BuildPanel.OUTPUT_FILE
     /\ panel = BuildPanel.merge_inner prices news
     /\ (forall d, In (Some d) (map BuildPanel.Panel.DATE panel) <->
                   In (Some d) (map BuildPanel.Price.DATE prices)
                   /\ In d (map BuildPanel.Daily.DATE news))
     /\ ~ In None (map BuildPanel.Panel.DATE panel)
     /\ (forall r, In r panel <->
                   In (BuildPanel.Panel.price r) prices
                   /\ In (BuildPanel.Panel.daily r) news
                   /\ BuildPanel.Price.DATE (BuildPanel.Panel.price r)
                      = Some (BuildPanel.Daily.DATE (BuildPanel.Panel.daily r))))
  /\ ((exists d, In (Some d) (map BuildPanel.Price.DATE prices)
                 /\ In d (map BuildPanel.Daily.DATE news)) ->
      written (fst (BuildPanel.main parse (Some news_df) (Some prices_df) start))
      = [(BuildPanel.OUTPUT_FILE, BuildPanel.merge_inner prices news)]
      /\ returned (BuildPanel.main parse (Some news_df) (Some prices_df) start))
  /\ ((written (fst (BuildPanel.main parse (Some news_df) (Some prices_df) start))
       = [(BuildPanel.OUTPUT_FILE, BuildPanel.merge_inner prices news)]
       /\ returned (BuildPanel.main parse (Some news_df) (Some prices_df) start))
      \/ ((exists msg,
             raised (BuildPanel.main parse (Some news_df) (Some prices_df) start)
                    (ValueError msg))
          /\ written (fst (BuildPanel.main parse (Some news_df) (Some prices_df) start))
             = []
          /\ forall d, In (Some d) (map BuildPanel.Price.DATE prices) ->
                       In d (map BuildPanel.Daily.DATE news) -> False))
  /\ ((exists msg,
         raised (BuildPanel.main parse (Some news_df) (Some prices_df) start)
                (ValueError msg))
      <-> (prices <> []
           /\ (forall p, In p prices -> BuildPanel.Price.DATE p = None)
           /\ news <> [])
          \/ (prices = []
              /\ map fst (BuildPanel.dated news_df) <> []
              /\ forall c, In c (map fst (BuildPanel.dated news_df)) -> c = None)).
Proof.
  intros Hn Hp. pose proof (load_news_daily _ Hn) as Hd.
  pose proof (main_writes_join parse _ _ Hn Hp) as Hrun.
  assert (Hcommon : forall d, In (Some d) (map BuildPanel.Price.DATE prices) ->
                              In d (map BuildPanel.Daily.DATE news) ->
                              forall e, BuildPanel.merge prices
                                          (BuildPanel.news_key_dtype (Some news_df)) news
                                        <> inl e).
  { intros d H1 H2. rewrite Hd in H2 |- *. exact (common_date_merges _ _ _ H1 H2). }
  split.
  { intros path panel Hw.
    destruct Hrun as [(Hwritten & _) | (Hwritten & _)]; rewrite Hwritten in Hw;
      [| contradiction].
    destruct Hw as [[= <- <-] | []].
    split; [reflexivity |]. split; [reflexivity |].
    split; [apply merge_inner_dates |].
    split; [apply merge_inner_dated | apply merge_inner_In]. }
  split.
  { intros (d & H1 & H2).
    destruct Hrun as [(Hw & Hr & _) | (_ & msg & _ & Hm)]; [split; assumption |].
    exfalso. exact (Hcommon d H1 H2 _ Hm). }
  split.
  { destruct Hrun as [(Hw & Hr & _) | (Hw & msg & Hr & Hm)]; [left; split; assumption |].
    right. split; [exists msg; exact Hr |]. split; [exact Hw |].
    intros d H1 H2. exact (Hcommon d H1 H2 _ Hm). }
  rewrite Hd at 1. rewrite <- (merge_fails news_df prices). rewrite <- Hd.
  split.
  - intros [msg Hr].
    destruct Hrun as [(_ & [x Hx] & _) | (_ & msg' & _ & Hm)].
    + unfold raised in Hr. rewrite Hr in Hx. discriminate Hx.
    + eexists. exact Hm.
  - intros [e He].
    destruct Hrun as [(_ & _ & Hno) | (_ & msg & Hr & _)].
    + exfalso. exact (Hno e He).
    + exists msg. exact Hr.
Qed.

Lemma panel_is_inner_join_witness :
  map BuildPanel.Panel.DATE
      (BuildPanel.merge_inner Sample.price_rows Sample.daily_rows)
  = [Some (mkDate 2025 9 15); Some (mkDate 2025 9 16)]
  /\ written (fst (BuildPanel.main Sample.iso_date (Some Sample.scored_file)
                     (Some Sample.price_file) start))
     = [(BuildPanel.OUTPUT_FILE,
         BuildPanel.merge_inner Sample.price_rows Sample.daily_rows)].
Proof.
  destruct (@panel_is_inner_join Sample.iso_date Sample.scored_file
              Sample.price_file Sample.daily_rows Sample.price_rows)
    as (_ & Hw & _).
  - reflexivity.
  - reflexivity.
  - split; [reflexivity |]. apply Hw.
    exists (mkDate 2025 9 15). split; vm_compute; auto 10.
Defined.

(** A price file whose timestamps do not parse: the run is ended by the key
    check of [merge] after both files have loaded, and writes nothing. *)
Lemma panel_undated_prices_raise :
  BuildPanel.main Sample.iso_date (Some Sample.scored_file)
                  (Some Cases.undated_prices) start
  = (mkWorld ["Loading sentiment..."; "News rows: 3"; "Loading prices...";
              "Price rows: 2"] [],
     inl (ValueError "You are trying to merge on datetime64[ns] and object columns for key 'DATE'. If you wish to proceed you should use pd.concat")).
Proof. reflexivity. Qed.

(* ===================================================================== *)
(** * Sorting by date                                                     *)
(* ===================================================================== *)

Section Sorting.
Variable A : Type.
Variable key : A -> option date.

Let not_after := Pd.not_after key.

Lemma key_leb_total (a b : A) :
  Pd.key_leb key a b = false -> Pd.key_leb key b a = true.
Proof.
  unfold Pd.key_leb. destruct (key a), (key b); try reflexivity; try discriminate.
  apply date_leb_total.
Qed.

Lemma key_leb_trans (a b c : A) :
  not_after a b -> not_after b c -> not_after a c.
Proof.
  unfold not_after, Pd.not_after, Pd.key_leb.
  destruct (key a), (key b), (key c); try reflexivity; try discriminate.
  apply date_leb_trans.
Qed.

Lemma insert_row_perm (r : A) (l : list A) :
  Permutation (Pd.insert_row key r l) (r :: l).
Proof.
  induction l as [| x l IH]; simpl; [reflexivity |].
  destruct (Pd.key_leb key r x); [reflexivity |].
  rewrite IH. apply perm_swap.
Qed.

Lemma sort_values_perm (l : list A) : Permutation (Pd.sort_values key l) l.
Proof.
  induction l as [| x l IH]; simpl; [reflexivity |].
  rewrite insert_row_perm, IH. reflexivity.
Qed.

Lemma insert_row_sorted (r : A) (l : list A) :
  StronglySorted not_after l -> StronglySorted not_after (Pd.insert_row key r l).
Proof.
  induction 1 as [| x l Hs IH Hall]; simpl.
  - constructor; constructor.
  - destruct (Pd.key_leb key r x) eqn:E.
    + constructor; [constructor; assumption |].
      constructor; [exact E |].
      rewrite Forall_forall in Hall |- *. intros y Hy.
      apply (key_leb_trans E (Hall y Hy)).
    + constructor; [exact IH |].
      rewrite Forall_forall in Hall |- *. intros y Hy.
      apply (Permutation_in _ (insert_row_perm r l)) in Hy.
      destruct Hy as [<- | Hy]; [apply key_leb_total; exact E | auto].
Qed.

Lemma sort_values_sorted (l : list A) :
  StronglySorted not_after (Pd.sort_values key l).
Proof.
  induction l as [| x l IH]; simpl; [constructor |].
  apply insert_row_sorted. exact IH.
Qed.

Lemma sort_values_In (l : list A) (x : A) : In x (Pd.sort_values key l) <-> In x l.
Proof.
  split; apply Permutation_in; [| symmetry]; apply sort_values_perm.
Qed.

End Sorting.

(* ===================================================================== *)
(** * Daily returns                                                       *)
(* ===================================================================== *)

Section Returns.
Import BuildPanel.

Lemma ffill_from_present (col : list float) :
  Forall (fun x => notna x = true) col ->
  forall last, Pd.ffill_from last col = col.
Proof.
  induction 1 as [| x col Hx Hall IH]; intros last; simpl; [reflexivity |].
  rewrite Hx, IH. reflexivity.
Qed.

Lemma zip_with_removelast {B C : Type} (f : B -> B -> C) (rest : list B) :
  forall c, Pd.zip_with f rest (removelast (c :: rest)) = Pd.zip_with f rest (c :: rest).
Proof.
  induction rest as [| x rest IH]; intros c; [reflexivity |].
  change (removelast (c :: x :: rest)) with (c :: removelast (x :: rest)).
  cbn [Pd.zip_with]. rewrite IH. reflexivity.
Qed.

Lemma zip_with_nth {B C D : Type} (f : B -> C -> D) (l : list B) (r : list C)
  (k : nat) (x : B) (y : C) :
  nth_error l k = Some x -> nth_error r k = Some y ->
  nth_error (Pd.zip_with f l r) k = Some (f x y).
Proof.
  revert r k. induction l as [| a l IH]; intros [| b r] [| k]; simpl;
    try discriminate.
  - intros [= ->] [= ->]. reflexivity.
  - apply IH.
Qed.

Lemma zip_with_length {B C D : Type} (f : B -> C -> D) (l : list B) (r : list C) :
  List.length l = List.length r -> List.length (Pd.zip_with f l r) = List.length l.
Proof.
  revert r. induction l as [| a l IH]; intros [| b r]; simpl; try discriminate;
    [reflexivity |].
  intros [= H]. rewrite IH; [reflexivity | exact H].
Qed.

Lemma zip_with_fst {B C X : Type} (f : B -> C -> B) (g : B -> X) (l : list B)
  (r : list C) :
  (forall x y, g (f x y) = g x) -> List.length l = List.length r ->
  map g (Pd.zip_with f l r) = map g l.
Proof.
  intros Hg. revert r. induction l as [| a l IH]; intros [| b r]; simpl;
    try discriminate; [reflexivity |].
  intros [= H]. rewrite Hg, IH; [reflexivity | exact H].
Qed.

Lemma zip_with_snd {B C : Type} (f : B -> C -> B) (g : B -> C) (l : list B)
  (r : list C) :
  (forall x y, g (f x y) = y) -> List.length l = List.length r ->
  map g (Pd.zip_with f l r) = r.
Proof.
  intros Hg. revert r. induction l as [| a l IH]; intros [| b r]; simpl;
    try discriminate; [reflexivity |].
  intros [= H]. rewrite Hg, IH; [reflexivity | exact H].
Qed.

Lemma fdiv_NaN (x : float) : fdiv x NaN = NaN.
Proof. destruct x; reflexivity. Qed.

(** Without missing values, [pct_change] is [NaN] followed by the change
    of each value over the one before it. *)
Lemma pct_change_present (c : float) (rest : list float) :
  Forall (fun x => notna x = true) (c :: rest) ->
  Pd.pct_change (c :: rest) = NaN :: Pd.zip_with Spec.change rest (c :: rest).
Proof.
  intros H. unfold Pd.pct_change, Pd.ffill. rewrite (ffill_from_present H).
  unfold Pd.shift_down. cbn [Pd.zip_with map]. rewrite fdiv_NaN.
  cbn [fsub fneg fadd]. f_equal.
  rewrite zip_with_removelast.
  clear H. generalize (c :: rest). revert rest.
  induction rest as [| x rest IH]; intros [| y l]; simpl; try reflexivity.
  rewrite IH. reflexivity.
Qed.

Lemma pct_change_length (col : list float) :
  List.length (Pd.pct_change col) = List.length col.
Proof.
  unfold Pd.pct_change, Pd.ffill. rewrite length_map.
  assert (Hf : forall last l, List.length (Pd.ffill_from last l) = List.length l).
  { intros last l. revert last. induction l; intros last; simpl; [reflexivity |].
    rewrite IHl. reflexivity. }
  generalize (Hf NaN col). generalize (Pd.ffill_from NaN col).
  intros data Hd. rewrite <- Hd.
  apply zip_with_length. unfold Pd.shift_down.
  destruct data as [| x data]; [reflexivity |].
  rewrite removelast_firstn_len. cbn [List.length Nat.pred].
  rewrite length_firstn. simpl List.length. lia.
Qed.

Lemma zip_with_sorted {C : Type} (f : Price.row -> C -> Price.row)
  (l : list Price.row) :
  (forall x y, Price.DATE (f x y) = Price.DATE x) ->
  StronglySorted (Pd.not_after Price.DATE) l ->
  forall r, StronglySorted (Pd.not_after Price.DATE) (Pd.zip_with f l r).
Proof.
  intros Hkey. induction 1 as [| a l Hs IH Hall]; intros [| b r]; simpl;
    try constructor.
  - apply IH.
  - rewrite Forall_forall in Hall |- *. intros z Hz.
    apply zip_with_In in Hz. destruct Hz as (x & y & Hx & _ & ->).
    specialize (Hall x Hx). unfold Pd.not_after, Pd.key_leb in *.
    rewrite !Hkey. exact Hall.
Qed.

Lemma Qis_zero_false (p : Q) : ~ (p == 0)%Q -> Qis_zero p = false.
Proof.
  intros H. unfold Qis_zero. apply Z.eqb_neq. intros E. apply H.
  unfold Qeq. simpl. rewrite E. reflexivity.
Qed.

Lemma change_numbers (c p : Q) :
  ~ (p == 0)%Q -> Spec.change (Fin c) (Fin p) = Fin (c / p - 1)%Q.
Proof.
  intros H. unfold Spec.change, fdiv. rewrite (Qis_zero_false H). reflexivity.
Qed.

(** The padded column: a value that is present stays, a missing value
    takes the padded value of the position before it. *)
Lemma ffill_from_kept (col : list float) (t : nat) (x : float) :
  nth_error col t = Some x -> notna x = true ->
  forall last, nth_error (Pd.ffill_from last col) t = Some x.
Proof.
  revert t. induction col as [| y col IH]; intros [| t]; simpl; try discriminate.
  - intros [= ->] Hx last. rewrite Hx. reflexivity.
  - intros Ht Hx last. apply IH; assumption.
Qed.

Lemma ffill_from_padded (col : list float) (t : nat) (x : float) :
  nth_error col (S t) = Some x -> notna x = false ->
  forall last, nth_error (Pd.ffill_from last col) (S t)
               = nth_error (Pd.ffill_from last col) t.
Proof.
  revert t. induction col as [| y col IH]; intros t; [discriminate |].
  destruct t as [| t].
  - destruct col as [| z col]; [discriminate |]. simpl.
    intros [= ->] Hx last. rewrite Hx. reflexivity.
  - intros Ht Hx last.
    change (nth_error (Pd.ffill_from last (y :: col)) (S (S t)))
      with (nth_error (Pd.ffill_from (if notna y then y else last) col) (S t)).
    change (nth_error (Pd.ffill_from last (y :: col)) (S t))
      with (nth_error (Pd.ffill_from (if notna y then y else last) col) t).
    apply IH; assumption.
Qed.

Lemma ffill_from_length (col : list float) :
  forall last, List.length (Pd.ffill_from last col) = List.length col.
Proof.
  induction col as [| x col IH]; intros last; simpl; [reflexivity |].
  rewrite IH. reflexivity.
Qed.

Lemma zip_with_change (l r : list float) :
  map (fun x => fsub x (Fin 1%Q)) (Pd.zip_with fdiv l r) = Pd.zip_with Spec.change l r.
Proof.
  revert r. induction l as [| x l IH]; intros [| y r]; simpl; try reflexivity.
  rewrite IH. reflexivity.
Qed.

(** [pct_change] is [NaN] followed by the change of each padded value over
    the padded value before it. *)
Lemma pct_change_padded (col : list float) :
  Pd.pct_change col
  = match Pd.ffill col with
    | [] => []
    | c :: rest => NaN :: Pd.zip_with Spec.change rest (c :: rest)
    end.
Proof.
  unfold Pd.pct_change. destruct (Pd.ffill col) as [| c rest]; [reflexivity |].
  unfold Pd.shift_down. cbn [Pd.zip_with map]. rewrite fdiv_NaN.
  cbn [fsub fneg fadd]. f_equal.
  rewrite zip_with_removelast. apply zip_with_change.
Qed.

Lemma pct_change_nth (col : list float) (t : nat) (ret : float) :
  nth_error (Pd.pct_change col) (S t) = Some ret ->
  exists now before,
    nth_error (Pd.ffill col) (S t) = Some now
    /\ nth_error (Pd.ffill col) t = Some before
    /\ ret = Spec.change now before.
Proof.
  rewrite pct_change_padded. destruct (Pd.ffill col) as [| c rest]; [discriminate |].
  cbn [nth_error]. intros H.
  destruct (nth_error rest t) as [now |] eqn:En.
  - destruct (nth_error (c :: rest) t) as [before |] eqn:Eb.
    + exists now, before. rewrite (zip_with_nth Spec.change _ _ _ En Eb) in H.
      injection H as <-. auto.
    + exfalso. apply nth_error_None in Eb.
      assert (Hlt : t < List.length rest) by (apply nth_error_Some; congruence).
      simpl in Eb. lia.
  - exfalso. apply nth_error_None in En.
    assert (Hlt : t < List.length (Pd.zip_with Spec.change rest (c :: rest)))
      by (apply nth_error_Some; congruence).
    assert (Hle : List.length (Pd.zip_with Spec.change rest (c :: rest))
                  <= List.length rest).
    { clear. generalize (c :: rest). induction rest as [| x rest IH]; intros [| y l];
        simpl; try lia. specialize (IH l). lia. }
    lia.
Qed.

Lemma pct_change_first (col : list float) (ret : float) :
  nth_error (Pd.pct_change col) 0 = Some ret -> ret = NaN.
Proof.
  rewrite pct_change_padded. destruct (Pd.ffill col); [discriminate |].
  intros [= <-]. reflexivity.
Qed.

(** What [load_prices] returns: the rows in date order, each with the
    return [pct_change] gives its position. *)
Lemma load_prices_rows (parse : string -> option date)
  (df : frame Price.csv_row) (prices : list Price.row) :
  load_prices parse df = inr prices ->
  StronglySorted (Pd.not_after Price.DATE) prices
  /\ Permutation (map Price.DATE prices)
                 (map (fun r => Pd.on_text parse (Price.TIMESTAMP r)) (rows df))
  /\ map Price.RETURN prices = Pd.pct_change (map Price.CLOSE prices).
Proof.
  unfold load_prices.
  destruct (negb _); [discriminate |]. destruct (negb _); [discriminate |].
  destruct (1 <? _); [discriminate |].
  intros [= <-]. unfold with_returns.
  set (sorted := Pd.sort_values Price.DATE (map (with_date parse) (rows df))).
  assert (Hlen : List.length sorted
                 = List.length (Pd.pct_change (map Price.CLOSE sorted)))
    by (rewrite pct_change_length, length_map; reflexivity).
  split; [apply zip_with_sorted; [reflexivity | apply sort_values_sorted] |].
  split.
  - rewrite (zip_with_fst set_return Price.DATE); [| reflexivity | exact Hlen].
    unfold sorted. rewrite (sort_values_perm Price.DATE), map_map. reflexivity.
  - rewrite (zip_with_fst set_return Price.CLOSE); [| reflexivity | exact Hlen].
    apply zip_with_snd; [reflexivity | exact Hlen].
Qed.

End Returns.

Section CorrelationRows.
Import BuildCorrelation.
Variable corr : list float -> list float -> float.
Variable rolling_corr : nat -> list float -> list float -> list float.
Variable fmt4 : float -> string.

Lemma analysis_rows_In (rows : list PanelFile.row) (r : PanelFile.row) :
  In r (analysis_rows rows)
  <-> In r rows /\ in_range r = true /\ notna (PanelFile.RETURN r) = true.
Proof.
  unfold analysis_rows, drop_missing_return, ranged.
  rewrite filter_In, sort_values_In, filter_In. tauto.
Qed.

(** The loop over the rolling columns only prints. *)
Lemma announce_run (cols : list string) :
  forall w : world artifact,
    announce cols w
    = (mkWorld (stdout w ++ map (fun col => ("Added rolling correlation column: "
                                              ++ rolling_name col)%string) cols)
               (written w), inr tt).
Proof.
  induction cols as [| col cols IH]; intros [out files]; simpl.
  - rewrite app_nil_r. reflexivity.
  - unfold bind, print. simpl. rewrite IH. simpl. rewrite <- app_assoc. reflexivity.
Qed.

(** The two tables [main] writes are computed from [analysis_rows]. *)
Lemma correlation_tables (df : frame PanelFile.row) :
  has_column df "DATE" = true ->
  existsb (String.eqb "RETURN") (present df price_cols) = true ->
  exists tail,
    written (fst (main corr rolling_corr fmt4 (Some df) start))
    = (CORR_TABLE,
       Table (present df price_cols ++ present df sentiment_cols)
             (corr_matrix corr (present df price_cols ++ present df sentiment_cols)
                          (analysis_rows (rows df))))
      :: (CORR_PLOT, Figure "Correlation Heatmap: Sentiment vs Price Metrics")
      :: (DAILY_CORR_FILE,
          DatedTable ("DATE" :: map rolling_name (present df sentiment_cols))
            (transpose_onto
               (map PanelFile.DATE (analysis_rows (rows df)))
               (map (fun col => rolling_corr ROLL_WINDOW_DAYS
                                  (column "RETURN" (analysis_rows (rows df)))
                                  (column col (analysis_rows (rows df))))
                    (present df sentiment_cols))))
      :: tail.
Proof.
  intros Hd Hr.
  cbv beta iota zeta delta [main bind print lift to_csv raise ret start
    fst snd written stdout].
  rewrite Hd, Hr. cbn [negb]. cbv iota.
  destruct (existsb (String.eqb "DAILY_SENTIMENT") (present df sentiment_cols));
    rewrite announce_run; cbn [written stdout fst snd app];
    eexists; reflexivity.
Qed.

End CorrelationRows.


(* ===================================================================== *)
(** * The lead-lag table                                                  *)
(* ===================================================================== *)

Section LeadLagTable.
Import LeadLag.

Lemma complete_last_row (r : PanelFile.row) : complete (last_row r) = false.
Proof.
  unfold complete, last_row. simpl. destruct (PanelFile.DATE r); [| reflexivity].
  apply andb_false_r.
Qed.

Lemma last_cons_default {B : Type} (rest : list B) :
  forall x r : B, last (x :: rest) r = last rest x.
Proof.
  induction rest as [| y rest IH]; intros x r; [reflexivity |].
  change (last (x :: y :: rest) r) with (last (y :: rest) r).
  rewrite !IH. reflexivity.
Qed.

Lemma with_tomorrow_cons (r x : PanelFile.row) (rest : list PanelFile.row) :
  with_tomorrow (r :: x :: rest)
  = mkRow (PanelFile.DATE r) (PanelFile.DAILY_SENTIMENT r) (PanelFile.RETURN x)
    :: with_tomorrow (x :: rest).
Proof. reflexivity. Qed.

(** After the shift every row but the last carries the return of the next
    row, and the last carries a missing value. *)
Lemma with_tomorrow_shape (rest : list PanelFile.row) :
  forall r, with_tomorrow (r :: rest)
            = Spec.pair_with_next (r :: rest) ++ [last_row (last rest r)].
Proof.
  induction rest as [| x rest IH]; intros r; [reflexivity |].
  rewrite with_tomorrow_cons, IH.
  change (Spec.pair_with_next (r :: x :: rest))
    with (mkRow (PanelFile.DATE r) (PanelFile.DAILY_SENTIMENT r) (PanelFile.RETURN x)
          :: Spec.pair_with_next (x :: rest)).
  cbn [app]. rewrite last_cons_default. reflexivity.
Qed.

(** The table: the pairs of a row and the return of the next row that have
    no missing cell. *)
Lemma lead_lag_table_pairs (rows : list PanelFile.row) :
  lead_lag_table rows = filter complete (Spec.pair_with_next rows).
Proof.
  unfold lead_lag_table. destruct rows as [| r rest]; [reflexivity |].
  rewrite with_tomorrow_shape, filter_app. cbn [filter].
  rewrite complete_last_row, app_nil_r. reflexivity.
Qed.

Lemma pair_with_next_length (rows : list PanelFile.row) :
  List.length (Spec.pair_with_next rows) = List.length rows - 1.
Proof.
  induction rows as [| r [| x rest] IH]; try reflexivity.
  change (Spec.pair_with_next (r :: x :: rest))
    with (mkRow (PanelFile.DATE r) (PanelFile.DAILY_SENTIMENT r) (PanelFile.RETURN x)
          :: Spec.pair_with_next (x :: rest)).
  simpl List.length in *. rewrite IH. lia.
Qed.

(** When no date, sentiment or later return is missing, every pair is
    complete. *)
Lemma pairs_complete (rows : list PanelFile.row) :
  Forall (fun r => PanelFile.DATE r <> None) rows ->
  Forall (fun r => notna (PanelFile.DAILY_SENTIMENT r) = true) rows ->
  Forall (fun r => notna (PanelFile.RETURN r) = true) (tl rows) ->
  filter complete (Spec.pair_with_next rows) = Spec.pair_with_next rows.
Proof.
  induction rows as [| r [| x rest] IH]; intros Hd Hs Hr; try reflexivity.
  change (Spec.pair_with_next (r :: x :: rest))
    with (mkRow (PanelFile.DATE r) (PanelFile.DAILY_SENTIMENT r) (PanelFile.RETURN x)
          :: Spec.pair_with_next (x :: rest)).
  inversion Hd as [| ? ? Hd1 Hd2]; subst.
  inversion Hs as [| ? ? Hs1 Hs2]; subst.
  cbn [tl] in Hr. inversion Hr as [| ? ? Hr1 Hr2]; subst.
  cbn [filter]. unfold complete at 1. cbn [DATE DAILY_SENTIMENT RETURN_TOMORROW].
  destruct (PanelFile.DATE r); [| congruence].
  rewrite Hs1, Hr1. cbn [andb]. f_equal.
  apply IH; assumption.
Qed.

Lemma ranged_dated (rows : list PanelFile.row) :
  Forall (fun r => PanelFile.DATE r <> None) (ranged rows).
Proof.
  rewrite Forall_forall. intros r Hr. unfold ranged in Hr.
  apply sort_values_In in Hr. apply filter_In in Hr. destruct Hr as [_ Hr].
  unfold in_range in Hr. destruct (PanelFile.DATE r); [discriminate | discriminate].
Qed.

Section Main.
Variable corr : list float -> list float -> float.
Variable fmt4 : float -> string.

(** With its three columns, at least one row in the range and a table that
    is not empty, [main] writes the table and the chart. *)
Lemma lead_lag_written (df : frame PanelFile.row) :
  has_column df "DATE" = true -> has_column df "RETURN" = true ->
  has_column df "DAILY_SENTIMENT" = true ->
  lead_lag_table (ranged (rows df)) <> [] ->
  written (fst (main corr fmt4 (Some df) start))
  = [(LEAD_LAG_CSV,
      DatedTable ["DATE"; "DAILY_SENTIMENT"; "RETURN_TOMORROW"]
                 (body_of (lead_lag_table (ranged (rows df)))));
     (LEAD_LAG_PLOT_PNG,
      Figure "Lead/Lag: Sentiment Today vs Return Tomorrow (AAPL.O)")].
Proof.
  intros H1 H2 H3 Hne.
  cbv beta iota zeta delta [main bind print lift to_csv raise ret start
    fst snd written stdout].
  rewrite H1, H2, H3. cbn [negb]. cbv iota.
  unfold empty. cbn [rows columns].
  destruct (ranged (rows df)) as [| r0 rs] eqn:Er; [exfalso; apply Hne; reflexivity |].
  destruct (columns df) as [| c cs] eqn:Ec;
    [unfold has_column in H1; rewrite Ec in H1; discriminate |].
  destruct (lead_lag_table (r0 :: rs)) as [| t ts]; [congruence |].
  reflexivity.
Qed.

End Main.
End LeadLagTable.

(** Every row of the lead-lag table has a return. *)
Lemma lead_lag_table_returns (rows : list PanelFile.row) (r : LeadLag.row) :
  In r (LeadLag.lead_lag_table rows) -> notna (LeadLag.RETURN_TOMORROW r) = true.
Proof.
  unfold LeadLag.lead_lag_table. rewrite filter_In. intros [_ H].
  unfold LeadLag.complete in H. destruct (LeadLag.DATE r); [| discriminate].
  apply andb_true_iff in H. apply H.
Qed.

(** C4 (as the code has it).  [load_prices] returns the price rows in
    increasing date order.  The first row's return is missing.  The return
    of every later row is the change of its padded close over the padded
    close of the row before it, where padding leaves a close that is
    present as it is and gives a missing close the padded close of the row
    before: so at a row whose close and the close before it are both
    present, the return is close over previous close, minus one.  The
    correlation script computes its tables from the rows that are left
    after those with a missing return are dropped, and every row of the
    lead-lag table has a return.  Closes 100, 105, 103 give the returns
    NaN, 0.05, -2/105. *)
Theorem daily_return_and_exclusion
  (parse : string -> option date)
  (df : frame BuildPanel.Price.csv_row) (prices : list BuildPanel.Price.row) :
  BuildPanel.load_prices parse df = inr prices ->
  StronglySorted (Pd.not_after BuildPanel.Price.DATE) prices
  /\ Permutation (map BuildPanel.Price.DATE prices)
                 (map (fun r => Pd.on_text parse (BuildPanel.Price.TIMESTAMP r))
                      (rows df))
  /\ (forall r, nth_error prices 0 = Some r -> BuildPanel.Price.RETURN r = NaN)
  /\ (forall t cur,
        nth_error prices (S t) = Some cur ->
        exists now before,
          nth_error (Pd.ffill (map BuildPanel.Price.CLOSE prices)) (S t) = Some now
          /\ nth_error (Pd.ffill (map BuildPanel.Price.CLOSE prices)) t = Some before
          /\ BuildPanel.Price.RETURN cur = Spec.change now before)
  /\ (forall t r,
        nth_error prices t = Some r -> notna (BuildPanel.Price.CLOSE r) = true ->
        nth_error (Pd.ffill (map BuildPanel.Price.CLOSE prices)) t
        = Some (BuildPanel.Price.CLOSE r))
  /\ (forall t r,
        nth_error prices (S t) = Some r -> notna (BuildPanel.Price.CLOSE r) = false ->
        nth_error (Pd.ffill (map BuildPanel.Price.CLOSE prices)) (S t)
        = nth_error (Pd.ffill (map BuildPanel.Price.CLOSE prices)) t)
  /\ (forall t prev cur,
        nth_error prices t = Some prev -> nth_error prices (S t) = Some cur ->
        notna (BuildPanel.Price.CLOSE prev) = true ->
        notna (BuildPanel.Price.CLOSE cur) = true ->
        BuildPanel.Price.RETURN cur
        = Spec.change (BuildPanel.Price.CLOSE cur) (BuildPanel.Price.CLOSE prev))
  /\ (forall c p : Q, ~ (p == 0)%Q ->
        Spec.change (Fin c) (Fin p) = Fin (c / p - 1)%Q)
  /\ (forall (rows : list PanelFile.row) (r : PanelFile.row),
        In r (BuildCorrelation.analysis_rows rows)
        <-> In r rows /\ in_range r = true /\ notna (PanelFile.RETURN r) = true)
  /\ (forall corr rolling_corr fmt4 (panel : frame PanelFile.row),
        has_column panel "DATE" = true ->
        existsb (String.eqb "RETURN")
                (BuildCorrelation.present panel BuildCorrelation.price_cols) = true ->
        exists tail,
          written (fst (BuildCorrelation.main corr rolling_corr fmt4 (Some panel) start))
          = (BuildCorrelation.CORR_TABLE,
             Table (BuildCorrelation.present panel BuildCorrelation.price_cols
                    ++ BuildCorrelation.present panel BuildCorrelation.sentiment_cols)
                   (BuildCorrelation.corr_matrix corr
                      (BuildCorrelation.present panel BuildCorrelation.price_cols
                       ++ BuildCorrelation.present panel BuildCorrelation.sentiment_cols)
                      (BuildCorrelation.analysis_rows (rows panel))))
            :: (BuildCorrelation.CORR_PLOT,
                Figure "Correlation Heatmap: Sentiment vs Price Metrics")
            :: (BuildCorrelation.DAILY_CORR_FILE,
                DatedTable
                  ("DATE" :: map BuildCorrelation.rolling_name
                                 (BuildCorrelation.present panel
                                    BuildCorrelation.sentiment_cols))
                  (BuildCorrelation.transpose_onto
                     (map PanelFile.DATE (BuildCorrelation.analysis_rows (rows panel)))
                     (map (fun col =>
                             rolling_corr BuildCorrelation.ROLL_WINDOW_DAYS
                               (BuildCorrelation.column "RETURN"
                                  (BuildCorrelation.analysis_rows (rows panel)))
                               (BuildCorrelation.column col
                                  (BuildCorrelation.analysis_rows (rows panel))))
                          (BuildCorrelation.present panel
                             BuildCorrelation.sentiment_cols))))
            :: tail)
  /\ (forall (rows : list PanelFile.row) (r : LeadLag.row),
        In r (LeadLag.lead_lag_table rows) ->
        notna (LeadLag.RETURN_TOMORROW r) = true)
  /\ (forall corr fmt4 (panel : frame PanelFile.row),
        has_column panel "DATE" = true -> has_column panel "RETURN" = true ->
        has_column panel "DAILY_SENTIMENT" = true ->
        LeadLag.lead_lag_table (ranged (rows panel)) <> [] ->
        written (fst (LeadLag.main corr fmt4 (Some panel) start))
        = [(LeadLag.LEAD_LAG_CSV,
            DatedTable ["DATE"; "DAILY_SENTIMENT"; "RETURN_TOMORROW"]
                       (LeadLag.body_of (LeadLag.lead_lag_table (ranged (rows panel)))));
           (LeadLag.LEAD_LAG_PLOT_PNG,
            Figure "Lead/Lag: Sentiment Today vs Return Tomorrow (AAPL.O)")])
  /\ Forall2 feq (Pd.pct_change [Fin 100%Q; Fin 105%Q; Fin 103%Q])
                 [NaN; Fin 0.05%Q; Fin (- (2 # 105))%Q]
  /\ (-0.019048 < - (2 # 105) < -0.019047)%Q.
Proof.
  intros Hload.
  destruct (load_prices_rows parse df Hload) as (Hsorted & Hperm & Hret).
  split; [exact Hsorted |]. split; [exact Hperm |].
  assert (Hkept : forall t r,
            nth_error prices t = Some r -> notna (BuildPanel.Price.CLOSE r) = true ->
            nth_error (Pd.ffill (map BuildPanel.Price.CLOSE prices)) t
            = Some (BuildPanel.Price.CLOSE r)).
  { intros t r Ht Hr. unfold Pd.ffill. apply ffill_from_kept; [| exact Hr].
    apply map_nth_error. exact Ht. }
  assert (Hnth : forall t cur,
            nth_error prices (S t) = Some cur ->
            exists now before,
              nth_error (Pd.ffill (map BuildPanel.Price.CLOSE prices)) (S t) = Some now
              /\ nth_error (Pd.ffill (map BuildPanel.Price.CLOSE prices)) t = Some before
              /\ BuildPanel.Price.RETURN cur = Spec.change now before).
  { intros t cur Hcur. apply pct_change_nth. rewrite <- Hret.
    apply map_nth_error. exact Hcur. }
  split.
  { intros r H0. apply (@pct_change_first (map BuildPanel.Price.CLOSE prices)).
    rewrite <- Hret. apply map_nth_error. exact H0. }
  split; [exact Hnth |].
  split; [exact Hkept |].
  split.
  { intros t r Ht Hr. unfold Pd.ffill.
    apply ffill_from_padded with (x := BuildPanel.Price.CLOSE r); [| exact Hr].
    apply map_nth_error. exact Ht. }
  split.
  { intros t prev cur Hprev Hcur Hp Hc.
    destruct (Hnth t cur Hcur) as (now & before & Hnow & Hbefore & ->).
    rewrite (Hkept _ _ Hcur Hc) in Hnow. rewrite (Hkept _ _ Hprev Hp) in Hbefore.
    congruence. }
  split; [exact change_numbers |].
  split; [exact analysis_rows_In |].
  split; [intros; apply correlation_tables; assumption |].
  split; [exact lead_lag_table_returns |].
  split; [intros; apply lead_lag_written; assumption |].
  split.
  - repeat constructor; reflexivity.
  - split; reflexivity.
Qed.

Lemma daily_return_and_exclusion_witness :
  map BuildPanel.Price.DATE Sample.price_rows
  = [Some (mkDate 2025 9 14); Some (mkDate 2025 9 15); Some (mkDate 2025 9 16)]
  /\ (forall r, nth_error Sample.price_rows 0 = Some r ->
                BuildPanel.Price.RETURN r = NaN)
  /\ Forall2 feq (Pd.pct_change [Fin 100%Q; Fin 105%Q; Fin 103%Q])
                 [NaN; Fin 0.05%Q; Fin (- (2 # 105))%Q].
Proof.
  destruct (@daily_return_and_exclusion Sample.iso_date Sample.price_file
              Sample.price_rows)
    as (_ & _ & H0 & _ & _ & _ & _ & _ & _ & _ & _ & _ & Hex & _).
  - reflexivity.
  - split; [reflexivity |]. split; [exact H0 | exact Hex].
Defined.

(** A series with a missing close: closes 100, missing, 103.  The row of
    the missing close gets the return 0 and the row after it the return
    0.03, where close over previous close minus one is missing in both. *)
Lemma missing_close_is_padded :
  map BuildPanel.Price.CLOSE
      (Sample.rows_of (BuildPanel.load_prices Sample.iso_date Cases.gap_prices))
  = [Fin 100%Q; NaN; Fin 103%Q]
  /\ Forall2 feq
       (map BuildPanel.Price.RETURN
            (Sample.rows_of (BuildPanel.load_prices Sample.iso_date Cases.gap_prices)))
       [NaN; Fin 0%Q; Fin 0.03%Q]
  /\ Pd.zip_with Spec.change [NaN; Fin 103%Q] [Fin 100%Q; NaN] = [NaN; NaN].
Proof.
  split; [reflexivity |]. split; [| reflexivity].
  repeat constructor; reflexivity.
Qed.

(** C5 (as the code has it).  The rows of the panel that fall in the date
    range, put in date order, are paired each with the return of the row
    that follows; the table keeps the pairs in which neither the sentiment
    nor that return is missing.  When no sentiment is missing and no return
    after the first row's is missing, the table is all the pairs: one row
    for each row but the last.  The table is what [main] writes.  For four
    dates with sentiments 0.1, 0.2, 0.3, 0.4 and returns 0.01, -0.02, 0.03,
    0.04 the table is (D1, 0.1, -0.02), (D2, 0.2, 0.03), (D3, 0.3, 0.04). *)
Theorem lead_lag_pairs
  (corr : list float -> list float -> float) (fmt4 : float -> string)
  (df : frame PanelFile.row) :
  Permutation (ranged (rows df)) (filter in_range (rows df))
  /\ StronglySorted (Pd.not_after PanelFile.DATE) (ranged (rows df))
  /\ LeadLag.lead_lag_table (ranged (rows df))
     = filter LeadLag.complete (Spec.pair_with_next (ranged (rows df)))
  /\ (Forall (fun r => notna (PanelFile.DAILY_SENTIMENT r) = true) (ranged (rows df)) ->
      Forall (fun r => notna (PanelFile.RETURN r) = true) (tl (ranged (rows df))) ->
      LeadLag.lead_lag_table (ranged (rows df)) = Spec.pair_with_next (ranged (rows df))
      /\ List.length (LeadLag.lead_lag_table (ranged (rows df)))
         = List.length (ranged (rows df)) - 1)
  /\ (has_column df "DATE" = true -> has_column df "RETURN" = true ->
      has_column df "DAILY_SENTIMENT" = true ->
      LeadLag.lead_lag_table (ranged (rows df)) <> [] ->
      written (fst (LeadLag.main corr fmt4 (Some df) start))
      = [(LeadLag.LEAD_LAG_CSV,
          DatedTable ["DATE"; "DAILY_SENTIMENT"; "RETURN_TOMORROW"]
                     (LeadLag.body_of (LeadLag.lead_lag_table (ranged (rows df)))));
         (LeadLag.LEAD_LAG_PLOT_PNG,
          Figure "Lead/Lag: Sentiment Today vs Return Tomorrow (AAPL.O)")])
  /\ LeadLag.lead_lag_table (ranged (rows Sample.four_days))
     = [LeadLag.mkRow (Some (mkDate 2025 9 15)) (Fin 0.1%Q) (Fin (-0.02)%Q);
        LeadLag.mkRow (Some (mkDate 2025 9 16)) (Fin 0.2%Q) (Fin 0.03%Q);
        LeadLag.mkRow (Some (mkDate 2025 9 17)) (Fin 0.3%Q) (Fin 0.04%Q)].
Proof.
  split; [apply sort_values_perm |].
  split; [apply sort_values_sorted |].
  split; [apply lead_lag_table_pairs |].
  split.
  { intros Hs Hr. rewrite lead_lag_table_pairs.
    rewrite (pairs_complete (ranged_dated (rows df)) Hs Hr).
    split; [reflexivity | apply pair_with_next_length]. }
  split; [apply lead_lag_written |].
  reflexivity.
Qed.

(** C5 as stated fails when a value is missing: of three dates in the range
    whose second return is missing, the table keeps the second only.  The
    first row is dropped with the last, because the return that follows it
    is missing. *)
Lemma lead_lag_drops_incomplete_rows :
  map PanelFile.DATE (ranged (rows Sample.gap_in_returns))
  = [Some (mkDate 2025 9 15); Some (mkDate 2025 9 16); Some (mkDate 2025 9 17)]
  /\ LeadLag.lead_lag_table (ranged (rows Sample.gap_in_returns))
     = [LeadLag.mkRow (Some (mkDate 2025 9 16)) (Fin 0.2%Q) (Fin 0.03%Q)]
  /\ Spec.pair_with_next (ranged (rows Sample.gap_in_returns))
     = [LeadLag.mkRow (Some (mkDate 2025 9 15)) (Fin 0.1%Q) NaN;
        LeadLag.mkRow (Some (mkDate 2025 9 16)) (Fin 0.2%Q) (Fin 0.03%Q)]
  /\ (LeadLag.lead_lag_table (ranged (rows Sample.gap_in_returns))
      = Spec.pair_with_next (ranged (rows Sample.gap_in_returns)) -> False).
Proof.
  split; [reflexivity |]. split; [reflexivity |]. split; [reflexivity |].
  intros H. discriminate H.
Qed.

(* ===================================================================== *)
(** * The three probabilities of a headline, in exact arithmetic          *)
(* ===================================================================== *)

Section ExactSum.
Import SentimentFinbert.
Local Open Scope Q_scope.

(** When the three class indices are the three positions of a row, the
    three probabilities read from the row add up to the sum of the row. *)
Lemma three_columns_sum (row : list Q) (i j k : nat) :
  List.length row = 3%nat -> NoDup [i; j; k] ->
  (i < 3)%nat -> (j < 3)%nat -> (k < 3)%nat ->
  nth i row 0 + nth j row 0 + nth k row 0 == Spec.Qsum row.
Proof.
  intros Hlen Hnd Hi Hj Hk.
  destruct row as [| a [| b [| c [| d row]]]]; try discriminate.
  assert (Hij : i <> j /\ i <> k /\ j <> k).
  { inversion Hnd as [| ? ? H1 H2]; subst. inversion H2 as [| ? ? H3 _]; subst.
    simpl in H1, H3. repeat split; intros ->; tauto. }
  unfold Spec.Qsum. simpl fold_left.
  destruct i as [| [| [| i]]]; destruct j as [| [| [| j]]];
    destruct k as [| [| [| k]]]; try lia; simpl; ring.
Qed.

(** If every row the classifier returns adds up to one, so do the three
    probabilities the scorer returns for each headline. *)
Lemma scored_probabilities_sum (model : finbert) (classify : string -> list Q)
  (texts : list string) (all_pos all_neg all_neu : list Q) (n : nat) (p q u : Q) :
  (forall batch, probs_of_batch model batch = map classify batch) ->
  (forall t, List.length (classify t) = 3%nat /\ Spec.Qsum (classify t) == 1) ->
  NoDup [pos_idx model; neg_idx model; neu_idx model] ->
  (pos_idx model < 3)%nat -> (neg_idx model < 3)%nat -> (neu_idx model < 3)%nat ->
  score_with_finbert texts model = inr (all_pos, all_neg, all_neu) ->
  nth_error all_pos n = Some p -> nth_error all_neg n = Some q ->
  nth_error all_neu n = Some u ->
  p + q + u == 1.
Proof.
  intros Hrow Hsum Hnd Hp Hq Hu Hs Hnp Hnq Hnu.
  rewrite (@score_with_finbert_aligned model classify Hrow) in Hs.
  injection Hs as <- <- <-.
  rewrite nth_error_map in Hnp, Hnq, Hnu.
  destruct (nth_error texts n) as [t |]; [| discriminate].
  injection Hnp as <-. injection Hnq as <-. injection Hnu as <-.
  destruct (Hsum t) as [Hlen H1]. rewrite <- H1.
  apply three_columns_sum; assumption.
Qed.




End ExactSum.



(* ===================================================================== *)
(** * The scorer: column choice, label table, batches                     *)
(* ===================================================================== *)

Section ColumnChoice.
Import SentimentFinbert.

Lemma find_first {A : Type} (p : A -> bool) (l : list A) (x : A) :
  find p l = Some x ->
  exists before after,
    l = before ++ x :: after /\ p x = true /\ forall y, In y before -> p y = false.
Proof.
  induction l as [| a l IH]; simpl; [discriminate |].
  destruct (p a) eqn:E.
  - intros [= ->]. exists [], l. split; [reflexivity |]. split; [exact E |].
    intros y [].
  - intros H. destruct (IH H) as (before & after & -> & Hx & Hb).
    exists (a :: before), after. split; [reflexivity |]. split; [exact Hx |].
    intros y [<- | Hy]; [exact E | exact (Hb y Hy)].
Qed.

End ColumnChoice.

(** X1.  When several of the accepted names are columns,
    [find_headline_column] returns the one that comes first in the list of
    candidates, wherever the columns stand in the file: the name returned
    is a column, and no candidate listed before it is a column. *)
Theorem headline_column_priority (cols : list string) (col : string) :
  SentimentFinbert.find_headline_column cols = inr col ->
  In col cols
  /\ exists before after,
       SentimentFinbert.HEADLINE_COL_CANDIDATES = before ++ col :: after
       /\ forall c, In c before -> ~ In c cols.
Proof.
  unfold SentimentFinbert.find_headline_column.
  destruct (find _ SentimentFinbert.HEADLINE_COL_CANDIDATES) as [c |] eqn:E;
    [| discriminate].
  intros [= ->]. apply find_first in E.
  destruct E as (before & after & Hsplit & Hcol & Hbefore).
  split; [apply existsb_eqb_In; exact Hcol |].
  exists before, after. split; [exact Hsplit |].
  intros c Hc Hin. apply existsb_eqb_In in Hin.
  rewrite (Hbefore c Hc) in Hin. discriminate.
Qed.

Lemma headline_column_priority_witness :
  SentimentFinbert.find_headline_column Cases.two_candidates = inr "HEADLINE"
  /\ In "HEADLINE" Cases.two_candidates.
Proof.
  destruct (@headline_column_priority Cases.two_candidates "HEADLINE") as [Hin _].
  - reflexivity.
  - split; [reflexivity | exact Hin].
Defined.

Section LabelTable.
Import LoadFinbert.

Lemma dict_get_set (d : list (string * nat)) (key key' : string) (value : nat) :
  dict_get (dict_set key value d) key'
  = if String.eqb key key' then Some value else dict_get d key'.
Proof.
  induction d as [| [k v] d IH]; simpl.
  - destruct (String.eqb key key'); reflexivity.
  - destruct (String.eqb_spec k key) as [-> | Hne]; simpl.
    + destruct (String.eqb key key'); reflexivity.
    + rewrite IH. destruct (String.eqb_spec k key') as [-> | Hne'].
      * destruct (String.eqb_spec key key') as [-> | _]; [congruence | reflexivity].
      * reflexivity.
Qed.

(** A name found in the dict was there before or comes from an item. *)
Lemma entered_get (items : list (nat * string)) (name : string) (k : nat) :
  forall d,
    dict_get (fold_left enter items d) name = Some k ->
    dict_get d name = Some k \/ exists v, In (k, v) items /\ lower v = name.
Proof.
  induction items as [| [k0 v0] items IH]; intros d H; simpl in H; [auto |].
  apply IH in H. destruct H as [H | (v & Hin & Hv)].
  - unfold enter in H. simpl in H. rewrite dict_get_set in H.
    destruct (String.eqb_spec (lower v0) name) as [E | _].
    + injection H as <-. right. exists v0. split; [left; reflexivity | exact E].
    + left. exact H.
  - right. exists v. split; [right; exact Hin | exact Hv].
Qed.

(** A name is missing from the dict exactly when it was missing before and
    no item brings it. *)
Lemma entered_none (items : list (nat * string)) (name : string) :
  forall d,
    dict_get (fold_left enter items d) name = None
    <-> dict_get d name = None
        /\ forall k v, In (k, v) items -> lower v <> name.
Proof.
  induction items as [| [k0 v0] items IH]; intros d; simpl.
  - split; [intros H; split; [exact H | intros k v []] | intros [H _]; exact H].
  - rewrite IH. unfold enter. simpl. rewrite dict_get_set.
    destruct (String.eqb_spec (lower v0) name) as [E | Hne].
    + split; [intros [H _]; discriminate |].
      intros [_ H]. exfalso. exact (H k0 v0 (or_introl eq_refl) E).
    + split.
      * intros [Hd Hrest]. split; [exact Hd |].
        intros k v [[= <- <-] | Hin]; [exact Hne | exact (Hrest k v Hin)].
      * intros [Hd Hall]. split; [exact Hd |].
        intros k v Hin. exact (Hall k v (or_intror Hin)).
Qed.

Lemma index_of_found (id2label : list (nat * string)) (name : string) (k : nat) :
  index_of (label2id id2label) name = inr k ->
  exists v, In (k, v) id2label /\ lower v = name.
Proof.
  unfold index_of, label2id.
  destruct (dict_get _ name) as [k' |] eqn:E; [| discriminate].
  intros [= <-]. apply entered_get in E. destruct E as [E | E]; [discriminate | exact E].
Qed.

Lemma index_of_missing (id2label : list (nat * string)) (name : string) (e : exn) :
  index_of (label2id id2label) name = inl e ->
  e = KeyError name /\ forall k v, In (k, v) id2label -> lower v <> name.
Proof.
  unfold index_of, label2id.
  destruct (dict_get _ name) as [k' |] eqn:E; [discriminate |].
  intros [= <-]. split; [reflexivity |]. apply entered_none in E. apply E.
Qed.

(** In a table whose ids are distinct, one id has one label. *)
Lemma one_label (id2label : list (nat * string)) (k : nat) (v v' : string) :
  NoDup (map fst id2label) -> In (k, v) id2label -> In (k, v') id2label -> v = v'.
Proof.
  induction id2label as [| [k0 v0] items IH]; simpl; [tauto |].
  intros Hnd. inversion Hnd as [| ? ? Hnot Hrest]; subst.
  intros [[= -> ->] | H1] [[= E] | H2].
  - exact E.
  - exfalso. apply Hnot. apply in_map_iff. exists (k, v'). auto.
  - exfalso. apply Hnot. apply in_map_iff. exists (k, v). subst. auto.
  - exact (IH Hrest H1 H2).
Qed.

End LabelTable.

(** X2.  [load_finbert] resolves the three class indices from the label
    table whatever the case of the labels and whatever their order: each
    index it returns is an id whose label is, in lower case, the name asked
    for, and for a table with distinct ids the three indices are distinct.
    It raises a [KeyError] naming a class only if no label of the table is
    that class's name. *)
Theorem load_finbert_indices
  (probs : list string -> list (list Q)) (id2label : list (nat * string)) :
  NoDup (map fst id2label) ->
  (forall m, LoadFinbert.load_finbert probs id2label = inr m ->
     SentimentFinbert.probs_of_batch m = probs
     /\ (exists v, In (SentimentFinbert.pos_idx m, v) id2label
                   /\ LoadFinbert.lower v = "positive")
     /\ (exists v, In (SentimentFinbert.neg_idx m, v) id2label
                   /\ LoadFinbert.lower v = "negative")
     /\ (exists v, In (SentimentFinbert.neu_idx m, v) id2label
                   /\ LoadFinbert.lower v = "neutral")
     /\ NoDup [SentimentFinbert.pos_idx m; SentimentFinbert.neg_idx m;
               SentimentFinbert.neu_idx m])
  /\ (forall e, LoadFinbert.load_finbert probs id2label = inl e ->
        exists name,
          e = KeyError name /\ In name ["positive"; "negative"; "neutral"]
          /\ forall k v, In (k, v) id2label -> LoadFinbert.lower v <> name).
Proof.
  intros Hnd. unfold LoadFinbert.load_finbert, rbind. split.
  - intros m.
    destruct (LoadFinbert.index_of _ "positive") as [e | p] eqn:Ep; [discriminate |].
    destruct (LoadFinbert.index_of _ "negative") as [e | n] eqn:En; [discriminate |].
    destruct (LoadFinbert.index_of _ "neutral") as [e | u] eqn:Eu; [discriminate |].
    intros [= <-]. simpl.
    apply index_of_found in Ep, En, Eu.
    destruct Ep as (vp & Hp & Lp), En as (vn & Hn & Ln), Eu as (vu & Hu & Lu).
    split; [reflexivity |].
    split; [exists vp; auto |]. split; [exists vn; auto |]. split; [exists vu; auto |].
    assert (Hpn : p <> n).
    { intros ->. rewrite (@one_label id2label _ _ _ Hnd Hp Hn) in Lp. congruence. }
    assert (Hpu : p <> u).
    { intros ->. rewrite (@one_label id2label _ _ _ Hnd Hp Hu) in Lp. congruence. }
    assert (Hnu : n <> u).
    { intros ->. rewrite (@one_label id2label _ _ _ Hnd Hn Hu) in Ln. congruence. }
    constructor; [simpl; intuition congruence |].
    constructor; [simpl; intuition congruence |].
    constructor; [simpl; tauto | constructor].
  - intros e.
    destruct (LoadFinbert.index_of _ "positive") as [e1 | p] eqn:Ep.
    { intros [= <-]. apply index_of_missing in Ep. destruct Ep as [-> H].
      exists "positive". simpl. repeat split; auto. }
    destruct (LoadFinbert.index_of _ "negative") as [e2 | n] eqn:En.
    { intros [= <-]. apply index_of_missing in En. destruct En as [-> H].
      exists "negative". simpl. repeat split; auto. }
    destruct (LoadFinbert.index_of _ "neutral") as [e3 | u] eqn:Eu; [| discriminate].
    intros [= <-]. apply index_of_missing in Eu. destruct Eu as [-> H].
    exists "neutral". simpl. repeat split; auto.
Qed.

Lemma load_finbert_indices_witness :
  exists m,
    LoadFinbert.load_finbert (map Sample.by_length) Cases.finbert_labels = inr m
    /\ NoDup [SentimentFinbert.pos_idx m; SentimentFinbert.neg_idx m;
              SentimentFinbert.neu_idx m].
Proof.
  destruct (@load_finbert_indices (map Sample.by_length) Cases.finbert_labels)
    as [Hok _].
  - unfold Cases.finbert_labels. simpl.
    constructor; [simpl; intuition discriminate |].
    constructor; [simpl; intuition discriminate |].
    constructor; [simpl; tauto | constructor].
  - eexists. split; [reflexivity |].
    apply (Hok _ eq_refl).
Defined.

Section BatchSizes.
Import SentimentFinbert.

Lemma concat_length_bound {A : Type} (size : nat) (batches : list (list A)) :
  (forall b, In b batches -> List.length b <= size) ->
  List.length (List.concat batches) <= List.length batches * size.
Proof.
  induction batches as [| b batches IH]; intros H; simpl; [lia |].
  rewrite length_app.
  assert (List.length b <= size) by (apply H; left; reflexivity).
  assert (List.length (List.concat batches) <= List.length batches * size)
    by (apply IH; intros b' Hb'; apply H; right; exact Hb').
  lia.
Qed.

End BatchSizes.

(** X3.  For a positive batch size, the [k]-th batch of [chunked] starts
    inside the input and holds [min size (n - k * size)] elements, so every
    batch but the last is full; the batches are enough to hold the input,
    [n <= batches * size]; and an empty input gives no batch. *)
Theorem batch_sizes (A : Type) (texts : list A) (size : nat)
  (batches : list (list A)) :
  0 < size ->
  SentimentFinbert.chunked texts size = inr batches ->
  (forall k b, nth_error batches k = Some b ->
     k * size < List.length texts
     /\ List.length b = Nat.min size (List.length texts - k * size))
  /\ List.length texts <= List.length batches * size
  /\ (texts = [] -> batches = []).
Proof.
  intros Hsize Hb.
  assert (Hk : forall k b, nth_error batches k = Some b ->
            k * size < List.length texts
            /\ List.length b = Nat.min size (List.length texts - k * size)).
  { intros k b Hn.
    destruct (@chunked_nth A texts size Hsize batches k b Hb Hn) as (-> & Hlt & _).
    split; [exact Hlt |]. rewrite length_firstn, length_skipn. reflexivity. }
  split; [exact Hk |]. split.
  - destruct (@chunked_concat A texts size Hsize) as (batches' & Hb' & Hc).
    rewrite Hb in Hb'. injection Hb' as <-.
    rewrite <- Hc at 1. apply concat_length_bound.
    intros b Hin. apply In_nth_error in Hin. destruct Hin as [k Hn].
    destruct (Hk k b Hn) as [_ ->]. lia.
  - intros ->. destruct batches as [| b batches]; [reflexivity |].
    destruct (Hk 0 b eq_refl) as [Hlt _]. simpl in Hlt. lia.
Qed.

Lemma batch_sizes_witness :
  SentimentFinbert.chunked ["a"; "b"; "c"; "d"; "e"] 2
  = inr [["a"; "b"]; ["c"; "d"]; ["e"]]
  /\ 5 <= 3 * 2.
Proof.
  destruct (@batch_sizes string ["a"; "b"; "c"; "d"; "e"] 2
              [["a"; "b"]; ["c"; "d"]; ["e"]]) as (_ & Hn & _).
  - lia.
  - reflexivity.
  - split; [reflexivity | exact Hn].
Defined.

(* ===================================================================== *)
(** * The scorer: dates, rows and header of the scored file               *)
(* ===================================================================== *)

Section ScoredFile.
Import SentimentFinbert.
Variable parse : string -> option date.

(** The row has a timestamp that parses. *)
Let valid (r : raw_row) : bool :=
  match Pd.on_text parse (cell r "TIMESTAMP") with
  | Some _ => true
  | None => false
  end.

(** The rows [add_date_from_timestamp] keeps, each with its [DATE] text. *)
Let kept (l : list raw_row) : list (raw_row * string) :=
  flat_map (fun p : raw_row * option date =>
              match snd p with
              | Some d => [(fst p, Pd.strftime_dmY d)]
              | None => []
              end)
           (map (fun r => (r, Pd.on_text parse (cell r "TIMESTAMP"))) l).

Lemma kept_rows (l : list raw_row) : map fst (kept l) = filter valid l.
Proof.
  unfold kept, valid. induction l as [| r l IH]; [reflexivity |].
  cbn [map flat_map filter snd fst].
  destruct (Pd.on_text parse (cell r "TIMESTAMP")); simpl; rewrite IH; reflexivity.
Qed.

Lemma kept_dates (l : list raw_row) (r : raw_row) (text : string) :
  In (r, text) (kept l) ->
  In r l
  /\ exists d, Pd.on_text parse (cell r "TIMESTAMP") = Some d
               /\ text = Pd.strftime_dmY d.
Proof.
  unfold kept. rewrite in_flat_map. intros ([r' c] & Hin & H).
  apply in_map_iff in Hin. destruct Hin as (r0 & [= -> <-] & Hr0).
  simpl in H. destruct (Pd.on_text parse (cell r' "TIMESTAMP")) as [d |] eqn:E;
    [| contradiction].
  destruct H as [[= <- <-] | []]. split; [exact Hr0 |]. exists d. auto.
Qed.

Lemma bad_count (l : list raw_row) :
  List.length
    (filter (fun p : raw_row * option date =>
               match snd p with None => true | Some _ => false end)
            (map (fun r => (r, Pd.on_text parse (cell r "TIMESTAMP"))) l))
  = List.length (filter (fun r => negb (valid r)) l).
Proof.
  unfold valid. induction l as [| r l IH]; [reflexivity |].
  cbn [map filter snd].
  destruct (Pd.on_text parse (cell r "TIMESTAMP")); simpl; rewrite IH; reflexivity.
Qed.

Lemma filter_split_length {A : Type} (p : A -> bool) (l : list A) :
  List.length (filter p l) + List.length (filter (fun x => negb (p x)) l)
  = List.length l.
Proof.
  induction l as [| x l IH]; [reflexivity |].
  simpl. destruct (p x); simpl; lia.
Qed.

End ScoredFile.

(** X4.  [add_date_from_timestamp] raises its [KeyError], printing
    nothing, when the table has no [TIMESTAMP] column.  Otherwise it keeps,
    in order, exactly the rows whose timestamp parses, gives each the text
    [dd/mm/yyyy] of its own date, writes no file, and prints the line that
    counts the dropped rows exactly when some row was dropped. *)
Theorem add_date_outcome
  (parse : string -> option date) (df : frame SentimentFinbert.raw_row)
  (w : world SentimentFinbert.F) :
  (has_column df "TIMESTAMP" = false ->
   SentimentFinbert.add_date_from_timestamp parse df w
   = (w, inl SentimentFinbert.timestamp_error))
  /\ (has_column df "TIMESTAMP" = true ->
      exists out,
        snd (SentimentFinbert.add_date_from_timestamp parse df w) = inr out
        /\ written (fst (SentimentFinbert.add_date_from_timestamp parse df w))
           = written w
        /\ map fst (rows out)
           = filter (fun r => match Pd.on_text parse (SentimentFinbert.cell r "TIMESTAMP")
                              with Some _ => true | None => false end)
                    (rows df)
        /\ (forall r text, In (r, text) (rows out) ->
              exists d,
                Pd.on_text parse (SentimentFinbert.cell r "TIMESTAMP") = Some d
                /\ text = Pd.strftime_dmY d)
        /\ (List.length (rows out) = List.length (rows df) ->
            stdout (fst (SentimentFinbert.add_date_from_timestamp parse df w))
            = stdout w ++ ["Parsing TIMESTAMP -> DATE ..."])
        /\ (List.length (rows out) < List.length (rows df) ->
            stdout (fst (SentimentFinbert.add_date_from_timestamp parse df w))
            = stdout w
              ++ ["Parsing TIMESTAMP -> DATE ...";
                  ("Dropping "
                   ++ show_nat (List.length (rows df) - List.length (rows out))
                   ++ " rows with invalid TIMESTAMP.")%string])).
Proof.
  split.
  - intros H. unfold SentimentFinbert.add_date_from_timestamp. rewrite H. reflexivity.
  - intros H.
    cbv beta iota zeta delta [SentimentFinbert.add_date_from_timestamp bind print
      raise ret].
    rewrite H. cbn [negb]. cbv iota.
    rewrite (bad_count parse (rows df)).
    pose proof (filter_split_length
                  (fun r => match Pd.on_text parse (SentimentFinbert.cell r "TIMESTAMP")
                            with Some _ => true | None => false end) (rows df)) as Hlen.
    pose proof (kept_rows parse (rows df)) as Hk.
    assert (Hkl : List.length
                    (flat_map (fun p : SentimentFinbert.raw_row * option date =>
                                 match snd p with
                                 | Some d => [(fst p, Pd.strftime_dmY d)]
                                 | None => []
                                 end)
                              (map (fun r => (r, Pd.on_text parse
                                                   (SentimentFinbert.cell r "TIMESTAMP")))
                                   (rows df)))
                  = List.length (filter (fun r => match Pd.on_text parse
                                                          (SentimentFinbert.cell r "TIMESTAMP")
                                                  with Some _ => true | None => false end)
                                        (rows df))).
    { rewrite <- Hk. symmetry. apply length_map. }
    cbv beta in Hlen.
    destruct (Nat.ltb_spec 0 (List.length
               (filter (fun r => negb match Pd.on_text parse
                                              (SentimentFinbert.cell r "TIMESTAMP")
                                      with Some _ => true | None => false end)
                       (rows df)))) as [Hbad | Hbad];
      cbn [fst snd written stdout];
      eexists; (split; [reflexivity |]); (split; [reflexivity |]);
      (split; [exact Hk |]);
      (split; [intros r text Hin; apply (kept_dates parse _ _ _ Hin) |]);
      cbn [rows stdout fst]; rewrite Hkl.
    + split; [intros E; exfalso; lia |].
      intros _.
      match goal with
      | |- context [show_nat ?b] =>
          match goal with
          | |- context [show_nat (?n - ?g)] => replace (n - g) with b by lia
          end
      end.
      rewrite <- app_assoc. reflexivity.
    + split; [reflexivity | intros E; exfalso; lia].
Qed.

Section ScoredRows.
Import SentimentFinbert.
Variable parse : string -> option date.
Variable model : finbert.
Variable classify : string -> list Q.
Hypothesis rowwise : forall batch, probs_of_batch model batch = map classify batch.

Let has_headline (col : string) (r : raw_row) : bool :=
  match cell r col with Some _ => true | None => false end.

Let valid (r : raw_row) : bool :=
  match Pd.on_text parse (cell r "TIMESTAMP") with
  | Some _ => true
  | None => false
  end.

(** The scored row of a dated row under a row-wise classifier. *)
Let scored_of (col : string) (rd : raw_row * string) : scored_row :=
  let text := astype_str col (fst rd) in
  let p := prob_at classify (pos_idx model) text in
  let n := prob_at classify (neg_idx model) text in
  mkScored (fst rd) (snd rd) p n (prob_at classify (neu_idx model) text)
           (score p n) (label (score p n)).

Lemma add_sentiment_aligned (col : string) (dated : list (raw_row * string)) :
  add_sentiment dated
    (map (prob_at classify (pos_idx model)) (map (fun rd => astype_str col (fst rd)) dated))
    (map (prob_at classify (neg_idx model)) (map (fun rd => astype_str col (fst rd)) dated))
    (map (prob_at classify (neu_idx model)) (map (fun rd => astype_str col (fst rd)) dated))
  = inr (map (scored_of col) dated).
Proof.
  unfold add_sentiment. rewrite !length_map, Nat.eqb_refl. cbn [negb].
  f_equal. induction dated as [| rd dated IH]; [reflexivity |].
  cbn [map zip3 Pd.zip_with]. rewrite IH. reflexivity.
Qed.

(** The file a successful run writes. *)
Lemma main_scores (df : frame raw_row) (col : string) :
  find_headline_column (columns df) = inr col ->
  has_column df "TIMESTAMP" = true ->
  rows (dropna_subset col df) <> [] ->
  exists dated header,
    snd (main parse model (Some df) start) = inr tt
    /\ written (fst (main parse model (Some df) start))
       = [(OUTPUT_CSV, mkFrame header (map (scored_of col) dated))]
    /\ map fst dated = filter valid (filter (has_headline col) (rows df))
    /\ (forall r text, In (r, text) dated ->
          In r (filter (has_headline col) (rows df))
          /\ exists d, Pd.on_text parse (cell r "TIMESTAMP") = Some d
                       /\ text = Pd.strftime_dmY d).
Proof.
  intros Hcol Hts Hrows.
  assert (Hempty : empty (dropna_subset col df) = false).
  { unfold empty. destruct (rows (dropna_subset col df)); [congruence |].
    destruct (find_headline_column_cases (columns df))
      as [(c & _ & _ & Hin) | [E _]]; [| congruence].
    simpl. destruct (columns df); [contradiction | reflexivity]. }
  cbv beta iota zeta delta [main add_date_from_timestamp bind print lift
    to_csv raise ret start].
  rewrite Hcol, Hempty.
  change (has_column (dropna_subset col df) "TIMESTAMP") with (has_column df "TIMESTAMP").
  rewrite Hts. cbn [negb]. cbv iota.
  destruct (0 <? _)%nat; cbn [rows columns fst snd written stdout];
    rewrite (@score_with_finbert_aligned model classify rowwise);
    rewrite add_sentiment_aligned; cbn [fst snd written stdout app];
    eexists _, _; (split; [reflexivity |]); (split; [reflexivity |]);
    (split; [apply (kept_rows parse) |]);
    intros r text Hin; apply (kept_dates parse _ _ _ Hin).
Qed.

End ScoredRows.

(** X5.  With a classifier that works row by row, a news file that has a
    headline column, a [TIMESTAMP] column and at least one headline is
    scored without error into one file.  Its rows are, in order, the input
    rows that have a headline and a timestamp that parses, and every row
    carries the probabilities of its own headline, the text [dd/mm/yyyy] of
    its own date, and the score and label of its own probabilities. *)
Theorem scored_rows_are_aligned
  (parse : string -> option date) (model : SentimentFinbert.finbert)
  (classify : string -> list Q) (df : frame SentimentFinbert.raw_row)
  (col : string) :
  (forall batch, SentimentFinbert.probs_of_batch model batch = map classify batch) ->
  SentimentFinbert.find_headline_column (columns df) = inr col ->
  has_column df "TIMESTAMP" = true ->
  rows (SentimentFinbert.dropna_subset col df) <> [] ->
  exists out,
    snd (SentimentFinbert.main parse model (Some df) start) = inr tt
    /\ written (fst (SentimentFinbert.main parse model (Some df) start))
       = [(SentimentFinbert.OUTPUT_CSV, out)]
    /\ map SentimentFinbert.raw (rows out)
       = filter (fun r => match Pd.on_text parse (SentimentFinbert.cell r "TIMESTAMP")
                          with Some _ => true | None => false end)
                (filter (fun r => match SentimentFinbert.cell r col
                                  with Some _ => true | None => false end)
                        (rows df))
    /\ forall r, In r (rows out) ->
         exists text d,
           SentimentFinbert.cell (SentimentFinbert.raw r) col = Some text
           /\ Pd.on_text parse (SentimentFinbert.cell (SentimentFinbert.raw r) "TIMESTAMP")
              = Some d
           /\ SentimentFinbert.DATE r = Pd.strftime_dmY d
           /\ SentimentFinbert.FINBERT_POS r
              = nth (SentimentFinbert.pos_idx model) (classify text) 0%Q
           /\ SentimentFinbert.FINBERT_NEG r
              = nth (SentimentFinbert.neg_idx model) (classify text) 0%Q
           /\ SentimentFinbert.FINBERT_NEU r
              = nth (SentimentFinbert.neu_idx model) (classify text) 0%Q
           /\ SentimentFinbert.FINBERT_SCORE r
              = SentimentFinbert.score (SentimentFinbert.FINBERT_POS r)
                                       (SentimentFinbert.FINBERT_NEG r)
           /\ SentimentFinbert.FINBERT_LABEL r
              = SentimentFinbert.label (SentimentFinbert.FINBERT_SCORE r).
Proof.
  intros Hrow Hcol Hts Hrows.
  destruct (@main_scores parse model classify Hrow df col Hcol Hts Hrows)
    as (dated & header & Hret & Hw & Hraw & Hdated).
  eexists. split; [exact Hret |]. split; [exact Hw |].
  cbn [rows]. split.
  - rewrite map_map. cbn [SentimentFinbert.raw]. exact Hraw.
  - intros r Hr. apply in_map_iff in Hr. destruct Hr as ([raw text] & <- & Hin).
    destruct (Hdated raw text Hin) as (Hhead & d & Hd & ->).
    apply filter_In in Hhead. destruct Hhead as [_ Hhead].
    cbn [SentimentFinbert.raw SentimentFinbert.DATE SentimentFinbert.FINBERT_POS
         SentimentFinbert.FINBERT_NEG SentimentFinbert.FINBERT_NEU
         SentimentFinbert.FINBERT_SCORE SentimentFinbert.FINBERT_LABEL fst snd].
    unfold SentimentFinbert.astype_str, SentimentFinbert.prob_at.
    destruct (SentimentFinbert.cell raw col) as [t |] eqn:Et; [| discriminate].
    exists t, d. repeat split; auto.
Qed.

Lemma scored_rows_are_aligned_witness :
  snd (SentimentFinbert.main Sample.iso_date Sample.length_model
         (Some Cases.mixed_news) start) = inr tt
  /\ written (fst (SentimentFinbert.main Sample.iso_date Sample.length_model
                     (Some Cases.mixed_news) start))
     = [(SentimentFinbert.OUTPUT_CSV, Cases.mixed_scored)].
Proof.
  destruct (@scored_rows_are_aligned Sample.iso_date Sample.length_model
              Sample.by_length Cases.mixed_news "HEADLINE")
    as (out & Hret & Hw & _).
  - intros batch. reflexivity.
  - reflexivity.
  - reflexivity.
  - discriminate.
  - split; [exact Hret | reflexivity].
Defined.

Section TimestampColumn.
Import SentimentFinbert.
Variable parse : string -> option date.
Variable model : finbert.

Lemma main_timestamp_missing (df : frame raw_row) (col : string) :
  find_headline_column (columns df) = inr col ->
  rows (dropna_subset col df) <> [] ->
  has_column df "TIMESTAMP" = false ->
  main parse model (Some df) start
  = (mkWorld [("Reading news from: " ++ INPUT_CSV)%string;
              ("Using '" ++ col ++ "' as headline text column.")%string] [],
     inl timestamp_error).
Proof.
  intros Hcol Hrows Hts.
  assert (Hempty : empty (dropna_subset col df) = false).
  { unfold empty. destruct (rows (dropna_subset col df)); [congruence |].
    destruct (find_headline_column_cases (columns df))
      as [(c & _ & _ & Hin) | [E _]]; [| congruence].
    simpl. destruct (columns df); [contradiction | reflexivity]. }
  cbv beta iota zeta delta [main add_date_from_timestamp bind print lift
    to_csv raise ret start].
  rewrite Hcol, Hempty.
  change (has_column (dropna_subset col df) "TIMESTAMP") with (has_column df "TIMESTAMP").
  rewrite Hts. reflexivity.
Qed.

Lemma main_timestamp_error_only (df : frame raw_row) :
  raised (main parse model (Some df) start) timestamp_error ->
  exists col,
    find_headline_column (columns df) = inr col
    /\ rows (dropna_subset col df) <> []
    /\ has_column df "TIMESTAMP" = false.
Proof.
  cbv beta iota zeta delta [main add_date_from_timestamp bind print lift
    to_csv raise ret start raised].
  destruct (find_headline_column_cases (columns df)) as [(col & E & _) | [E _]];
    rewrite E; [| intros H; discriminate H].
  destruct (empty (dropna_subset col df)) eqn:Hempty; [intros H; discriminate H |].
  change (has_column (dropna_subset col df) "TIMESTAMP") with (has_column df "TIMESTAMP").
  destruct (has_column df "TIMESTAMP") eqn:Hts; cbn [negb]; cbv iota.
  - destruct (0 <? _)%nat;
    (match goal with |- context [score_with_finbert ?t model] =>
       destruct (score_with_finbert_returns model t) as [[[pos neg] neu] ->] end);
    unfold add_sentiment; repeat (destruct (negb _); [intros H; discriminate H |]);
    intros H; discriminate H.
  - intros _. exists col. split; [reflexivity |]. split; [| reflexivity].
    intros Hr. unfold empty in Hempty. rewrite Hr in Hempty. discriminate.
Qed.

End TimestampColumn.

(** X6.  The scorer's run is ended by the [KeyError] about the missing
    [TIMESTAMP] column exactly when the file has a headline column and at
    least one headline but no [TIMESTAMP] column; the run has then printed
    two lines and written nothing.  A file without any headline returns
    before the column is looked for. *)
Theorem timestamp_column_is_required
  (parse : string -> option date) (model : SentimentFinbert.finbert)
  (df : frame SentimentFinbert.raw_row) :
  (raised (SentimentFinbert.main parse model (Some df) start)
          SentimentFinbert.timestamp_error
   <-> exists col,
         SentimentFinbert.find_headline_column (columns df) = inr col
         /\ rows (SentimentFinbert.dropna_subset col df) <> []
         /\ has_column df "TIMESTAMP" = false)
  /\ (raised (SentimentFinbert.main parse model (Some df) start)
             SentimentFinbert.timestamp_error ->
      written (fst (SentimentFinbert.main parse model (Some df) start)) = []
      /\ List.length (stdout (fst (SentimentFinbert.main parse model (Some df) start)))
         = 2).
Proof.
  assert (Hif : (exists col,
            SentimentFinbert.find_headline_column (columns df) = inr col
            /\ rows (SentimentFinbert.dropna_subset col df) <> []
            /\ has_column df "TIMESTAMP" = false) ->
          exists col, SentimentFinbert.main parse model (Some df) start
            = (mkWorld [("Reading news from: " ++ SentimentFinbert.INPUT_CSV)%string;
                        ("Using '" ++ col ++ "' as headline text column.")%string] [],
               inl SentimentFinbert.timestamp_error)).
  { intros (col & Hcol & Hrows & Hts). exists col.
    apply main_timestamp_missing; assumption. }
  split.
  - split; [apply main_timestamp_error_only |].
    intros H. destruct (Hif H) as [col ->]. reflexivity.
  - intros Hr. apply main_timestamp_error_only in Hr.
    destruct (Hif Hr) as [col ->]. split; reflexivity.
Qed.

(* ===================================================================== *)
(** * The header of the scored file                                       *)
(* ===================================================================== *)

Section ScoredHeader.
Import SentimentFinbert.
Import Scorer.

Lemma existsb_app_other (n m : string) (cols : list string) :
  n <> m -> existsb (String.eqb n) (cols ++ [m]) = existsb (String.eqb n) cols.
Proof.
  intros Hne. rewrite existsb_app. simpl.
  destruct (String.eqb_spec n m); [congruence |].
  rewrite !orb_false_r. reflexivity.
Qed.

(** Setting new columns one after the other appends those that are not in
    the header yet. *)
Lemma set_columns_app (names : list string) :
  NoDup names ->
  forall cols,
    fold_left (fun acc name => set_column name acc) names cols
    = cols ++ filter (fun n => negb (existsb (String.eqb n) cols)) names.
Proof.
  induction 1 as [| n names Hnot Hnd IH]; intros cols; simpl.
  - rewrite app_nil_r. reflexivity.
  - rewrite IH. unfold set_column.
    destruct (existsb (String.eqb n) cols) eqn:E; cbn [negb]; [reflexivity |].
    rewrite <- app_assoc. cbn [app]. f_equal. f_equal.
    apply filter_ext_in. intros m Hm.
    rewrite existsb_app_other; [reflexivity |]. intros ->. exact (Hnot Hm).
Qed.

Lemma added_columns_NoDup : NoDup Scorer.added_columns.
Proof.
  unfold Scorer.added_columns.
  repeat (apply NoDup_cons; [simpl; intuition discriminate |]).
  apply NoDup_nil.
Qed.

Lemma scored_header (cols : list string) :
  sentiment_columns (set_column "DATE" (set_column "TIMESTAMP_PARSED" cols))
  = cols ++ filter (fun n => negb (existsb (String.eqb n) cols)) Scorer.added_columns.
Proof.
  rewrite <- (set_columns_app added_columns_NoDup cols). reflexivity.
Qed.

(** The header of the file [main] writes, from the header of its input. *)
Lemma main_written_header parse model input path (out : frame scored_row) :
  In (path, out) (written (fst (main parse model input start))) ->
  exists df, input = Some df
    /\ columns out
       = sentiment_columns (set_column "DATE" (set_column "TIMESTAMP_PARSED" (columns df))).
Proof.
  destruct input as [df |]; [| simpl; tauto].
  cbv beta iota zeta delta [main add_date_from_timestamp bind print lift
    to_csv raise ret start fst snd written stdout].
  destruct (find_headline_column (columns df)) as [e | col]; [simpl; tauto |].
  destruct (empty _); [simpl; tauto |].
  destruct (negb _); [simpl; tauto |].
  destruct (0 <? _)%nat;
  (destruct (score_with_finbert _ model) as [e | [[pos neg] neu]]; [simpl; tauto |]);
  (match goal with |- context [add_sentiment ?d ?p ?n ?u] =>
     destruct (add_sentiment d p n u) as [e | scored] eqn:E end; [simpl; tauto |]);
  simpl; (intros [[= <- <-] | []]); exists df; (split; reflexivity).
Qed.

Lemma filter_NoDup_disjoint (cols names : list string) :
  NoDup cols -> NoDup names ->
  NoDup (cols ++ filter (fun n => negb (existsb (String.eqb n) cols)) names).
Proof.
  intros Hc Hn. apply NoDup_app; [exact Hc | apply NoDup_filter; exact Hn |].
  intros x Hx Hf. apply filter_In in Hf. destruct Hf as [_ Hf].
  apply negb_true_iff in Hf.
  assert (Ht : existsb (String.eqb x) cols = true).
  { apply existsb_exists. exists x. split; [exact Hx | apply String.eqb_refl]. }
  congruence.
Qed.

Lemma added_or_present (cols : list string) (n : string) :
  In n Scorer.added_columns ->
  In n (cols ++ filter (fun n => negb (existsb (String.eqb n) cols)) Scorer.added_columns).
Proof.
  intros Hn. apply in_or_app.
  destruct (existsb (String.eqb n) cols) eqn:E.
  - left. apply existsb_exists in E. destruct E as (x & Hx & Heq).
    apply String.eqb_eq in Heq. subst x. exact Hx.
  - right. apply filter_In. split; [exact Hn |]. rewrite E. reflexivity.
Qed.

End ScoredHeader.

(** X7.  The header of the scored file is the header of the news file
    followed by those of [TIMESTAMP_PARSED], [DATE], [FINBERT_POS],
    [FINBERT_NEG], [FINBERT_NEU], [FINBERT_SCORE] and [FINBERT_LABEL] that the
    news file does not already have, in this order: the input's columns keep
    their places, a column of the input with one of the seven names is
    overwritten where it stands, and no name is repeated unless the input
    repeats it. *)
Theorem scored_file_header
  (parse : string -> option date) (model : SentimentFinbert.finbert)
  (df : frame SentimentFinbert.raw_row) (path : string)
  (out : frame SentimentFinbert.scored_row) :
  In (path, out) (written (fst (SentimentFinbert.main parse model (Some df) start))) ->
  columns out
  = columns df ++ filter (fun n => negb (has_column df n)) Scorer.added_columns
  /\ (forall n, In n Scorer.added_columns -> has_column out n = true)
  /\ (NoDup (columns df) -> NoDup (columns out)).
Proof.
  intros Hw.
  destruct (main_written_header _ _ _ _ _ Hw) as (df' & [= <-] & Hcols).
  rewrite scored_header in Hcols.
  split; [exact Hcols |]. split.
  - intros n Hn. unfold has_column. rewrite Hcols.
    apply existsb_exists. exists n. split; [| apply String.eqb_refl].
    apply added_or_present. exact Hn.
  - intros Hnd. rewrite Hcols.
    apply filter_NoDup_disjoint; [exact Hnd | exact added_columns_NoDup].
Qed.

Lemma scored_file_header_witness :
  columns Cases.mixed_scored
  = ["TIMESTAMP"; "DATE"; "HEADLINE"; "STORY_ID"; "TIMESTAMP_PARSED";
     "FINBERT_POS"; "FINBERT_NEG"; "FINBERT_NEU"; "FINBERT_SCORE"; "FINBERT_LABEL"].
Proof.
  destruct (@scored_file_header Sample.iso_date Sample.length_model Cases.mixed_news
              SentimentFinbert.OUTPUT_CSV Cases.mixed_scored) as (H & _).
  - left. reflexivity.
  - rewrite H. reflexivity.
Defined.

(** X8.  The panel builder accepts every scored file: whatever rows are
    read back under the header of a file the scorer wrote, [load_news]
    finds [DATE] and the five sentiment columns and returns the daily
    aggregate instead of raising a [KeyError]. *)
Theorem panel_accepts_scored_file
  (parse : string -> option date) (model : SentimentFinbert.finbert)
  (input : option (frame SentimentFinbert.raw_row)) (path : string)
  (out : frame SentimentFinbert.scored_row)
  (news : list BuildPanel.News.row) :
  In (path, out) (written (fst (SentimentFinbert.main parse model input start))) ->
  BuildPanel.load_news (mkFrame (columns out) news)
  = inr (BuildPanel.daily_of (BuildPanel.dated (mkFrame (columns out) news))).
Proof.
  intros Hw.
  destruct (main_written_header _ _ _ _ _ Hw) as (df & _ & Hcols).
  rewrite scored_header in Hcols.
  assert (Hhas : forall n, In n Scorer.added_columns ->
            has_column (mkFrame (columns out) news) n = true).
  { intros n Hn. unfold has_column. cbn [columns]. rewrite Hcols.
    apply existsb_exists. exists n. split; [| apply String.eqb_refl].
    apply added_or_present. exact Hn. }
  unfold BuildPanel.load_news, BuildPanel.missing_columns, BuildPanel.sentiment_cols.
  cbn [filter].
  rewrite !Hhas by (unfold Scorer.added_columns; simpl; tauto).
  reflexivity.
Qed.

Lemma panel_accepts_scored_file_witness :
  BuildPanel.load_news (mkFrame (columns Cases.mixed_scored) (rows Sample.three_headlines))
  = inr (BuildPanel.daily_of
           (BuildPanel.dated (mkFrame (columns Cases.mixed_scored) (rows Sample.three_headlines)))).
Proof.
  apply (@panel_accepts_scored_file Sample.iso_date Sample.length_model
           (Some Cases.mixed_news) SentimentFinbert.OUTPUT_CSV Cases.mixed_scored).
  left. reflexivity.
Defined.

(* ===================================================================== *)
(** * The daily aggregate: order and counts                               *)
(* ===================================================================== *)

Section DailyCounts.
Import BuildPanel.

Lemma list_sum_add {A : Type} (a b : A -> nat) (l : list A) :
  list_sum (map (fun x => a x + b x) l) = list_sum (map a l) + list_sum (map b l).
Proof. induction l as [| x l IH]; simpl; [reflexivity | rewrite IH; lia]. Qed.

Lemma list_sum_zero {A : Type} (a : A -> nat) (l : list A) :
  (forall x, In x l -> a x = 0) -> list_sum (map a l) = 0.
Proof.
  induction l as [| x l IH]; intros H; simpl; [reflexivity |].
  rewrite (H x), IH; [reflexivity | | left; reflexivity].
  intros y Hy. apply H. right. exact Hy.
Qed.

(** Among distinct keys exactly one is the date [d]. *)
Lemma one_key (d : date) (keys : list date) :
  NoDup keys -> In d keys ->
  list_sum (map (fun k => if date_eqb d k then 1 else 0) keys) = 1.
Proof.
  induction 1 as [| k keys Hnot Hnd IH]; intros Hin; [contradiction |].
  simpl. destruct (date_eqb d k) eqn:E.
  - apply date_eqb_eq in E. subst k.
    rewrite list_sum_zero; [reflexivity |].
    intros x Hx. destruct (date_eqb d x) eqn:E'; [| reflexivity].
    apply date_eqb_eq in E'. subst x. contradiction.
  - destruct Hin as [-> | Hin]; [rewrite date_eqb_refl in E; discriminate |].
    apply IH. exact Hin.
Qed.

(** Grouping loses and repeats nothing: over distinct keys that include
    every date of the table, the sizes of the groups add up to the number of
    dated rows. *)
Lemma groups_partition {A : Type} (key : A -> option date) (P : A -> bool)
  (keys : list date) (l : list A) :
  NoDup keys ->
  (forall x d, In x l -> key x = Some d -> In d keys) ->
  list_sum (map (fun d => List.length (filter (fun x => on_date d (key x) && P x) l))
                keys)
  = List.length (filter (fun x => match key x with
                                  | Some _ => P x
                                  | None => false
                                  end) l).
Proof.
  intros Hnd. induction l as [| x l IH]; intros Hkeys.
  - simpl. apply list_sum_zero. reflexivity.
  - rewrite (map_ext _ (fun d => (if on_date d (key x) && P x then 1 else 0)
                                 + List.length (filter (fun y => on_date d (key y) && P y) l))).
    2:{ intros d. cbn [filter]. destruct (on_date d (key x) && P x); reflexivity. }
    rewrite list_sum_add, IH by (intros y d Hy; apply Hkeys; right; exact Hy).
    cbn [filter]. destruct (key x) as [d |] eqn:Ek.
    + destruct (P x).
      * rewrite (map_ext _ (fun k => if date_eqb d k then 1 else 0)).
        2:{ intros k. simpl. rewrite andb_true_r. reflexivity. }
        rewrite one_key; [reflexivity | exact Hnd |].
        apply (Hkeys x d); [left; reflexivity | exact Ek].
      * rewrite list_sum_zero; [reflexivity |].
        intros k _. rewrite andb_false_r. reflexivity.
    + rewrite list_sum_zero; [reflexivity |]. intros k _. reflexivity.
Qed.

Lemma group_count (d : date) (dated : list (option date * News.row)) :
  count (map News.FINBERT_SCORE (group d dated))
  = List.length (filter (fun p => on_date d (fst p)
                                  && notna (News.FINBERT_SCORE (snd p))) dated).
Proof.
  rewrite count_rows. unfold group.
  induction dated as [| p l IH]; [reflexivity |].
  cbn [filter]. destruct (on_date d (fst p)); cbn [map filter andb]; [| exact IH].
  destruct (notna (News.FINBERT_SCORE (snd p))); simpl; rewrite IH; reflexivity.
Qed.

Lemma headlines_counted (dated : list (option date * News.row)) :
  list_sum (map Daily.NUM_HEADLINES (daily_of dated))
  = List.length (filter (fun p => match fst p with
                                  | Some _ => notna (News.FINBERT_SCORE (snd p))
                                  | None => false
                                  end) dated).
Proof.
  unfold daily_of. rewrite map_map. cbn [Daily.NUM_HEADLINES aggregate].
  rewrite (map_ext _ (fun d => List.length
             (filter (fun p => on_date d (fst p)
                               && notna (News.FINBERT_SCORE (snd p))) dated)))
    by (intros d; apply group_count).
  apply (groups_partition fst (fun p => notna (News.FINBERT_SCORE (snd p)))).
  - apply sorted_NoDup, group_keys_sorted.
  - intros p d Hp Hd. apply group_keys_In. rewrite <- Hd. apply in_map. exact Hp.
Qed.

Lemma dated_length (df : frame News.row) :
  List.length (dated df) <= List.length (rows df).
Proof. unfold dated. rewrite length_combine. apply Nat.le_min_r. Qed.

End DailyCounts.

(** X9.  The daily table comes out in strictly increasing date order, and
    grouping neither loses nor repeats a headline: the headline counts of
    all dates add up to the number of rows of the scored file that have
    both a date that parses and a score; a row without a date belongs to
    no day. *)
Theorem daily_rows_partition_headlines
  (df : frame BuildPanel.News.row) (daily : list BuildPanel.Daily.row) :
  BuildPanel.load_news df = inr daily ->
  StronglySorted before (map BuildPanel.Daily.DATE daily)
  /\ list_sum (map BuildPanel.Daily.NUM_HEADLINES daily)
     = List.length
         (filter (fun p => match fst p with
                           | Some _ => notna (BuildPanel.News.FINBERT_SCORE (snd p))
                           | None => false
                           end) (BuildPanel.dated df))
  /\ list_sum (map BuildPanel.Daily.NUM_HEADLINES daily) <= List.length (rows df).
Proof.
  intros Hload. apply load_news_daily in Hload. subst daily.
  split; [rewrite daily_of_dates; apply group_keys_sorted |].
  split; [apply headlines_counted |].
  rewrite headlines_counted.
  eapply Nat.le_trans; [apply filter_length_le | apply dated_length].
Qed.

Lemma daily_rows_partition_headlines_witness :
  map BuildPanel.Daily.DATE Sample.daily_rows
  = [mkDate 2025 9 15; mkDate 2025 9 16; mkDate 2025 9 20]
  /\ StronglySorted before (map BuildPanel.Daily.DATE Sample.daily_rows)
  /\ list_sum (map BuildPanel.Daily.NUM_HEADLINES Sample.daily_rows) = 5.
Proof.
  destruct (@daily_rows_partition_headlines Sample.scored_file Sample.daily_rows)
    as (Hs & Hn & _).
  - reflexivity.
  - split; [reflexivity |]. split; [exact Hs |]. rewrite Hn. reflexivity.
Defined.

(* ===================================================================== *)
(** * The daily aggregate: ranges                                         *)
(* ===================================================================== *)

Section DailyRanges.
Import BuildPanel.
Local Open Scope Q_scope.

Lemma feq_Fin (x : float) (q : Q) : feq x (Fin q) -> exists p, x = Fin p /\ p == q.
Proof.
  destruct x as [| b | p]; simpl; try contradiction.
  intros H. exists p. split; [reflexivity | exact H].
Qed.

Lemma inject_nat_pos (n : nat) : (0 < n)%nat -> 0 < inject_Z (Z.of_nat n).
Proof.
  intros H. change 0 with (inject_Z 0). rewrite <- Zlt_Qlt. lia.
Qed.

Lemma proportion_bounds {A : Type} (p : A -> bool) (l : list A) :
  l <> [] -> 0 <= Spec.proportion p l <= 1.
Proof.
  intros Hne. unfold Spec.proportion.
  assert (Hlen : (0 < List.length l)%nat) by (destruct l; [congruence | simpl; lia]).
  pose proof (inject_nat_pos Hlen) as Hpos.
  pose proof (filter_length_le p l) as Hle.
  assert (H0 : 0 <= inject_Z (Z.of_nat (List.length (filter p l)))).
  { change 0 with (inject_Z 0). rewrite <- Zle_Qle. lia. }
  assert (H1 : inject_Z (Z.of_nat (List.length (filter p l)))
               <= inject_Z (Z.of_nat (List.length l))).
  { rewrite <- Zle_Qle. lia. }
  split.
  - apply Qle_shift_div_l; [exact Hpos |]. rewrite Qmult_0_l. exact H0.
  - apply Qle_shift_div_r; [exact Hpos |]. rewrite Qmult_1_l. exact H1.
Qed.

Lemma exclusive_length {A : Type} (p q : A -> bool) (l : list A) :
  (forall x, p x = true -> q x = false) ->
  (List.length (filter p l) + List.length (filter q l) <= List.length l)%nat.
Proof.
  intros Hex. induction l as [| x l IH]; simpl; [lia |].
  destruct (p x) eqn:Ep.
  - rewrite (Hex x Ep). simpl. lia.
  - destruct (q x); simpl; lia.
Qed.

Lemma proportions_exclusive {A : Type} (p q : A -> bool) (l : list A) :
  l <> [] -> (forall x, p x = true -> q x = false) ->
  Spec.proportion p l + Spec.proportion q l <= 1.
Proof.
  intros Hne Hex. unfold Spec.proportion.
  assert (Hlen : (0 < List.length l)%nat) by (destruct l; [congruence | simpl; lia]).
  pose proof (inject_nat_pos Hlen) as Hpos.
  pose proof (exclusive_length p q l Hex) as Hle.
  setoid_replace (inject_Z (Z.of_nat (List.length (filter p l)))
                  / inject_Z (Z.of_nat (List.length l))
                  + inject_Z (Z.of_nat (List.length (filter q l)))
                    / inject_Z (Z.of_nat (List.length l)))
    with ((inject_Z (Z.of_nat (List.length (filter p l)))
           + inject_Z (Z.of_nat (List.length (filter q l))))
          / inject_Z (Z.of_nat (List.length l)))
    by (field; intros E; rewrite E in Hpos; exact (Qlt_irrefl _ Hpos)).
  apply Qle_shift_div_r; [exact Hpos |]. rewrite Qmult_1_l.
  rewrite <- inject_Z_plus, <- Zle_Qle. lia.
Qed.

Lemma labels_exclusive (c : option string) :
  label_is "positive" c = true -> label_is "negative" c = false.
Proof.
  destruct c as [s |]; simpl; [| discriminate].
  intros H. apply String.eqb_eq in H. subst s. reflexivity.
Qed.

(** ** The mean of the scores that are present *)

Lemma present_scores (lo hi : Q) (col : list float) :
  Forall (Pred.score_within lo hi) col ->
  exists qs, filter notna col = map Fin qs
             /\ Forall (fun q => lo <= q <= hi) qs.
Proof.
  induction 1 as [| x col Hx Hall (qs & Hqs & Hin)].
  - exists []. split; [reflexivity | constructor].
  - destruct x as [| b | q]; simpl in Hx.
    + exists qs. split; [exact Hqs | exact Hin].
    + contradiction.
    + exists (q :: qs). split; [simpl; rewrite Hqs; reflexivity |].
      constructor; assumption.
Qed.

Lemma sum_bounds (lo hi : Q) (qs : list Q) :
  Forall (fun q => lo <= q <= hi) qs ->
  forall a,
    a + lo * inject_Z (Z.of_nat (List.length qs)) <= fold_left Qplus qs a
    /\ fold_left Qplus qs a <= a + hi * inject_Z (Z.of_nat (List.length qs)).
Proof.
  induction 1 as [| q qs [Hlo Hhi] Hall IH]; intros a.
  - simpl. split; ring_simplify; apply Qle_refl.
  - cbn [fold_left List.length]. destruct (IH (a + q)) as [IH1 IH2].
    rewrite Nat2Z.inj_succ, <- Z.add_1_r, inject_Z_plus.
    split.
    + eapply Qle_trans; [| exact IH1].
      setoid_replace (a + lo * (inject_Z (Z.of_nat (List.length qs)) + inject_Z 1))
        with ((a + lo) + lo * inject_Z (Z.of_nat (List.length qs))) by (simpl; ring).
      apply Qplus_le_compat; [| apply Qle_refl].
      apply Qplus_le_compat; [apply Qle_refl | exact Hlo].
    + eapply Qle_trans; [exact IH2 |].
      setoid_replace (a + hi * (inject_Z (Z.of_nat (List.length qs)) + inject_Z 1))
        with ((a + hi) + hi * inject_Z (Z.of_nat (List.length qs))) by (simpl; ring).
      apply Qplus_le_compat; [| apply Qle_refl].
      apply Qplus_le_compat; [apply Qle_refl | exact Hhi].
Qed.

Lemma arithmetic_mean_bounds (lo hi : Q) (qs : list Q) :
  qs <> [] -> Forall (fun q => lo <= q <= hi) qs ->
  lo <= Spec.arithmetic_mean qs <= hi.
Proof.
  intros Hne Hall. unfold Spec.arithmetic_mean, Spec.Qsum.
  assert (Hlen : (0 < List.length qs)%nat) by (destruct qs; [congruence | simpl; lia]).
  pose proof (inject_nat_pos Hlen) as Hpos.
  destruct (sum_bounds Hall 0) as [H1 H2].
  rewrite Qplus_0_l in H1, H2.
  split.
  - apply Qle_shift_div_l; [exact Hpos | exact H1].
  - apply Qle_shift_div_r; [exact Hpos | exact H2].
Qed.

(** The mean of a column whose present values lie in a range: missing when
    no value is present, else a number of the range. *)
Lemma mean_within (lo hi : Q) (col : list float) :
  Forall (Pred.score_within lo hi) col ->
  (count col = 0%nat /\ mean col = NaN)
  \/ ((0 < count col)%nat /\ exists m, mean col = Fin m /\ lo <= m <= hi).
Proof.
  intros Hall. destruct (present_scores Hall) as (qs & Hqs & Hin).
  assert (Hmean : mean col = mean (map Fin qs)).
  { unfold mean. rewrite filter_notna_Fin, Hqs. reflexivity. }
  assert (Hcount : count col = List.length qs).
  { unfold count. rewrite Hqs. apply length_map. }
  destruct qs as [| q qs].
  - left. split; [exact Hcount |]. rewrite Hmean. reflexivity.
  - right. split; [rewrite Hcount; simpl; lia |].
    exists (Spec.arithmetic_mean (q :: qs)). split.
    + rewrite Hmean. apply mean_Fin. discriminate.
    + apply arithmetic_mean_bounds; [discriminate | exact Hin].
Qed.

Lemma dated_row (df : frame News.row) (c : option date) (r : News.row) :
  In (c, r) (dated df) -> In r (rows df).
Proof. unfold dated. apply in_combine_r. Qed.

End DailyRanges.

(** X10.  In every row of the daily table the positive and the negative
    share are numbers between 0 and 1, and together they are at most 1. *)
Theorem daily_shares_bounds
  (df : frame BuildPanel.News.row) (daily : list BuildPanel.Daily.row)
  (row : BuildPanel.Daily.row) :
  BuildPanel.load_news df = inr daily -> In row daily ->
  exists p n : Q,
    BuildPanel.Daily.POS_SHARE row = Fin p
    /\ BuildPanel.Daily.NEG_SHARE row = Fin n
    /\ (0 <= p <= 1)%Q /\ (0 <= n <= 1)%Q /\ (p + n <= 1)%Q.
Proof.
  intros Hload Hrow. apply load_news_daily in Hload. subst daily.
  apply daily_of_row in Hrow. destruct Hrow as [Hin Hrow].
  set (g := BuildPanel.group (BuildPanel.Daily.DATE row) (BuildPanel.dated df)) in *.
  assert (Hg : map BuildPanel.News.FINBERT_LABEL g <> []).
  { intros E. apply map_eq_nil in E. exact (group_nonempty _ _ Hin E). }
  destruct (@feq_Fin _ _ (share_proportion "positive" Hg)) as (p & Hp & Ep).
  destruct (@feq_Fin _ _ (share_proportion "negative" Hg)) as (n & Hn & En).
  exists p, n. rewrite Hrow. cbn [BuildPanel.Daily.POS_SHARE BuildPanel.Daily.NEG_SHARE
    BuildPanel.aggregate].
  split; [exact Hp |]. split; [exact Hn |].
  rewrite Ep, En.
  split; [apply proportion_bounds; exact Hg |].
  split; [apply proportion_bounds; exact Hg |].
  apply proportions_exclusive; [exact Hg | exact labels_exclusive].
Qed.

Lemma daily_shares_bounds_witness :
  exists row p n,
    In row Sample.daily_rows
    /\ BuildPanel.Daily.POS_SHARE row = Fin p
    /\ BuildPanel.Daily.NEG_SHARE row = Fin n
    /\ (p + n <= 1)%Q.
Proof.
  destruct (@daily_shares_bounds Sample.scored_file Sample.daily_rows
              (nth 0 Sample.daily_rows (BuildPanel.Daily.mkRow (mkDate 1 1 1) NaN 0 NaN NaN)))
    as (p & n & Hp & Hn & _ & _ & Hs).
  - reflexivity.
  - left. reflexivity.
  - eexists _, p, n. split; [left; reflexivity |].
    split; [exact Hp |]. split; [exact Hn | exact Hs].
Defined.

(** X11.  When every score of the scored file is missing or a number
    between [lo] and [hi], the sentiment of a day is the mean of the scores
    that are present: a number between [lo] and [hi] when the day has at
    least one score, and missing, with a headline count of 0, when all the
    scores of the day are missing.  Missing scores are skipped, they do not
    make the mean missing. *)
Theorem daily_sentiment_range
  (df : frame BuildPanel.News.row) (daily : list BuildPanel.Daily.row)
  (lo hi : Q) (row : BuildPanel.Daily.row) :
  BuildPanel.load_news df = inr daily ->
  (forall r, In r (rows df) -> Pred.score_within lo hi (BuildPanel.News.FINBERT_SCORE r)) ->
  In row daily ->
  (BuildPanel.Daily.NUM_HEADLINES row = 0
   /\ BuildPanel.Daily.DAILY_SENTIMENT row = NaN)
  \/ (0 < BuildPanel.Daily.NUM_HEADLINES row
      /\ exists m, BuildPanel.Daily.DAILY_SENTIMENT row = Fin m /\ (lo <= m <= hi)%Q).
Proof.
  intros Hload Hscores Hrow. apply load_news_daily in Hload. subst daily.
  apply daily_of_row in Hrow. destruct Hrow as [_ Hrow]. rewrite Hrow.
  cbn [BuildPanel.Daily.NUM_HEADLINES BuildPanel.Daily.DAILY_SENTIMENT
    BuildPanel.aggregate].
  apply mean_within. rewrite Forall_forall. intros x Hx.
  apply in_map_iff in Hx. destruct Hx as (r & <- & Hr).
  apply Hscores. apply group_In in Hr. exact (dated_row _ _ _ Hr).
Qed.

Lemma daily_sentiment_range_witness :
  map BuildPanel.Daily.NUM_HEADLINES
      (Sample.rows_of (BuildPanel.load_news Cases.partly_scored)) = [0; 1]
  /\ BuildPanel.Daily.DAILY_SENTIMENT
       (nth 0 (Sample.rows_of (BuildPanel.load_news Cases.partly_scored))
            (BuildPanel.Daily.mkRow (mkDate 1 1 1) (Fin 0%Q) 0 NaN NaN)) = NaN.
Proof.
  split; [reflexivity |].
  destruct (@daily_sentiment_range Cases.partly_scored
              (Sample.rows_of (BuildPanel.load_news Cases.partly_scored))
              (-1)%Q 1%Q
              (nth 0 (Sample.rows_of (BuildPanel.load_news Cases.partly_scored))
                   (BuildPanel.Daily.mkRow (mkDate 1 1 1) (Fin 0%Q) 0 NaN NaN)))
    as [[_ H] | [H _]].
  - reflexivity.
  - intros r Hr. simpl in Hr.
    destruct Hr as [<- | [<- | [<- | []]]]; simpl; try exact I.
    split; discriminate.
  - left. reflexivity.
  - exact H.
  - vm_compute in H. lia.
Defined.

(* ===================================================================== *)
(** * Loading the prices                                                  *)
(* ===================================================================== *)

Section PriceFile.
Import BuildPanel.
Variable parse : string -> option date.

Lemma rename_close (cols : list string) :
  existsb (String.eqb "CLOSE") (map rename cols) = true
  <-> In "CLOSE" cols \/ In "TRDPRC_1" cols.
Proof.
  rewrite existsb_eqb_In, in_map_iff. split.
  - intros (c & Hc & Hin). unfold rename in Hc.
    destruct (String.eqb_spec c "TRDPRC_1"); [subst c; right; exact Hin |].
    destruct (String.eqb_spec c "HIGH_1"); [discriminate |].
    destruct (String.eqb_spec c "LOW_1"); [discriminate |].
    destruct (String.eqb_spec c "OPEN_PRC"); [discriminate |].
    destruct (String.eqb_spec c "ACVOL_UNS"); [discriminate |].
    subst c. left. exact Hin.
  - intros [H | H]; [exists "CLOSE" | exists "TRDPRC_1"]; split;
      (reflexivity || exact H).
Qed.

Lemma load_prices_no_timestamp (df : frame Price.csv_row) :
  load_prices parse df = inl (KeyError "TIMESTAMP") <-> ~ In "TIMESTAMP" (columns df).
Proof.
  unfold load_prices. rewrite <- has_column_In.
  destruct (has_column df "TIMESTAMP"); cbn [negb].
  - split; [| intros H; exfalso; apply H; reflexivity].
    destruct (negb _); [discriminate |]. destruct (1 <? _); discriminate.
  - split; [intros _; discriminate | reflexivity].
Qed.

Lemma load_prices_no_close (df : frame Price.csv_row) :
  load_prices parse df = inl (KeyError "CLOSE")
  <-> In "TIMESTAMP" (columns df)
      /\ ~ In "CLOSE" (columns df) /\ ~ In "TRDPRC_1" (columns df).
Proof.
  unfold load_prices. rewrite <- has_column_In.
  destruct (has_column df "TIMESTAMP"); cbn [negb].
  - destruct (existsb (String.eqb "CLOSE") (map rename (columns df))) eqn:E; cbn [negb].
    + apply rename_close in E. split; [destruct (1 <? _); discriminate | tauto].
    + split; [| reflexivity]. intros _. split; [reflexivity |].
      assert (H : ~ (In "CLOSE" (columns df) \/ In "TRDPRC_1" (columns df))).
      { intros H. apply rename_close in H. congruence. }
      tauto.
  - split; [discriminate | intros [H _]; discriminate H].
Qed.

(** A file with both a [CLOSE] and a [TRDPRC_1] column has two [CLOSE]
    columns after the renaming, and the assignment of [RETURN] raises. *)
Lemma two_closes (cols : list string) :
  In "CLOSE" cols -> In "TRDPRC_1" cols ->
  1 < List.length (filter (String.eqb "CLOSE") (map rename cols)).
Proof.
  assert (Hone : forall c l, In c l -> rename c = "CLOSE" ->
                   0 < List.length (filter (String.eqb "CLOSE") (map rename l))).
  { intros c l. induction l as [| x l IH]; [intros [] |].
    intros [-> | Hin] Hc; cbn [map filter].
    - rewrite Hc, String.eqb_refl. cbn [List.length]. lia.
    - specialize (IH Hin Hc).
      destruct (String.eqb "CLOSE" (rename x)); cbn [List.length]; lia. }
  induction cols as [| x cols IH]; [intros [] |].
  intros [Hx | Hc] [Ht | Ht]; cbn [map filter].
  - subst x. discriminate Ht.
  - subst x. change (rename "CLOSE") with "CLOSE". rewrite String.eqb_refl.
    pose proof (Hone "TRDPRC_1" cols Ht eq_refl). cbn [List.length]. lia.
  - subst x. change (rename "TRDPRC_1") with "CLOSE". rewrite String.eqb_refl.
    pose proof (Hone "CLOSE" cols Hc eq_refl). cbn [List.length]. lia.
  - specialize (IH Hc Ht).
    destruct (String.eqb "CLOSE" (rename x)); cbn [List.length]; lia.
Qed.

Lemma load_prices_two_closes (df : frame Price.csv_row) :
  In "TIMESTAMP" (columns df) -> In "CLOSE" (columns df) ->
  In "TRDPRC_1" (columns df) ->
  load_prices parse df = inl two_closes_error.
Proof.
  intros Ht Hc Hr. unfold load_prices.
  apply has_column_In in Ht. rewrite Ht. cbn [negb].
  assert (Hex : existsb (String.eqb "CLOSE") (map rename (columns df)) = true)
    by (apply rename_close; left; exact Hc).
  rewrite Hex. cbn [negb].
  pose proof (@two_closes (columns df) Hc Hr) as Hlt. apply Nat.ltb_lt in Hlt.
  rewrite Hlt. reflexivity.
Qed.

Lemma zip_with_keeps {B C X : Type} (f : B -> C -> B) (g : B -> X) (l : list B) :
  (forall x y, g (f x y) = g x) ->
  forall r, List.length l = List.length r -> map g (Pd.zip_with f l r) = map g l.
Proof.
  intros Hg. induction l as [| a l IH]; intros [| b r]; simpl;
    try discriminate; [reflexivity |].
  intros [= H]. rewrite Hg, IH; [reflexivity | exact H].
Qed.

(** The rows [load_prices] returns are the bars of the file: none is lost,
    repeated or altered. *)
Lemma load_prices_bars (df : frame Price.csv_row) (prices : list Price.row) :
  load_prices parse df = inr prices ->
  Permutation (map (fun r => (Price.DATE r, Price.CLOSE r, Price.rest r)) prices)
              (map (fun r => (Pd.on_text parse (Price.TIMESTAMP r),
                              Price.close_cell r, Price.rest_cells r)) (rows df)).
Proof.
  unfold load_prices.
  destruct (negb _); [discriminate |]. destruct (negb _); [discriminate |].
  destruct (1 <? _); [discriminate |].
  intros [= <-]. unfold with_returns.
  set (sorted := Pd.sort_values Price.DATE (map (with_date parse) (rows df))).
  rewrite (zip_with_keeps set_return
             (fun r => (Price.DATE r, Price.CLOSE r, Price.rest r))).
  - unfold sorted. rewrite (sort_values_perm Price.DATE), map_map. reflexivity.
  - reflexivity.
  - rewrite pct_change_length, length_map. reflexivity.
Qed.

End PriceFile.

(** X12.  [load_prices] raises [KeyError('TIMESTAMP')] exactly when the
    price file has no [TIMESTAMP] column, and [KeyError('CLOSE')] exactly
    when it has that column but neither a [CLOSE] nor a [TRDPRC_1] column
    (the one the renaming turns into [CLOSE]).  The rows it returns are the
    bars of the file, each with its date, close and other cells unchanged:
    none is lost or repeated, also when its timestamp does not parse. *)
Theorem load_prices_outcome
  (parse : string -> option date) (df : frame BuildPanel.Price.csv_row) :
  (BuildPanel.load_prices parse df = inl (KeyError "TIMESTAMP")
   <-> ~ In "TIMESTAMP" (columns df))
  /\ (BuildPanel.load_prices parse df = inl (KeyError "CLOSE")
      <-> In "TIMESTAMP" (columns df)
          /\ ~ In "CLOSE" (columns df) /\ ~ In "TRDPRC_1" (columns df))
  /\ (forall prices, BuildPanel.load_prices parse df = inr prices ->
        List.length prices = List.length (rows df)
        /\ Permutation
             (map (fun r => (BuildPanel.Price.DATE r, BuildPanel.Price.CLOSE r,
                             BuildPanel.Price.rest r)) prices)
             (map (fun r => (Pd.on_text parse (BuildPanel.Price.TIMESTAMP r),
                             BuildPanel.Price.close_cell r,
                             BuildPanel.Price.rest_cells r)) (rows df))).
Proof.
  split; [apply load_prices_no_timestamp |].
  split; [apply load_prices_no_close |].
  intros prices Hload. pose proof (load_prices_bars _ _ Hload) as Hperm.
  split; [| exact Hperm].
  apply Permutation_length in Hperm. rewrite !length_map in Hperm. exact Hperm.
Qed.

(* ===================================================================== *)
(** * Returns compound to the price ratio                                 *)
(* ===================================================================== *)

Section Compound.
Local Open Scope Q_scope.

Lemma grow_compat (rs : list Q) :
  forall a b, a == b ->
    fold_left (fun acc r => acc * (1 + r)) rs a
    == fold_left (fun acc r => acc * (1 + r)) rs b.
Proof.
  induction rs as [| r rs IH]; intros a b E; simpl; [exact E |].
  apply IH. rewrite E. reflexivity.
Qed.

Lemma positive_not_zero (p : Q) : 0 < p -> ~ p == 0.
Proof. intros H E. rewrite E in H. exact (Qlt_irrefl _ H). Qed.

(** The changes of a column of positive numbers: each is above -1, and
    growing the first number by the changes up to a position gives the
    number at that position. *)
Lemma changes_compound (cs : list Q) :
  forall c0, Forall (fun c => 0 < c) (c0 :: cs) ->
  exists rs,
    Pd.zip_with Spec.change (map Fin cs) (map Fin (c0 :: cs)) = map Fin rs
    /\ List.length rs = List.length cs
    /\ Forall (fun r => -1 < r) rs
    /\ forall t c, nth_error cs t = Some c ->
         fold_left (fun acc r => acc * (1 + r)) (firstn (S t) rs) c0 == c.
Proof.
  induction cs as [| c1 cs IH]; intros c0 Hpos.
  - exists []. split; [reflexivity |]. split; [reflexivity |].
    split; [constructor |]. intros [| t] c; discriminate.
  - inversion Hpos as [| ? ? H0 Hrest]; subst.
    inversion Hrest as [| ? ? H1 _]; subst.
    destruct (IH c1 Hrest) as (rs & Hz & Hlen & Hgt & Hgrow).
    exists ((c1 / c0 - 1) :: rs).
    assert (Hstep : c0 * (1 + (c1 / c0 - 1)) == c1)
      by (field; apply positive_not_zero; exact H0).
    split.
    { cbn [map Pd.zip_with]. rewrite (change_numbers c1 (positive_not_zero H0)).
      cbn [map] in Hz. rewrite Hz. reflexivity. }
    split; [simpl; rewrite Hlen; reflexivity |].
    split.
    { constructor; [| exact Hgt].
      assert (Hq : 0 < c1 / c0).
      { apply Qlt_shift_div_l; [exact H0 |]. rewrite Qmult_0_l. exact H1. }
      revert Hq. generalize (c1 / c0). intros x Hx. lra. }
    intros [| t] c Hc.
    + injection Hc as <-. simpl. exact Hstep.
    + cbn [nth_error] in Hc.
      change (firstn (S (S t)) ((c1 / c0 - 1) :: rs))
        with ((c1 / c0 - 1) :: firstn (S t) rs).
      cbn [fold_left]. rewrite (grow_compat _ Hstep). apply Hgrow. exact Hc.
Qed.

(** The change of a positive number over a positive number, the quotient
    and the difference each rounded, is not below -1. *)
Lemma rounded_change_bound (rnd : Q -> Q) :
  (forall a b, a <= b -> rnd a <= rnd b) -> rnd 0 == 0 -> rnd (-1) == -1 ->
  forall p c, 0 < p -> 0 < c -> -1 <= rnd (rnd (c / p) - 1).
Proof.
  intros Hmono H0 H1 p c Hp Hc.
  assert (Hq : 0 <= c / p).
  { apply Qlt_le_weak. apply Qlt_shift_div_l; [exact Hp |].
    rewrite Qmult_0_l. exact Hc. }
  assert (Hr : 0 <= rnd (c / p)) by (rewrite <- H0; apply Hmono; exact Hq).
  rewrite <- H1. apply Hmono. lra.
Qed.

End Compound.

(** X13.  When every close is a positive number, the first row's return is
    missing and every later return is a number that is not below -1.  The
    bound does not rest on the quotient and the difference being exact: it
    holds as well when each of the two is rounded, by any rounding that
    keeps the order of the numbers and leaves 0 and -1 as they are. *)
Theorem returns_not_below_minus_one
  (parse : string -> option date) (df : frame BuildPanel.Price.csv_row)
  (prices : list BuildPanel.Price.row) (c0 : Q) (cs : list Q) :
  BuildPanel.load_prices parse df = inr prices ->
  map BuildPanel.Price.CLOSE prices = map Fin (c0 :: cs) ->
  Forall (fun c => (0 < c)%Q) (c0 :: cs) ->
  (exists rs,
     map BuildPanel.Price.RETURN prices = NaN :: map Fin rs
     /\ List.length rs = List.length cs
     /\ Forall (fun r => (-1 <= r)%Q) rs)
  /\ forall rnd : Q -> Q,
       (forall a b, (a <= b)%Q -> (rnd a <= rnd b)%Q) ->
       (rnd 0 == 0)%Q -> (rnd (-1) == -1)%Q ->
       forall t p c, nth_error (c0 :: cs) t = Some p -> nth_error cs t = Some c ->
                     (-1 <= rnd (rnd (c / p) - 1))%Q.
Proof.
  intros Hload Hclose Hpos.
  destruct (load_prices_rows parse df Hload) as (_ & _ & Hret).
  destruct (changes_compound Hpos) as (rs & Hz & Hlen & Hgt & _).
  split.
  - exists rs. split; [| split; [exact Hlen |]].
    + rewrite Hret, Hclose.
      change (map Fin (c0 :: cs)) with (Fin c0 :: map Fin cs).
      rewrite pct_change_present.
      * change (Fin c0 :: map Fin cs) with (map Fin (c0 :: cs)). rewrite Hz. reflexivity.
      * change (Fin c0 :: map Fin cs) with (map Fin (c0 :: cs)).
        rewrite Forall_forall. intros x Hx. apply in_map_iff in Hx.
        destruct Hx as (q & <- & _). reflexivity.
    + apply Forall_impl with (2 := Hgt). intros r Hr. apply Qlt_le_weak. exact Hr.
  - intros rnd Hmono H0 H1 t p c Hp Hc.
    apply (rounded_change_bound rnd Hmono H0 H1).
    + rewrite Forall_forall in Hpos. apply Hpos. apply nth_error_In with (n := t). exact Hp.
    + rewrite Forall_forall in Hpos. apply Hpos. right.
      apply nth_error_In with (n := t). exact Hc.
Qed.

Lemma returns_not_below_minus_one_witness :
  (exists rs,
     map BuildPanel.Price.RETURN Sample.price_rows = NaN :: map Fin rs
     /\ List.length rs = 2
     /\ Forall (fun r => (-1 <= r)%Q) rs)
  /\ (-1 <= (fun q => q) ((fun q => q) (105 / 100) - 1))%Q.
Proof.
  destruct (@returns_not_below_minus_one Sample.iso_date Sample.price_file
              Sample.price_rows 100%Q [105%Q; 103%Q])
    as (Hrs & Hrnd).
  - reflexivity.
  - reflexivity.
  - repeat constructor.
  - split; [exact Hrs |].
    apply (Hrnd (fun q => q)) with (t := 0) (p := 100%Q) (c := 105%Q).
    + intros a b H. exact H.
    + reflexivity.
    + reflexivity.
    + reflexivity.
    + reflexivity.
Defined.

(* ===================================================================== *)
(** * The panel follows the price rows                                     *)
(* ===================================================================== *)

Section PanelOrder.
Import BuildPanel.

Lemma same_date_eq (p : Price.row) (n : Daily.row) :
  same_date p n = true <-> Price.DATE p = Some (Daily.DATE n).
Proof. apply on_date_true. Qed.

(** Among sentiment rows of distinct dates at most one has the date of a
    price row. *)
Lemma one_match (p : Price.row) (news : list Daily.row) :
  NoDup (map Daily.DATE news) ->
  filter (same_date p) news = []
  \/ exists n, filter (same_date p) news = [n].
Proof.
  induction news as [| n news IH]; intros Hnd; [left; reflexivity |].
  cbn [map] in Hnd. inversion Hnd as [| ? ? Hnot Hnd']; subst.
  cbn [filter]. destruct (same_date p n) eqn:E; [| apply IH; exact Hnd'].
  right. exists n. f_equal.
  destruct (filter (same_date p) news) as [| m rest] eqn:Ef; [reflexivity |].
  exfalso. apply Hnot.
  assert (Hm : In m (filter (same_date p) news)) by (rewrite Ef; left; reflexivity).
  apply filter_In in Hm. destruct Hm as [Hin Hs].
  apply same_date_eq in E. apply same_date_eq in Hs.
  assert (Hd : Daily.DATE n = Daily.DATE m) by congruence.
  rewrite Hd. apply in_map. exact Hin.
Qed.

Lemma existsb_filter {A : Type} (f : A -> bool) (l : list A) :
  existsb f l = match filter f l with [] => false | _ => true end.
Proof.
  induction l as [| x l IH]; [reflexivity |].
  simpl. destruct (f x); [reflexivity | exact IH].
Qed.

Lemma merge_inner_prices (prices : list Price.row) (news : list Daily.row) :
  NoDup (map Daily.DATE news) ->
  map Panel.price (merge_inner prices news)
  = filter (fun p => existsb (same_date p) news) prices.
Proof.
  intros Hnd. unfold merge_inner.
  induction prices as [| p prices IH]; [reflexivity |].
  cbn [flat_map filter]. rewrite map_app, IH, existsb_filter.
  destruct (@one_match p news Hnd) as [-> | [n ->]]; reflexivity.
Qed.

Lemma merge_inner_one (prices : list Price.row) (news : list Daily.row)
  (r : Panel.row) :
  NoDup (map Daily.DATE news) -> In r (merge_inner prices news) ->
  filter (same_date (Panel.price r)) news = [Panel.daily r].
Proof.
  intros Hnd Hr. apply merge_inner_In in Hr. destruct Hr as (_ & Hn & Hd).
  assert (Hin : In (Panel.daily r) (filter (same_date (Panel.price r)) news)).
  { apply filter_In. split; [exact Hn |]. apply same_date_eq. exact Hd. }
  destruct (@one_match (Panel.price r) news Hnd) as [E | [n E]]; rewrite E in Hin |- *.
  - contradiction.
  - destruct Hin as [-> | []]. reflexivity.
Qed.

Lemma filter_sorted {A : Type} (R : A -> A -> Prop) (f : A -> bool) (l : list A) :
  StronglySorted R l -> StronglySorted R (filter f l).
Proof.
  induction 1 as [| x l Hs IH Hall]; simpl; [constructor |].
  destruct (f x); [| exact IH].
  constructor; [exact IH |].
  rewrite Forall_forall in Hall |- *. intros y Hy.
  apply filter_In in Hy. apply Hall. tauto.
Qed.

Lemma sorted_by_price (panel : list Panel.row) :
  StronglySorted (Pd.not_after Price.DATE) (map Panel.price panel) ->
  StronglySorted (Pd.not_after Panel.DATE) panel.
Proof.
  induction panel as [| r panel IH]; intros H; [constructor |].
  cbn [map] in H. inversion H as [| ? ? Hs Hall]; subst.
  constructor; [apply IH; exact Hs |].
  rewrite Forall_forall in Hall |- *. intros y Hy.
  apply (Hall (Panel.price y)). apply in_map. exact Hy.
Qed.

End PanelOrder.

(** X14.  The panel follows the price rows: a panel the run writes keeps,
    in their date order, exactly the price rows whose date has a sentiment
    row, each once, and pairs each with the only sentiment row of its date.
    So the panel is in date order and has at most as many rows as the price
    file.  When some price row has a sentiment row of its date, the run
    writes the panel. *)
Theorem panel_follows_prices
  (parse : string -> option date)
  (news_df : frame BuildPanel.News.row)
  (prices_df : frame BuildPanel.Price.csv_row)
  (news : list BuildPanel.Daily.row) (prices : list BuildPanel.Price.row) :
  BuildPanel.load_news news_df = inr news ->
  BuildPanel.load_prices parse prices_df = inr prices ->
  (forall path panel,
     In (path, panel)
        (written (fst (BuildPanel.main parse (Some news_df) (Some prices_df) start))) ->
     path = BuildPanel.OUTPUT_FILE
     /\ map BuildPanel.Panel.price panel
        = filter (fun p => existsb (BuildPanel.same_date p) news) prices
     /\ (forall r, In r panel ->
           filter (BuildPanel.same_date (BuildPanel.Panel.price r)) news
           = [BuildPanel.Panel.daily r])
     /\ StronglySorted (Pd.not_after BuildPanel.Panel.DATE) panel
     /\ List.length panel <= List.length (rows prices_df))
  /\ (filter (fun p => existsb (BuildPanel.same_date p) news) prices <> [] ->
      exists panel,
        written (fst (BuildPanel.main parse (Some news_df) (Some prices_df) start))
        = [(BuildPanel.OUTPUT_FILE, panel)]).
Proof.
  intros Hn Hp.
  assert (Hnd : NoDup (map BuildPanel.Daily.DATE news)).
  { pose proof (load_news_daily _ Hn) as Hd. subst news. rewrite daily_of_dates.
    apply sorted_NoDup, group_keys_sorted. }
  destruct (load_prices_rows parse prices_df Hp) as (Hsorted & Hperm & _).
  pose proof (main_writes_join parse _ _ Hn Hp) as Hrun.
  split.
  - intros path panel Hw.
    destruct Hrun as [(Hwritten & _) | (Hwritten & _)]; rewrite Hwritten in Hw;
      [| contradiction].
    destruct Hw as [[= <- <-] | []].
    split; [reflexivity |].
    split; [apply merge_inner_prices; exact Hnd |].
    split; [intros r Hr; apply (@merge_inner_one prices news r Hnd Hr) |].
    split.
    + apply sorted_by_price. rewrite (@merge_inner_prices prices news Hnd).
      apply filter_sorted. exact Hsorted.
    + rewrite <- (length_map BuildPanel.Panel.price),
        (@merge_inner_prices prices news Hnd).
      eapply Nat.le_trans; [apply filter_length_le |].
      apply Permutation_length in Hperm. rewrite !length_map in Hperm.
      rewrite Hperm. apply Nat.le_refl.
  - intros Hne.
    destruct Hrun as [(Hwritten & _) | (_ & msg & _ & Hm)];
      [eexists; exact Hwritten |].
    exfalso.
    destruct (filter (fun p => existsb (BuildPanel.same_date p) news) prices)
      as [| p rest] eqn:Ef; [apply Hne; reflexivity |].
    assert (Hin : In p (filter (fun p => existsb (BuildPanel.same_date p) news) prices))
      by (rewrite Ef; left; reflexivity).
    apply filter_In in Hin. destruct Hin as [Hin Hex].
    apply existsb_exists in Hex. destruct Hex as (n & Hnin & Hsame).
    apply same_date_eq in Hsame.
    pose proof (load_news_daily _ Hn) as Hd. rewrite Hd in Hm, Hnin.
    refine (@common_date_merges news_df prices (BuildPanel.Daily.DATE n) _ _ _ Hm).
    + rewrite <- Hsame. apply in_map. exact Hin.
    + apply in_map. exact Hnin.
Qed.

Lemma panel_follows_prices_witness :
  exists panel,
    written (fst (BuildPanel.main Sample.iso_date (Some Sample.scored_file)
                    (Some Sample.price_file) start))
    = [(BuildPanel.OUTPUT_FILE, panel)]
    /\ StronglySorted (Pd.not_after BuildPanel.Panel.DATE) panel
    /\ List.length panel <= 3.
Proof.
  destruct (@panel_follows_prices Sample.iso_date Sample.scored_file
              Sample.price_file Sample.daily_rows Sample.price_rows)
    as (Hall & Hex).
  - reflexivity.
  - reflexivity.
  - destruct Hex as [panel Hw]; [vm_compute; discriminate |].
    exists panel. split; [exact Hw |].
    destruct (Hall BuildPanel.OUTPUT_FILE panel) as (_ & _ & _ & Hs & Hl).
    + rewrite Hw. left. reflexivity.
    + split; [exact Hs | exact Hl].
Defined.

(* ===================================================================== *)
(** * Outcomes of the lead-lag script                                     *)
(* ===================================================================== *)

Section LeadLagOutcome.
Import LeadLag.
Variable corr : list float -> list float -> float.
Variable fmt4 : float -> string.

(** How a run on a panel file ends: the checks in the order of the code. *)
Lemma lead_lag_result (df : frame PanelFile.row) :
  snd (main corr fmt4 (Some df) start)
  = if negb (has_column df "DATE")
    then inl (KeyError "Expected a DATE column in the panel file.")
    else if negb (has_column df "RETURN") then inl (KeyError "RETURN")
    else if negb (has_column df "DAILY_SENTIMENT") then inl (KeyError "DAILY_SENTIMENT")
    else match ranged (rows df) with
         | [] => inl no_rows_error
         | _ => match lead_lag_table (ranged (rows df)) with
                | [] => inl (ValueError "Lead/lag dataframe is empty - check RETURN column.")
                | _ => inr tt
                end
         end.
Proof.
  cbv beta iota zeta delta [main bind print lift to_csv raise ret start].
  destruct (has_column df "DATE") eqn:H1; cbn [negb]; cbv iota; [| reflexivity].
  destruct (has_column df "RETURN"); cbn [negb]; cbv iota; [| reflexivity].
  destruct (has_column df "DAILY_SENTIMENT"); cbn [negb]; cbv iota; [| reflexivity].
  unfold empty. cbn [rows columns].
  destruct (ranged (rows df)) as [| r0 rs]; [reflexivity |].
  destruct (columns df) as [| c cs] eqn:Ec;
    [unfold has_column in H1; rewrite Ec in H1; discriminate |].
  destruct (lead_lag_table (r0 :: rs)); reflexivity.
Qed.

Lemma lead_lag_raised_nothing_written (df : frame PanelFile.row) (e : exn) :
  raised (main corr fmt4 (Some df) start) e ->
  written (fst (main corr fmt4 (Some df) start)) = [].
Proof.
  cbv beta iota zeta delta [main bind print lift to_csv raise ret start raised].
  destruct (has_column df "DATE") eqn:H1; cbn [negb]; cbv iota; [| reflexivity].
  destruct (has_column df "RETURN"); cbn [negb]; cbv iota; [| reflexivity].
  destruct (has_column df "DAILY_SENTIMENT"); cbn [negb]; cbv iota; [| reflexivity].
  unfold empty. cbn [rows columns].
  destruct (ranged (rows df)) as [| r0 rs]; [reflexivity |].
  destruct (columns df) as [| c cs] eqn:Ec;
    [unfold has_column in H1; rewrite Ec in H1; discriminate |].
  destruct (lead_lag_table (r0 :: rs)); [reflexivity |].
  intros H. discriminate H.
Qed.

Lemma lead_lag_table_empty (df : frame PanelFile.row) :
  has_column df "DATE" = true -> has_column df "RETURN" = true ->
  has_column df "DAILY_SENTIMENT" = true ->
  ranged (rows df) <> [] -> lead_lag_table (ranged (rows df)) = [] ->
  main corr fmt4 (Some df) start
  = (mkWorld [("Loading panel -> " ++ PANEL_FILE)%string] [],
     inl (ValueError "Lead/lag dataframe is empty - check RETURN column.")).
Proof.
  intros H1 H2 H3 Hr Ht.
  cbv beta iota zeta delta [main bind print lift to_csv raise ret start].
  rewrite H1, H2, H3. cbn [negb]. cbv iota.
  unfold empty. cbn [rows columns].
  destruct (ranged (rows df)) as [| r0 rs]; [congruence |].
  destruct (columns df) as [| c cs] eqn:Ec;
    [unfold has_column in H1; rewrite Ec in H1; discriminate |].
  rewrite Ht. reflexivity.
Qed.

Lemma lead_lag_table_short (rows : list PanelFile.row) :
  List.length (lead_lag_table rows) <= List.length rows - 1.
Proof.
  rewrite lead_lag_table_pairs, <- pair_with_next_length. apply filter_length_le.
Qed.

Lemma ranged_length (rows : list PanelFile.row) :
  List.length (ranged rows) = List.length (filter in_range rows).
Proof. apply Permutation_length. apply sort_values_perm. Qed.

End LeadLagOutcome.

(** X15.  On a panel file that has its three columns, the lead-lag script
    returns exactly when its table has at least one row.  When rows are
    left by the date filter but none after the incomplete pairs are
    dropped, the run is ended by the second [ValueError], after its first
    printed line.  The table has at most one row less than the filter
    leaves, so a panel with a single date in the range always ends in an
    error; and a run that raises has written no file. *)
Theorem lead_lag_outcome
  (corr : list float -> list float -> float) (fmt4 : float -> string)
  (df : frame PanelFile.row) :
  has_column df "DATE" = true -> has_column df "RETURN" = true ->
  has_column df "DAILY_SENTIMENT" = true ->
  (returned (LeadLag.main corr fmt4 (Some df) start)
   <-> LeadLag.lead_lag_table (ranged (rows df)) <> [])
  /\ (ranged (rows df) <> [] -> LeadLag.lead_lag_table (ranged (rows df)) = [] ->
      LeadLag.main corr fmt4 (Some df) start
      = (mkWorld [("Loading panel -> " ++ LeadLag.PANEL_FILE)%string] [],
         inl (ValueError "Lead/lag dataframe is empty - check RETURN column.")))
  /\ List.length (LeadLag.lead_lag_table (ranged (rows df)))
     <= List.length (filter in_range (rows df)) - 1
  /\ (List.length (filter in_range (rows df)) <= 1 ->
      returned (LeadLag.main corr fmt4 (Some df) start) -> False)
  /\ (forall e, raised (LeadLag.main corr fmt4 (Some df) start) e ->
                written (fst (LeadLag.main corr fmt4 (Some df) start)) = []).
Proof.
  intros H1 H2 H3.
  assert (Hshort : List.length (LeadLag.lead_lag_table (ranged (rows df)))
                   <= List.length (filter in_range (rows df)) - 1).
  { rewrite <- ranged_length. apply lead_lag_table_short. }
  assert (Hret : returned (LeadLag.main corr fmt4 (Some df) start)
                 <-> LeadLag.lead_lag_table (ranged (rows df)) <> []).
  { unfold returned. rewrite lead_lag_result, H1, H2, H3. cbn [negb].
    destruct (ranged (rows df)) as [| r0 rs] eqn:Er.
    - split; [intros [x Hx]; discriminate Hx | intros H; exfalso; apply H; reflexivity].
    - destruct (LeadLag.lead_lag_table (r0 :: rs)).
      + split; [intros [x Hx]; discriminate Hx | congruence].
      + split; [discriminate | intros _; exists tt; reflexivity]. }
  split; [exact Hret |].
  split; [apply lead_lag_table_empty; assumption |].
  split; [exact Hshort |].
  split; [| apply lead_lag_raised_nothing_written].
  intros Hone Hr. apply Hret in Hr. apply Hr.
  destruct (LeadLag.lead_lag_table (ranged (rows df))); [reflexivity |].
  simpl in Hshort. lia.
Qed.

Lemma lead_lag_outcome_witness :
  LeadLag.main Sample.no_corr Sample.show_nan (Some Cases.single_day) start
  = (mkWorld [("Loading panel -> " ++ LeadLag.PANEL_FILE)%string] [],
     inl (ValueError "Lead/lag dataframe is empty - check RETURN column.")).
Proof.
  destruct (@lead_lag_outcome Sample.no_corr Sample.show_nan Cases.single_day)
    as (_ & H & _).
  - reflexivity.
  - reflexivity.
  - reflexivity.
  - apply H; [discriminate | reflexivity].
Defined.

(** X16.  The lead-lag script checks its columns in a fixed order: the run
    is ended by the [KeyError] about [DATE] exactly when the panel file has
    no [DATE] column, by [KeyError('RETURN')] exactly when it has [DATE]
    but no [RETURN], and by [KeyError('DAILY_SENTIMENT')] exactly when only
    that column is missing. *)
Theorem lead_lag_missing_columns
  (corr : list float -> list float -> float) (fmt4 : float -> string)
  (df : frame PanelFile.row) :
  (raised (LeadLag.main corr fmt4 (Some df) start)
          (KeyError "Expected a DATE column in the panel file.")
   <-> ~ In "DATE" (columns df))
  /\ (raised (LeadLag.main corr fmt4 (Some df) start) (KeyError "RETURN")
      <-> In "DATE" (columns df) /\ ~ In "RETURN" (columns df))
  /\ (raised (LeadLag.main corr fmt4 (Some df) start) (KeyError "DAILY_SENTIMENT")
      <-> In "DATE" (columns df) /\ In "RETURN" (columns df)
          /\ ~ In "DAILY_SENTIMENT" (columns df)).
Proof.
  unfold raised. rewrite lead_lag_result, <- !has_column_In.
  destruct (has_column df "DATE"), (has_column df "RETURN"),
    (has_column df "DAILY_SENTIMENT"); cbn [negb];
    try (destruct (ranged (rows df));
         [| destruct (LeadLag.lead_lag_table _)]);
    repeat split; try discriminate; try tauto; try congruence;
    intuition (try discriminate; try congruence).
Qed.

(* ===================================================================== *)
(** * Outcomes of the correlation script                                  *)
(* ===================================================================== *)

Section CorrelationOutcome.
Import BuildCorrelation.
Variable corr : list float -> list float -> float.
Variable rolling_corr : nat -> list float -> list float -> list float.
Variable fmt4 : float -> string.

Lemma present_has {R : Type} (df : frame R) (names : list string) (name : string) :
  In name names ->
  existsb (String.eqb name) (present df names) = has_column df name.
Proof.
  intros Hin. unfold present.
  destruct (has_column df name) eqn:E.
  - apply existsb_eqb_In. apply filter_In. split; assumption.
  - destruct (existsb (String.eqb name) (filter (has_column df) names)) eqn:E';
      [| reflexivity].
    apply existsb_eqb_In in E'. apply filter_In in E'. destruct E' as [_ E'].
    congruence.
Qed.

Lemma return_listed : In "RETURN" price_cols.
Proof. unfold price_cols. simpl. tauto. Qed.

Lemma sentiment_listed : In "DAILY_SENTIMENT" sentiment_cols.
Proof. unfold sentiment_cols. simpl. tauto. Qed.

(** How a run on a panel file ends, and the files it has written. *)
Lemma correlation_run (df : frame PanelFile.row) :
  snd (main corr rolling_corr fmt4 (Some df) start)
  = (if negb (has_column df "DATE")
     then inl (KeyError "Expected a DATE column in the panel file.")
     else if negb (has_column df "RETURN") then inl (KeyError "RETURN")
     else inr tt)
  /\ map fst (written (fst (main corr rolling_corr fmt4 (Some df) start)))
     = if has_column df "DATE" && has_column df "RETURN"
       then [CORR_TABLE; CORR_PLOT; DAILY_CORR_FILE]
            ++ (if has_column df "DAILY_SENTIMENT" then [DAILY_CORR_PLOT] else [])
       else [].
Proof.
  cbv beta iota zeta delta [main bind print lift to_csv raise ret start].
  destruct (has_column df "DATE"); cbn [negb andb]; cbv iota;
    [| split; reflexivity].
  rewrite (@present_has _ df price_cols "RETURN" return_listed).
  rewrite (@present_has _ df sentiment_cols "DAILY_SENTIMENT" sentiment_listed).
  destruct (has_column df "RETURN"); cbn [negb]; cbv iota; [| split; reflexivity].
  destruct (has_column df "DAILY_SENTIMENT"); cbv iota;
    rewrite announce_run; cbn [written stdout fst snd app map];
    split; reflexivity.
Qed.

End CorrelationOutcome.

Section RollingTable.
Import BuildCorrelation.

(** ** The rolling table *)

Lemma transpose_onto_dates (dates : list (option date)) :
  forall cols : list (list float), map fst (transpose_onto dates cols) = dates.
Proof.
  induction dates as [| d dates IH]; intros cols; simpl; [reflexivity |].
  rewrite IH. reflexivity.
Qed.

Lemma transpose_onto_width (dates : list (option date)) :
  forall (cols : list (list float)) line,
    In line (transpose_onto dates cols) ->
    List.length (snd line) = List.length cols.
Proof.
  induction dates as [| d dates IH]; intros cols line; simpl; [tauto |].
  intros [<- | Hin].
  - simpl. apply length_map.
  - rewrite (IH _ _ Hin). apply length_map.
Qed.

Lemma analysis_rows_sorted (rows : list PanelFile.row) :
  StronglySorted (Pd.not_after PanelFile.DATE) (analysis_rows rows).
Proof.
  unfold analysis_rows, drop_missing_return, ranged.
  apply filter_sorted. apply sort_values_sorted.
Qed.

Lemma analysis_rows_dated (rows : list PanelFile.row) (r : PanelFile.row) :
  In r (analysis_rows rows) ->
  exists d, PanelFile.DATE r = Some d
            /\ date_leb START_DATE d = true /\ date_leb d END_DATE = true.
Proof.
  intros Hr. apply analysis_rows_In in Hr. destruct Hr as (_ & Hr & _).
  unfold in_range in Hr. destruct (PanelFile.DATE r) as [d |]; [| discriminate].
  apply andb_true_iff in Hr. exists d. tauto.
Qed.

End RollingTable.

(** X17.  The correlation script is ended by the [KeyError] about [DATE]
    exactly when the panel file has no [DATE] column and by
    [KeyError('RETURN')] exactly when it has [DATE] but no [RETURN]; in both
    cases it has written nothing.  With both columns it writes, in this
    order, the correlation table, the heatmap and the rolling table, and
    then the rolling plot exactly when the panel has a [DAILY_SENTIMENT]
    column. *)
Theorem correlation_outcome
  (corr : list float -> list float -> float)
  (rolling_corr : nat -> list float -> list float -> list float)
  (fmt4 : float -> string) (df : frame PanelFile.row) :
  (raised (BuildCorrelation.main corr rolling_corr fmt4 (Some df) start)
          (KeyError "Expected a DATE column in the panel file.")
   <-> ~ In "DATE" (columns df))
  /\ (raised (BuildCorrelation.main corr rolling_corr fmt4 (Some df) start)
             (KeyError "RETURN")
      <-> In "DATE" (columns df) /\ ~ In "RETURN" (columns df))
  /\ (forall e, raised (BuildCorrelation.main corr rolling_corr fmt4 (Some df) start) e ->
        written (fst (BuildCorrelation.main corr rolling_corr fmt4 (Some df) start)) = [])
  /\ (In "DATE" (columns df) -> In "RETURN" (columns df) ->
      map fst (written (fst (BuildCorrelation.main corr rolling_corr fmt4 (Some df) start)))
      = [BuildCorrelation.CORR_TABLE; BuildCorrelation.CORR_PLOT;
         BuildCorrelation.DAILY_CORR_FILE]
        ++ (if has_column df "DAILY_SENTIMENT"
            then [BuildCorrelation.DAILY_CORR_PLOT] else [])).
Proof.
  destruct (correlation_run corr rolling_corr fmt4 df) as [Hres Hw].
  unfold raised. rewrite Hres, <- !has_column_In.
  destruct (has_column df "DATE"), (has_column df "RETURN"); cbn [negb andb] in *.
  - split; [split; [discriminate | intros H; exfalso; apply H; reflexivity] |].
    split; [split; [discriminate | intros [_ H]; exfalso; apply H; reflexivity] |].
    split; [intros e H; discriminate H | intros _ _; exact Hw].
  - split; [split; [discriminate | intros H; exfalso; apply H; reflexivity] |].
    split; [split; [intros _; split; [reflexivity | discriminate] | reflexivity] |].
    split; [| intros _ H; discriminate H].
    intros e _. destruct (written _); [reflexivity | discriminate Hw].
  - split; [split; [intros _; discriminate | reflexivity] |].
    split; [split; [discriminate | intros [H _]; discriminate H] |].
    split; [| intros H; discriminate H].
    intros e _. destruct (written _); [reflexivity | discriminate Hw].
  - split; [split; [intros _; discriminate | reflexivity] |].
    split; [split; [discriminate | intros [H _]; discriminate H] |].
    split; [| intros H; discriminate H].
    intros e _. destruct (written _); [reflexivity | discriminate Hw].
Qed.

(** X18.  The rolling table the correlation script writes has one line for
    each row of the panel that is dated in the range and has a return, in
    date order; every line is dated, between 8 August and 17 November 2025,
    and has one cell for each sentiment column of the panel. *)
Theorem rolling_table_shape
  (corr : list float -> list float -> float)
  (rolling_corr : nat -> list float -> list float -> list float)
  (fmt4 : float -> string) (df : frame PanelFile.row) :
  has_column df "DATE" = true -> has_column df "RETURN" = true ->
  exists table heatmap body tail,
    written (fst (BuildCorrelation.main corr rolling_corr fmt4 (Some df) start))
    = (BuildCorrelation.CORR_TABLE, table)
      :: (BuildCorrelation.CORR_PLOT, heatmap)
      :: (BuildCorrelation.DAILY_CORR_FILE,
          DatedTable ("DATE" :: map BuildCorrelation.rolling_name
                                    (BuildCorrelation.present df
                                       BuildCorrelation.sentiment_cols)) body)
      :: tail
    /\ map fst body = map PanelFile.DATE (BuildCorrelation.analysis_rows (rows df))
    /\ StronglySorted (Pd.not_after PanelFile.DATE)
                      (BuildCorrelation.analysis_rows (rows df))
    /\ (forall line, In line body ->
          List.length (snd line)
          = List.length (BuildCorrelation.present df BuildCorrelation.sentiment_cols)
          /\ exists d, fst line = Some d
                       /\ date_leb START_DATE d = true /\ date_leb d END_DATE = true).
Proof.
  intros Hd Hr.
  assert (Hp : existsb (String.eqb "RETURN")
                 (BuildCorrelation.present df BuildCorrelation.price_cols) = true)
    by (rewrite (@present_has _ df BuildCorrelation.price_cols "RETURN" return_listed); exact Hr).
  destruct (correlation_tables corr rolling_corr fmt4 df Hd Hp) as [tail Hw].
  eexists _, _, _, tail. split; [exact Hw |].
  split; [apply transpose_onto_dates |].
  split; [apply analysis_rows_sorted |].
  intros line Hline. split.
  - rewrite (transpose_onto_width _ _ _ Hline). apply length_map.
  - assert (Hin : In (fst line) (map PanelFile.DATE
                                     (BuildCorrelation.analysis_rows (rows df)))).
    { rewrite <- (transpose_onto_dates _
                    (map (fun col => rolling_corr BuildCorrelation.ROLL_WINDOW_DAYS
                            (BuildCorrelation.column "RETURN"
                               (BuildCorrelation.analysis_rows (rows df)))
                            (BuildCorrelation.column col
                               (BuildCorrelation.analysis_rows (rows df))))
                         (BuildCorrelation.present df BuildCorrelation.sentiment_cols))).
      apply in_map. exact Hline. }
    apply in_map_iff in Hin. destruct Hin as (r & Hr' & Hin). rewrite <- Hr'.
    apply (analysis_rows_dated _ _ Hin).
Qed.

Lemma rolling_table_shape_witness :
  exists body,
    In (BuildCorrelation.DAILY_CORR_FILE,
        DatedTable ["DATE"; "RCORR_RETURN_DAILY_SENTIMENT_5d"] body)
       (written (fst (BuildCorrelation.main Sample.no_corr (fun _ _ c => c)
                        Sample.show_nan (Some Sample.four_days) start)))
    /\ map fst body
       = [Some (mkDate 2025 9 15); Some (mkDate 2025 9 16);
          Some (mkDate 2025 9 17); Some (mkDate 2025 9 18)].
Proof.
  destruct (@rolling_table_shape Sample.no_corr (fun _ _ c => c) Sample.show_nan
              Sample.four_days)
    as (table & heatmap & body & tail & Hw & Hdates & _).
  - reflexivity.
  - reflexivity.
  - exists body. split.
    + rewrite Hw. right. right. left. reflexivity.
    + rewrite Hdates. reflexivity.
Defined.

(* ===================================================================== *)
(** * The DATE column, read back as a whole                               *)
(* ===================================================================== *)

Section DateColumn.
Import Pd.
Local Open Scope N_scope.

Lemma valid_fields (x : date) :
  valid_date x = true ->
  slash_fields (strftime_dmY x) = Some (day x, month x, year x)
  /\ 1 <= month x <= 12 /\ 1 <= day x <= 31.
Proof.
  destruct x as [y m d]. unfold valid_date. cbn [year month day].
  intros Hv. apply valid_ymd_bounds in Hv. destruct Hv as (Hy & Hm & Hd).
  pose proof (days_in_month_bounds y Hm) as Hdm.
  split; [apply slash_fields_strftime; cbn [year month day]; lia | lia].
Qed.

Lemma strptime_dayfirst_strftime (x : date) :
  valid_date x = true -> strptime DayFirst (strftime_dmY x) = Some x.
Proof.
  intros Hv. destruct (valid_fields x Hv) as (Hf & _).
  unfold strptime. rewrite Hf. unfold valid_date in Hv. rewrite Hv.
  destruct x; reflexivity.
Qed.

Lemma strptime_monthfirst_strftime (x : date) :
  valid_date x = true ->
  strptime MonthFirst (strftime_dmY x)
  = if 12 <? day x then None else Some (mkDate (year x) (day x) (month x)).
Proof.
  intros Hv. destruct (valid_fields x Hv) as (Hf & Hm & Hd).
  unfold strptime. rewrite Hf.
  destruct (N.ltb_spec 12 (day x)) as [Hgt | Hle].
  - replace (valid_ymd (year x) (day x) (month x)) with false; [reflexivity |].
    symmetry. apply not_true_is_false. intros H. apply valid_ymd_bounds in H. lia.
  - replace (valid_ymd (year x) (day x) (month x)) with true; [reflexivity |].
    symmetry. apply valid_ymd_bounds.
    unfold valid_date in Hv. apply valid_ymd_bounds in Hv.
    pose proof (@days_in_month_bounds (year x) (day x)). lia.
Qed.

(** The format inferred from the text of a date. *)
Lemma guess_format_strftime (dayfirst : bool) (x : date) :
  valid_date x = true ->
  guess_datetime_format dayfirst (strftime_dmY x)
  = Some (if (12 <? day x) || dayfirst then DayFirst else MonthFirst).
Proof.
  intros Hv. destruct (valid_fields x Hv) as (Hf & Hm & Hd).
  unfold guess_datetime_format, parse_date. rewrite Hf.
  assert (Hres : resolve_order dayfirst (day x) (month x)
                 = if (12 <? day x) || dayfirst then DayFirst else MonthFirst).
  { unfold resolve_order.
    replace (month x <=? 12) with true by (symmetry; apply N.leb_le; lia).
    rewrite andb_true_r. reflexivity. }
  rewrite Hres.
  destruct ((12 <? day x) || dayfirst) eqn:E.
  - rewrite (strptime_dayfirst_strftime x Hv). reflexivity.
  - rewrite (strptime_monthfirst_strftime x Hv).
    apply orb_false_iff in E. destruct E as [-> _]. reflexivity.
Qed.

Lemma first_valid_text (cells : list (option date)) :
  first_valid (map (option_map strftime_dmY) cells)
  = option_map strftime_dmY (first_valid cells).
Proof.
  induction cells as [| [x |] cells IH]; simpl; [reflexivity | reflexivity | exact IH].
Qed.

Lemma first_valid_In {A : Type} (col : list (option A)) (x : A) :
  first_valid col = Some x -> In (Some x) col.
Proof.
  induction col as [| [y |] col IH]; simpl; [discriminate | |].
  - intros [= ->]. left. reflexivity.
  - intros H. right. apply IH. exact H.
Qed.

Lemma first_valid_none {A : Type} (col : list (option A)) :
  first_valid col = None -> col = map (fun _ => None) col.
Proof.
  induction col as [| [y |] col IH]; simpl; [reflexivity | discriminate |].
  intros H. f_equal. apply IH. exact H.
Qed.

(** A column of date texts as the scorer writes them, some cells empty:
    the format is inferred from the first text and applied to every
    cell. *)
Lemma to_datetime_written (dayfirst : bool) (cells : list (option date)) :
  (forall x, In (Some x) cells -> valid_date x = true) ->
  to_datetime_coerce dayfirst (map (option_map strftime_dmY) cells)
  = match first_valid cells with
    | None => cells
    | Some x0 =>
        if (12 <? day x0) || dayfirst then cells
        else map (fun c => match c with
                           | Some x => if 12 <? day x then None
                                       else Some (mkDate (year x) (day x) (month x))
                           | None => None
                           end) cells
    end.
Proof.
  intros Hv. unfold to_datetime_coerce. rewrite first_valid_text.
  destruct (first_valid cells) as [x0 |] eqn:E0; cbn [option_map].
  - rewrite (guess_format_strftime dayfirst x0 (Hv x0 (first_valid_In _ E0))).
    rewrite map_map.
    destruct ((12 <? day x0) || dayfirst).
    + rewrite <- (map_id cells) at 2. apply map_ext_in.
      intros [x |] Hx; [| reflexivity]. cbn [option_map on_text].
      apply strptime_dayfirst_strftime. apply Hv. exact Hx.
    + apply map_ext_in. intros [x |] Hx; [| reflexivity]. cbn [option_map on_text].
      apply strptime_monthfirst_strftime. apply Hv. exact Hx.
  - rewrite map_map. rewrite (first_valid_none _ E0) at 2. reflexivity.
Qed.

Lemma to_datetime_length (dayfirst : bool) (col : list (option string)) :
  List.length (to_datetime_coerce dayfirst col) = List.length col.
Proof.
  unfold to_datetime_coerce. destruct (first_valid col); [| apply length_map].
  destruct (guess_datetime_format dayfirst s); apply length_map.
Qed.

Lemma fst_combine {A B : Type} (l : list A) :
  forall r : list B, List.length l = List.length r -> map fst (combine l r) = l.
Proof.
  induction l as [| a l IH]; intros [| b r]; simpl; try discriminate; [reflexivity |].
  intros [= H]. rewrite IH; [reflexivity | exact H].
Qed.

End DateColumn.

(** X19.  The word-cloud script reads the [DATE] column of a scored file
    back without loss: when the cells are empty or the [dd/mm/yyyy] text
    of a calendar date, as the scorer writes them, reading the column day
    first gives every date back, and an empty cell stays empty. *)
Theorem wordcloud_dates_round_trip
  (df : frame BuildPanel.News.row) (cells : list (option date)) :
  (forall x, In (Some x) cells -> valid_date x = true) ->
  map BuildPanel.News.DATE (rows df) = map (option_map Pd.strftime_dmY) cells ->
  BuildWordclouds.dates df = cells.
Proof.
  intros Hv Hcol. unfold BuildWordclouds.dates. rewrite Hcol.
  rewrite (to_datetime_written true cells Hv).
  destruct (Pd.first_valid cells); [| reflexivity].
  rewrite orb_true_r. reflexivity.
Qed.

Lemma wordcloud_dates_round_trip_witness :
  BuildWordclouds.dates Sample.scored_file
  = [Some (mkDate 2025 9 15); Some (mkDate 2025 9 16); Some (mkDate 2025 9 15);
     Some (mkDate 2025 9 20); Some (mkDate 2025 9 15)].
Proof.
  apply wordcloud_dates_round_trip.
  - intros x Hx. simpl in Hx.
    destruct Hx as [[= <-] | [[= <-] | [[= <-] | [[= <-] | [[= <-] | []]]]]];
      reflexivity.
  - reflexivity.
Defined.

(** X20.  How the panel builder reads the [DATE] column of a scored file.
    The column is read in the format inferred from its first text.  When
    the first date's day is above 12, every date is read back as it was
    written.  Otherwise the column is read month first: every date whose
    day is above 12 is lost (its row gets no date and belongs to no day of
    the aggregate), and every other date is read with day and month
    exchanged. *)
Theorem panel_dates_column
  (df : frame BuildPanel.News.row) (x0 : date) (rest : list date) :
  Forall (fun x => valid_date x = true) (x0 :: rest) ->
  map BuildPanel.News.DATE (rows df)
  = map (fun x => Some (Pd.strftime_dmY x)) (x0 :: rest) ->
  map fst (BuildPanel.dated df)
  = map (fun x => if (12 <? day x0)%N then Some x
                  else if (12 <? day x)%N then None
                  else Some (mkDate (year x) (day x) (month x))) (x0 :: rest)
  /\ ((12 < day x0)%N -> map fst (BuildPanel.dated df) = map Some (x0 :: rest))
  /\ ((day x0 <= 12)%N ->
      forall k x, nth_error (x0 :: rest) k = Some x -> (12 < day x)%N ->
        nth_error (map fst (BuildPanel.dated df)) k = Some None).
Proof.
  intros Hv Hcol.
  assert (Hcells : map BuildPanel.News.DATE (rows df)
                   = map (option_map Pd.strftime_dmY) (map Some (x0 :: rest)))
    by (rewrite Hcol, map_map; reflexivity).
  assert (Hvalid : forall x, In (Some x) (map Some (x0 :: rest)) -> valid_date x = true).
  { intros x Hx. apply in_map_iff in Hx. destruct Hx as (y & [= ->] & Hy).
    rewrite Forall_forall in Hv. apply Hv. exact Hy. }
  assert (Hdated : map fst (BuildPanel.dated df)
                   = map (fun x => if (12 <? day x0)%N then Some x
                                   else if (12 <? day x)%N then None
                                   else Some (mkDate (year x) (day x) (month x)))
                         (x0 :: rest)).
  { unfold BuildPanel.dated.
    rewrite fst_combine
      by (rewrite to_datetime_length; apply length_map).
    rewrite Hcells, (to_datetime_written false _ Hvalid).
    cbn [map Pd.first_valid]. rewrite orb_false_r.
    destruct (12 <? day x0)%N; [reflexivity |].
    cbn [map]. rewrite map_map. reflexivity. }
  split; [exact Hdated |]. split.
  - intros Hgt. rewrite Hdated.
    replace (12 <? day x0)%N with true by (symmetry; apply N.ltb_lt; exact Hgt).
    reflexivity.
  - intros Hle k x Hk Hx. rewrite Hdated.
    rewrite (map_nth_error _ _ _ Hk).
    replace (12 <? day x0)%N with false by (symmetry; apply N.ltb_ge; exact Hle).
    replace (12 <? day x)%N with true by (symmetry; apply N.ltb_lt; exact Hx).
    reflexivity.
Qed.

Lemma panel_dates_column_witness :
  map fst (BuildPanel.dated Cases.september)
  = [Some (mkDate 2025 5 9); None; Some (mkDate 2025 10 9)].
Proof.
  destruct (@panel_dates_column Cases.september (mkDate 2025 9 5)
              [mkDate 2025 9 15; mkDate 2025 9 10]) as (H & _).
  - repeat constructor.
  - reflexivity.
  - rewrite H. reflexivity.
Defined.

(* ===================================================================== *)
(** * Fetching the news: order and duplicates                             *)
(* ===================================================================== *)

Section FetchedOrder.
Import FetchNews.

Lemma stamp_leb_total (a b : stamp) : stamp_leb a b = false -> stamp_leb b a = true.
Proof.
  unfold stamp_leb. destruct (date_eqb (on a) (on b)) eqn:E.
  - apply date_eqb_eq in E. rewrite E, date_eqb_refl.
    intros H. apply N.leb_gt in H. apply N.leb_le. lia.
  - intros H. destruct (date_eqb (on b) (on a)) eqn:E'.
    + apply date_eqb_eq in E'. rewrite E', date_eqb_refl in E. discriminate.
    + apply date_leb_total. exact H.
Qed.

Lemma stamp_leb_trans (a b c : stamp) :
  stamp_leb a b = true -> stamp_leb b c = true -> stamp_leb a c = true.
Proof.
  unfold stamp_leb.
  destruct (date_eqb (on a) (on b)) eqn:Eab.
  - apply date_eqb_eq in Eab. rewrite Eab.
    destruct (date_eqb (on b) (on c)); [| tauto].
    intros H1 H2. apply N.leb_le in H1, H2. apply N.leb_le. lia.
  - destruct (date_eqb (on b) (on c)) eqn:Ebc.
    + apply date_eqb_eq in Ebc. rewrite <- Ebc, Eab. tauto.
    + intros H1 H2. destruct (date_eqb (on a) (on c)) eqn:Eac.
      * apply date_eqb_eq in Eac. rewrite <- Eac in H2.
        rewrite (date_leb_antisym _ _ H1 H2), date_eqb_refl in Eab. discriminate.
      * exact (date_leb_trans _ _ _ H1 H2).
Qed.

Lemma fetch_insert_perm (r : News.row) (l : list News.row) :
  Permutation (insert_row r l) (r :: l).
Proof.
  induction l as [| x l IH]; simpl; [reflexivity |].
  destruct (stamp_leb _ _); [reflexivity |].
  rewrite IH. apply perm_swap.
Qed.

Lemma fetch_sort_perm (l : list News.row) : Permutation (sort_values l) l.
Proof.
  induction l as [| x l IH]; simpl; [reflexivity |].
  rewrite fetch_insert_perm, IH. reflexivity.
Qed.

Lemma fetch_insert_sorted (r : News.row) (l : list News.row) :
  StronglySorted not_after l -> StronglySorted not_after (insert_row r l).
Proof.
  induction 1 as [| x l Hs IH Hall]; simpl.
  - constructor; constructor.
  - destruct (stamp_leb (News.TIMESTAMP r) (News.TIMESTAMP x)) eqn:E.
    + constructor; [constructor; assumption |].
      constructor; [exact E |].
      rewrite Forall_forall in Hall |- *. intros y Hy.
      exact (stamp_leb_trans _ _ _ E (Hall y Hy)).
    + constructor; [exact IH |].
      rewrite Forall_forall in Hall |- *. intros y Hy.
      apply (Permutation_in _ (fetch_insert_perm r l)) in Hy.
      destruct Hy as [<- | Hy]; [apply stamp_leb_total; exact E | auto].
Qed.

Lemma fetch_sort_sorted (l : list News.row) :
  StronglySorted not_after (sort_values l).
Proof.
  induction l as [| x l IH]; simpl; [constructor |].
  apply fetch_insert_sorted. exact IH.
Qed.

(** ** Duplicates *)

Lemma id_eqb_eq (a b : option string) : id_eqb a b = true <-> a = b.
Proof.
  destruct a as [x |], b as [y |]; simpl; try (split; discriminate).
  - rewrite String.eqb_eq. split; [intros ->; reflexivity | intros [= ->]; reflexivity].
  - tauto.
Qed.

Lemma seen_In (k : option string) (seen : list (option string)) :
  existsb (id_eqb k) seen = true <-> In k seen.
Proof.
  rewrite existsb_exists. split.
  - intros (x & Hx & E). apply id_eqb_eq in E. subst x. exact Hx.
  - intros H. exists k. split; [exact H | apply id_eqb_eq; reflexivity].
Qed.

Lemma seen_not_In (k : option string) (seen : list (option string)) :
  existsb (id_eqb k) seen = false <-> ~ In k seen.
Proof.
  rewrite <- seen_In. destruct (existsb (id_eqb k) seen); split; congruence.
Qed.

Lemma kept_In (l : list News.row) :
  forall seen x, In x (drop_duplicates_from seen l) ->
                 In x l /\ ~ In (News.STORY_ID x) seen.
Proof.
  induction l as [| y l IH]; intros seen x; simpl; [tauto |].
  destruct (existsb (id_eqb (News.STORY_ID y)) seen) eqn:E.
  - intros H. destruct (IH _ _ H). tauto.
  - intros [<- | H].
    + split; [left; reflexivity | apply seen_not_In; exact E].
    + destruct (IH _ _ H) as [H1 H2]. split; [right; exact H1 |].
      intros Hs. apply H2. right. exact Hs.
Qed.

Lemma kept_NoDup (l : list News.row) :
  forall seen, NoDup (map News.STORY_ID (drop_duplicates_from seen l)).
Proof.
  induction l as [| y l IH]; intros seen; simpl; [constructor |].
  destruct (existsb (id_eqb (News.STORY_ID y)) seen); [apply IH |].
  cbn [map]. constructor; [| apply IH].
  intros Hin. apply in_map_iff in Hin. destruct Hin as (x & Hx & Hin).
  apply kept_In in Hin. destruct Hin as [_ Hn]. apply Hn. left. symmetry. exact Hx.
Qed.

Lemma kept_complete (l : list News.row) :
  forall seen y, In y l ->
    In (News.STORY_ID y) seen
    \/ exists x, In x (drop_duplicates_from seen l)
                 /\ News.STORY_ID x = News.STORY_ID y.
Proof.
  induction l as [| z l IH]; intros seen y; simpl; [tauto |].
  destruct (existsb (id_eqb (News.STORY_ID z)) seen) eqn:E.
  - intros [<- | H]; [left; apply seen_In; exact E | apply IH; exact H].
  - intros [<- | H].
    + right. exists z. split; [left; reflexivity | reflexivity].
    + destruct (IH (News.STORY_ID z :: seen) y H) as [[Hz | Hs] | (x & Hx & Hid)].
      * right. exists z. split; [left; reflexivity | exact Hz].
      * left. exact Hs.
      * right. exists x. split; [right; exact Hx | exact Hid].
Qed.

(** The row kept for a story id is the first row of that id. *)
Lemma kept_first (l : list News.row) :
  forall seen x, In x (drop_duplicates_from seen l) ->
    exists l1 l2, l = l1 ++ x :: l2
                  /\ forall z, In z l1 -> News.STORY_ID z <> News.STORY_ID x.
Proof.
  induction l as [| y l IH]; intros seen x; simpl; [tauto |].
  destruct (existsb (id_eqb (News.STORY_ID y)) seen) eqn:E.
  - intros H. pose proof (kept_In _ _ _ H) as [_ Hn].
    destruct (IH _ _ H) as (l1 & l2 & -> & Hl1).
    exists (y :: l1), l2. split; [reflexivity |].
    intros z [<- | Hz]; [| apply Hl1; exact Hz].
    intros Heq. apply Hn. rewrite <- Heq. apply seen_In. exact E.
  - intros [<- | H].
    + exists [], l. split; [reflexivity | intros z []].
    + pose proof (kept_In _ _ _ H) as [_ Hn].
      destruct (IH _ _ H) as (l1 & l2 & -> & Hl1).
      exists (y :: l1), l2. split; [reflexivity |].
      intros z [<- | Hz]; [| apply Hl1; exact Hz].
      intros Heq. apply Hn. left. exact Heq.
Qed.

End FetchedOrder.

(* ===================================================================== *)
(** * Fetching the news: the run                                          *)
(* ===================================================================== *)

Section FetchRun.
Import FetchNews.
Variable parse : string -> option stamp.



Lemma fetch_run (res : api_frame) (indexed : frame SentimentFinbert.raw_row) :
  api_empty res = false -> reset_index res = inr indexed ->
  has_column (renamed res indexed) "TIMESTAMP" = true ->
  Pd.dtype_eqb (Pd.date_dtype (date_column parse (renamed res indexed)))
               Pd.datetime64 = false ->
  exists out,
    main parse res start = (out, inr tt)
    /\ written out
       = [(out_file,
           mkFrame (kept_columns (columns (renamed res indexed)))
                   (sort_values
                      (if existsb (String.eqb "STORY_ID")
                                  (kept_columns (columns (renamed res indexed)))
                       then drop_duplicates (news_rows parse (renamed res indexed))
                       else news_rows parse (renamed res indexed))))].
Proof.
  intros He Hr Ht Hd.
  cbv beta iota zeta delta [main bind print lift to_csv raise ret start].
  rewrite He, Hr, Ht, Hd. cbn [negb]. cbv iota.
  eexists. split; reflexivity.
Qed.


Lemma fetch_written (res : api_frame) (path : string) (out : F) :
  In (path, out) (written (fst (main parse res start))) ->
  exists indexed,
    api_empty res = false /\ reset_index res = inr indexed
    /\ has_column (renamed res indexed) "TIMESTAMP" = true
    /\ Pd.dtype_eqb (Pd.date_dtype (date_column parse (renamed res indexed)))
                    Pd.datetime64 = false.
Proof.
  cbv beta iota zeta delta [main bind print lift to_csv raise ret start].
  destruct (api_empty res); [simpl; tauto |].
  destruct (reset_index res) as [e | indexed]; [simpl; tauto |].
  destruct (has_column (renamed res indexed) "TIMESTAMP") eqn:Ht; cbn [negb]; cbv iota;
    [| simpl; tauto].
  destruct (Pd.dtype_eqb _ _) eqn:Hd; [simpl; tauto |].
  intros _. exists indexed. auto.
Qed.

Lemma news_row_facts (df : frame SentimentFinbert.raw_row) (x : News.row) :
  In x (news_rows parse df) ->
  News.DATE x = on (News.TIMESTAMP x)
  /\ date_leb START_DATE (News.DATE x) = true
  /\ date_leb (News.DATE x) END_DATE = true
  /\ News.RIC x = RIC.
Proof.
  unfold news_rows, in_range_rows. intros H. apply in_map_iff in H.
  destruct H as (p & <- & Hp). apply filter_In in Hp. destruct Hp as [_ Hr].
  unfold in_range in Hr. apply andb_true_iff in Hr. simpl. tauto.
Qed.

End FetchRun.

Section FetchedHeader.
Import FetchNews.

Lemma set_column_mem (c name : string) (cols : list string) :
  existsb (String.eqb c) (SentimentFinbert.set_column name cols)
  = String.eqb c name || existsb (String.eqb c) cols.
Proof.
  unfold SentimentFinbert.set_column.
  destruct (existsb (String.eqb name) cols) eqn:E.
  - destruct (String.eqb_spec c name) as [-> | _]; [rewrite E |]; reflexivity.
  - rewrite existsb_app. simpl. rewrite orb_false_r. apply orb_comm.
Qed.

(** The header of the fetched file: [TIMESTAMP] and [DATE], those of
    [HEADLINE], [SOURCE] and [STORY_ID] that the renamed frame has, and
    [RIC]. *)
Lemma kept_columns_shape (cols : list string) :
  existsb (String.eqb "TIMESTAMP") cols = true ->
  kept_columns cols
  = "TIMESTAMP" :: "DATE"
    :: filter (fun c => existsb (String.eqb c) cols) ["HEADLINE"; "SOURCE"; "STORY_ID"]
    ++ ["RIC"].
Proof.
  intros Ht. unfold kept_columns, keep_cols. cbn [filter].
  rewrite !set_column_mem, Ht.
  generalize (existsb (String.eqb "HEADLINE") cols),
    (existsb (String.eqb "SOURCE") cols), (existsb (String.eqb "STORY_ID") cols).
  intros [|] [|] [|]; reflexivity.
Qed.

Lemma kept_columns_In (cols : list string) (c : string) :
  In c (kept_columns cols) -> In c keep_cols.
Proof. unfold kept_columns. intros H. apply filter_In in H. tauto. Qed.

Lemma kept_columns_story (cols : list string) :
  existsb (String.eqb "STORY_ID") (kept_columns cols)
  = existsb (String.eqb "STORY_ID") cols.
Proof.
  unfold kept_columns, keep_cols. cbn [filter].
  rewrite !set_column_mem.
  generalize (existsb (String.eqb "TIMESTAMP") cols),
    (existsb (String.eqb "HEADLINE") cols),
    (existsb (String.eqb "SOURCE") cols), (existsb (String.eqb "STORY_ID") cols).
  intros [|] [|] [|] [|]; reflexivity.
Qed.

End FetchedHeader.

Section FetchOutcome.
Import FetchNews.
Variable parse : string -> option stamp.











(** The file a run has written. *)
Lemma fetch_written_file (res : api_frame) (path : string) (out : F) :
  In (path, out) (written (fst (main parse res start))) ->
  exists indexed,
    reset_index res = inr indexed
    /\ has_column (renamed res indexed) "TIMESTAMP" = true
    /\ path = out_file
    /\ columns out = kept_columns (columns (renamed res indexed))
    /\ rows out
       = sort_values
           (if existsb (String.eqb "STORY_ID")
                       (kept_columns (columns (renamed res indexed)))
            then drop_duplicates (news_rows parse (renamed res indexed))
            else news_rows parse (renamed res indexed)).
Proof.
  intros Hw.
  destruct (@fetch_written parse res path out Hw) as (indexed & He & Hr & Ht & Hd).
  destruct (@fetch_run parse res indexed He Hr Ht Hd) as (w & Hrun & Hfile).
  rewrite Hrun in Hw. cbn [fst] in Hw. rewrite Hfile in Hw.
  destruct Hw as [[= <- <-] | []].
  exists indexed. repeat (split; [assumption || reflexivity |]). reflexivity.
Qed.

End FetchOutcome.


(** An answer none of whose timestamps parses: the run is ended by the
    date filter and writes nothing. *)
Lemma fetch_undated_answer_raises :
  FetchNews.main Cases.iso_stamp Cases.undated_answer start
  = (mkWorld ["Session opened for news."; "Query Used:";
              "R:AAPL.O AND Language:EN"] [],
     inl (TypeError "Invalid comparison between dtype=datetime64[ns] and date")).
Proof. reflexivity. Qed.

(** X22.  For an answer whose column names are distinct after the
    renamings: every row of the fetched file has a timestamp, the calendar
    date of that timestamp as its [DATE], a date between 10 August and
    22 November 2025, and the RIC [AAPL.O]; the rows are in timestamp
    order; each comes from a row of the answer that has a timestamp in the
    range, and when the file has no [STORY_ID] column its rows are exactly
    those rows, rearranged. *)
Theorem fetched_rows_in_range_and_order
  (parse : string -> option FetchNews.stamp) (res : FetchNews.api_frame)
  (path : string) (out : FetchNews.F) :
  NoDup (map (FetchNews.relabel res)
             (FetchNews.index_column res :: FetchNews.api_columns res)) ->
  In (path, out) (written (fst (FetchNews.main parse res start))) ->
  path = FetchNews.out_file
  /\ StronglySorted FetchNews.not_after (rows out)
  /\ (forall x, In x (rows out) ->
        FetchNews.News.DATE x = FetchNews.on (FetchNews.News.TIMESTAMP x)
        /\ date_leb FetchNews.START_DATE (FetchNews.News.DATE x) = true
        /\ date_leb (FetchNews.News.DATE x) FetchNews.END_DATE = true
        /\ FetchNews.News.RIC x = "AAPL.O")
  /\ exists indexed,
       FetchNews.reset_index res = inr indexed
       /\ (forall x, In x (rows out) ->
             In x (FetchNews.news_rows parse (FetchNews.renamed res indexed)))
       /\ (~ In "STORY_ID" (columns out) ->
           Permutation (rows out)
                       (FetchNews.news_rows parse (FetchNews.renamed res indexed))).
Proof.
  intros _ Hw.
  destruct (@fetch_written_file parse res path out Hw)
    as (indexed & Hr & Ht & Hpath & Hcols & Hrows).
  set (df := FetchNews.renamed res indexed) in *.
  assert (Hfrom : forall x, In x (rows out) -> In x (FetchNews.news_rows parse df)).
  { intros x Hx. rewrite Hrows in Hx.
    apply (Permutation_in _ (fetch_sort_perm _)) in Hx.
    destruct (existsb _ _); [| exact Hx].
    apply kept_In in Hx. tauto. }
  split; [exact Hpath |].
  split; [rewrite Hrows; apply fetch_sort_sorted |].
  split; [intros x Hx; apply (@news_row_facts parse df x (Hfrom x Hx)) |].
  exists indexed. split; [exact Hr |]. split; [exact Hfrom |].
  intros Hno. rewrite Hcols, <- existsb_eqb_In in Hno. rewrite Hrows.
  destruct (existsb _ _); [exfalso; apply Hno; reflexivity |].
  apply fetch_sort_perm.
Qed.

Lemma fetched_rows_in_range_and_order_witness :
  exists out,
    written (fst (FetchNews.main Cases.iso_stamp Cases.api_answer start))
    = [(FetchNews.out_file, out)]
    /\ StronglySorted FetchNews.not_after (rows out)
    /\ map FetchNews.News.DATE (rows out) = [mkDate 2025 9 16; mkDate 2025 9 17].
Proof.
  eexists. split; [reflexivity |].
  destruct (@fetched_rows_in_range_and_order Cases.iso_stamp Cases.api_answer
              FetchNews.out_file
              (snd (nth 0 (written (fst (FetchNews.main Cases.iso_stamp
                                           Cases.api_answer start)))
                        (EmptyString, mkFrame [] []))))
    as (_ & Hs & _).
  - repeat (constructor; [simpl; intuition discriminate |]). constructor.
  - left. reflexivity.
  - split; [exact Hs | reflexivity].
Defined.

(** X23.  For an answer whose column names are distinct after the
    renamings: when the fetched file has a [STORY_ID] column, no story id
    occurs twice in it; every story id of a row of the answer that has a
    timestamp in the range occurs in it; and the row kept for a story id is
    the first such row in the order of the answer, not the earliest by
    timestamp. *)
Theorem fetched_stories_once
  (parse : string -> option FetchNews.stamp) (res : FetchNews.api_frame)
  (path : string) (out : FetchNews.F) :
  NoDup (map (FetchNews.relabel res)
             (FetchNews.index_column res :: FetchNews.api_columns res)) ->
  In (path, out) (written (fst (FetchNews.main parse res start))) ->
  In "STORY_ID" (columns out) ->
  NoDup (map FetchNews.News.STORY_ID (rows out))
  /\ exists indexed,
       FetchNews.reset_index res = inr indexed
       /\ (forall y, In y (FetchNews.news_rows parse (FetchNews.renamed res indexed)) ->
             exists x, In x (rows out)
                       /\ FetchNews.News.STORY_ID x = FetchNews.News.STORY_ID y)
       /\ (forall x, In x (rows out) ->
             exists l1 l2,
               FetchNews.news_rows parse (FetchNews.renamed res indexed)
               = l1 ++ x :: l2
               /\ forall z, In z l1 ->
                    FetchNews.News.STORY_ID z <> FetchNews.News.STORY_ID x).
Proof.
  intros _ Hw Hid.
  destruct (@fetch_written_file parse res path out Hw)
    as (indexed & Hr & Ht & Hpath & Hcols & Hrows).
  set (df := FetchNews.renamed res indexed) in *.
  rewrite Hcols in Hid. apply existsb_eqb_In in Hid. rewrite Hid in Hrows.
  pose proof (fetch_sort_perm (FetchNews.drop_duplicates (FetchNews.news_rows parse df)))
    as Hperm.
  rewrite <- Hrows in Hperm.
  split.
  - apply (Permutation_NoDup (Permutation_map _ (Permutation_sym Hperm))).
    apply kept_NoDup.
  - exists indexed. split; [exact Hr |]. split.
    + intros y Hy.
      destruct (@kept_complete (FetchNews.news_rows parse df) [] y Hy)
        as [[] | (x & Hx & Hxy)].
      exists x. split; [| exact Hxy].
      apply (Permutation_in _ (Permutation_sym Hperm)). exact Hx.
    + intros x Hx. apply (Permutation_in _ Hperm) in Hx.
      apply (@kept_first _ _ _ Hx).
Qed.

Lemma fetched_stories_once_witness :
  exists out,
    written (fst (FetchNews.main Cases.iso_stamp Cases.api_answer start))
    = [(FetchNews.out_file, out)]
    /\ NoDup (map FetchNews.News.STORY_ID (rows out))
    /\ map FetchNews.News.HEADLINE (rows out)
       = [Some "Apple shares fall (update)"; Some "iPhone"].
Proof.
  eexists. split; [reflexivity |].
  destruct (@fetched_stories_once Cases.iso_stamp Cases.api_answer
              FetchNews.out_file
              (snd (nth 0 (written (fst (FetchNews.main Cases.iso_stamp
                                           Cases.api_answer start)))
                        (EmptyString, mkFrame [] []))))
    as (Hnd & _).
  - repeat (constructor; [simpl; intuition discriminate |]). constructor.
  - left. reflexivity.
  - simpl. tauto.
  - split; [exact Hnd | reflexivity].
Defined.

(** X24.  For an answer whose column names are distinct after the
    renamings: the header of the fetched file is [TIMESTAMP], [DATE], then those
    of [HEADLINE], [SOURCE] and [STORY_ID] that the answer has after the
    renaming, then [RIC]; no other column of the answer is kept.  So the
    scorer, run on a file with this header, never ends in the [KeyError]
    about [TIMESTAMP], and it finds its headline column, which is then
    [HEADLINE], exactly when the fetched file has one: a [title] column of
    the answer is not kept and does not help. *)
Theorem fetched_file_feeds_scorer
  (parse : string -> option FetchNews.stamp) (res : FetchNews.api_frame)
  (path : string) (out : FetchNews.F)
  (parse_date : string -> option date) (model : SentimentFinbert.finbert)
  (news : list SentimentFinbert.raw_row) :
  NoDup (map (FetchNews.relabel res)
             (FetchNews.index_column res :: FetchNews.api_columns res)) ->
  In (path, out) (written (fst (FetchNews.main parse res start))) ->
  (exists indexed,
     FetchNews.reset_index res = inr indexed
     /\ columns out
        = "TIMESTAMP" :: "DATE"
          :: filter (fun c => has_column (FetchNews.renamed res indexed) c)
                    ["HEADLINE"; "SOURCE"; "STORY_ID"]
          ++ ["RIC"])
  /\ (forall c, In c (columns out) -> In c FetchNews.keep_cols)
  /\ (raised (SentimentFinbert.main parse_date model
                (Some (mkFrame (columns out) news)) start)
             SentimentFinbert.timestamp_error -> False)
  /\ (In "HEADLINE" (columns out) ->
      SentimentFinbert.find_headline_column (columns out) = inr "HEADLINE")
  /\ (~ In "HEADLINE" (columns out) ->
      SentimentFinbert.find_headline_column (columns out)
      = inl (SentimentFinbert.headline_error (columns out))).
Proof.
  intros _ Hw.
  destruct (@fetch_written_file parse res path out Hw)
    as (indexed & Hr & Ht & Hpath & Hcols & Hrows).
  set (df := FetchNews.renamed res indexed) in *.
  pose proof (@kept_columns_shape (columns df) Ht) as Hshape.
  rewrite <- Hcols in Hshape.
  assert (Hkeep : forall c, In c (columns out) -> In c FetchNews.keep_cols)
    by (intros c; rewrite Hcols; apply kept_columns_In).
  split; [exists indexed; split; [exact Hr | exact Hshape] |].
  split; [exact Hkeep |].
  split.
  - intros Hraised. apply main_timestamp_error_only in Hraised.
    destruct Hraised as (col & _ & _ & Hno).
    unfold has_column in Hno. cbn [columns] in Hno. rewrite Hshape in Hno.
    cbn [existsb] in Hno. rewrite String.eqb_refl in Hno. discriminate Hno.
  - split.
    + intros Hh. unfold SentimentFinbert.find_headline_column,
        SentimentFinbert.HEADLINE_COL_CANDIDATES. cbn [find].
      apply existsb_eqb_In in Hh. rewrite Hh. reflexivity.
    + intros Hno. apply find_headline_column_error. intros c Hc Hin.
      specialize (Hkeep c Hin). unfold SentimentFinbert.HEADLINE_COL_CANDIDATES in Hc.
      unfold FetchNews.keep_cols in Hkeep. simpl in Hc, Hkeep.
      destruct Hc as [<- | [<- | [<- | [<- | []]]]];
        try (apply Hno; exact Hin);
        repeat (destruct Hkeep as [Hkeep | Hkeep]; [discriminate Hkeep |]);
        contradiction.
Qed.

Lemma fetched_file_feeds_scorer_witness :
  exists out,
    written (fst (FetchNews.main Cases.iso_stamp Cases.api_answer start))
    = [(FetchNews.out_file, out)]
    /\ columns out = ["TIMESTAMP"; "DATE"; "HEADLINE"; "STORY_ID"; "RIC"]
    /\ SentimentFinbert.find_headline_column (columns out) = inr "HEADLINE".
Proof.
  eexists. split; [reflexivity |].
  destruct (@fetched_file_feeds_scorer Cases.iso_stamp Cases.api_answer
              FetchNews.out_file
              (snd (nth 0 (written (fst (FetchNews.main Cases.iso_stamp
                                           Cases.api_answer start)))
                        (EmptyString, mkFrame [] [])))
              Sample.iso_date Sample.constant_model [])
    as (_ & _ & _ & Hh & _).
  - repeat (constructor; [simpl; intuition discriminate |]). constructor.
  - left. reflexivity.
  - split; [reflexivity |]. apply Hh. simpl. tauto.
Defined.

(* ===================================================================== *)
(** * Fetching the prices                                                 *)
(* ===================================================================== *)

Section FetchedPrices.
Import FetchPrices.

Lemma fetch_prices_written (res : FetchNews.api_frame) (path : string) (file : F) :
  In (path, file) (written (fst (main res start))) ->
  path = out /\ with_timestamp res = inr file /\ rows file <> [].
Proof.
  cbv beta iota zeta delta [main bind print lift to_csv raise ret start].
  destruct (with_timestamp res) as [e | df]; [simpl; tauto |].
  destruct (rows df) as [| r rs] eqn:Er; [simpl; tauto |].
  cbn [fst written app]. intros [[= <- <-] | []].
  split; [reflexivity |]. split; [reflexivity |]. rewrite Er. discriminate.
Qed.

Lemma to_timestamp_In (key : string) (cols : list string) :
  In "TIMESTAMP" (map (to_timestamp key) cols)
  <-> In key cols \/ In "TIMESTAMP" cols.
Proof.
  rewrite in_map_iff. unfold to_timestamp. split.
  - intros (c & Hc & Hin). revert Hc.
    destruct (String.eqb_spec c key) as [-> | _]; intros Hc.
    + left. exact Hin.
    + subst c. right. exact Hin.
  - intros [H | H].
    + exists key. rewrite String.eqb_refl. auto.
    + exists "TIMESTAMP". split; [| exact H].
      destruct (String.eqb "TIMESTAMP" key); reflexivity.
Qed.

(** The file has a [TIMESTAMP] column unless the index had no name and
    the answer has neither a [DATE] nor a [TIMESTAMP] column. *)
Lemma with_timestamp_header (res : FetchNews.api_frame)
  (file : frame SentimentFinbert.raw_row) :
  with_timestamp res = inr file ->
  (In "TIMESTAMP" (columns file)
   <-> FetchNews.index_name res <> None
       \/ In "DATE" (FetchNews.api_columns res)
       \/ In "TIMESTAMP" (FetchNews.api_columns res)).
Proof.
  unfold with_timestamp.
  destruct (FetchNews.index_name res) as [n |] eqn:En.
  - unfold FetchNews.reset_index, FetchNews.index_column. rewrite En.
    destruct (existsb _ _); [discriminate |].
    cbn [rbind]. intros [= <-]. cbn [columns rename].
    rewrite to_timestamp_In. split; [intros _; left; discriminate |].
    intros _. left. left. reflexivity.
  - destruct (existsb (String.eqb "DATE") (FetchNews.api_columns res)) eqn:Ed.
    + intros [= <-]. cbn [columns rename]. rewrite to_timestamp_In.
      apply existsb_eqb_In in Ed. split; [| tauto].
      intros _. right. left. exact Ed.
    + intros [= <-]. cbn [columns]. split; [tauto |].
      intros [H | [H | H]]; [congruence | | exact H].
      apply existsb_eqb_In in H. congruence.
Qed.

End FetchedPrices.

(** X25.  The price fetcher writes its file only when the answer has at
    least one row.  The file has a [TIMESTAMP] column exactly when the
    index of the answer had a name, whatever the name, or the answer has a
    [DATE] or [TIMESTAMP] column; so [load_prices], reading a file with
    the header of a fetched file, raises [KeyError('TIMESTAMP')] exactly
    when the index had no name and the answer has neither column. *)
Theorem fetched_prices_load
  (res : FetchNews.api_frame) (path : string) (file : FetchPrices.F)
  (parse : string -> option date) (bars : list BuildPanel.Price.csv_row) :
  In (path, file) (written (fst (FetchPrices.main res start))) ->
  path = FetchPrices.out
  /\ rows file <> []
  /\ (In "TIMESTAMP" (columns file)
      <-> FetchNews.index_name res <> None
          \/ In "DATE" (FetchNews.api_columns res)
          \/ In "TIMESTAMP" (FetchNews.api_columns res))
  /\ (BuildPanel.load_prices parse (mkFrame (columns file) bars)
      = inl (KeyError "TIMESTAMP")
      <-> FetchNews.index_name res = None
          /\ ~ In "DATE" (FetchNews.api_columns res)
          /\ ~ In "TIMESTAMP" (FetchNews.api_columns res)).
Proof.
  intros Hw. destruct (fetch_prices_written res path file Hw) as (Hp & Hwith & Hrows).
  pose proof (with_timestamp_header res Hwith) as Hts.
  split; [exact Hp |]. split; [exact Hrows |]. split; [exact Hts |].
  rewrite load_prices_no_timestamp. cbn [columns]. rewrite Hts.
  destruct (FetchNews.index_name res) as [n |].
  - split; [intros H; exfalso; apply H; left; discriminate |].
    intros [H _]. discriminate H.
  - split.
    + intros H. split; [reflexivity |]. split; intros Hin; apply H; tauto.
    + intros (_ & H1 & H2) [H | [H | H]]; [congruence | exact (H1 H) | exact (H2 H)].
Qed.

Lemma fetched_prices_load_witness :
  exists file,
    written (fst (FetchPrices.main Cases.price_answer start))
    = [(FetchPrices.out, file)]
    /\ columns file = ["TIMESTAMP"; "TRDPRC_1"; "ACVOL_UNS"]
    /\ In "TIMESTAMP" (columns file).
Proof.
  eexists. split; [reflexivity |]. split; [reflexivity |].
  destruct (@fetched_prices_load Cases.price_answer FetchPrices.out
              (snd (nth 0 (written (fst (FetchPrices.main Cases.price_answer start)))
                        (EmptyString, mkFrame [] [])))
              Sample.iso_date [])
    as (_ & _ & Hts & _).
  - left. reflexivity.
  - apply Hts. left. discriminate.
Defined.

(* ===================================================================== *)
(** * The probability columns of the scored file                          *)
(* ===================================================================== *)

Section WrittenProbabilities.
Import SentimentFinbert.

(** A run that wrote a file found its columns and at least one headline. *)
Lemma main_written_conditions parse model input path (out : frame scored_row) :
  In (path, out) (written (fst (main parse model input start))) ->
  exists df col,
    input = Some df
    /\ find_headline_column (columns df) = inr col
    /\ has_column df "TIMESTAMP" = true
    /\ rows (dropna_subset col df) <> [].
Proof.
  destruct input as [df |]; [| simpl; tauto].
  cbv beta iota zeta delta [main add_date_from_timestamp bind print lift
    to_csv raise ret start].
  destruct (find_headline_column (columns df)) as [e | col] eqn:Ecol; [simpl; tauto |].
  destruct (empty (dropna_subset col df)) eqn:Eempty; [simpl; tauto |].
  change (has_column (dropna_subset col df) "TIMESTAMP") with (has_column df "TIMESTAMP").
  destruct (has_column df "TIMESTAMP") eqn:Ets; cbn [negb]; cbv iota; [| simpl; tauto].
  intros _. exists df, col.
  split; [reflexivity |]. split; [exact Ecol |]. split; [exact Ets |].
  intros Hr. unfold empty in Eempty. rewrite Hr in Eempty. discriminate.
Qed.

(** What [load_finbert] returns for a table with distinct ids. *)
Lemma loaded_model (probs : list string -> list (list Q))
  (id2label : list (nat * string)) (m : finbert) :
  LoadFinbert.load_finbert probs id2label = inr m ->
  NoDup (map fst id2label) ->
  probs_of_batch m = probs
  /\ NoDup [pos_idx m; neg_idx m; neu_idx m]
  /\ In (pos_idx m) (map fst id2label)
  /\ In (neg_idx m) (map fst id2label)
  /\ In (neu_idx m) (map fst id2label).
Proof.
  intros Hload Hnd. unfold LoadFinbert.load_finbert, rbind in Hload.
  destruct (LoadFinbert.index_of _ "positive") as [e | p] eqn:Ep; [discriminate |].
  destruct (LoadFinbert.index_of _ "negative") as [e | n] eqn:En; [discriminate |].
  destruct (LoadFinbert.index_of _ "neutral") as [e | u] eqn:Eu; [discriminate |].
  injection Hload as <-. cbn [probs_of_batch pos_idx neg_idx neu_idx].
  apply index_of_found in Ep, En, Eu.
  destruct Ep as (vp & Hp & Lp), En as (vn & Hn & Ln), Eu as (vu & Hu & Lu).
  assert (Hpn : p <> n).
  { intros ->. rewrite (@one_label id2label _ _ _ Hnd Hp Hn) in Lp. congruence. }
  assert (Hpu : p <> u).
  { intros ->. rewrite (@one_label id2label _ _ _ Hnd Hp Hu) in Lp. congruence. }
  assert (Hnu : n <> u).
  { intros ->. rewrite (@one_label id2label _ _ _ Hnd Hn Hu) in Ln. congruence. }
  split; [reflexivity |]. split.
  - constructor; [simpl; intuition congruence |].
    constructor; [simpl; intuition congruence |].
    constructor; [simpl; tauto | constructor].
  - split; [apply (in_map fst _ _ Hp) |].
    split; [apply (in_map fst _ _ Hn) | apply (in_map fst _ _ Hu)].
Qed.

Local Open Scope Q_scope.

Lemma nth_nonneg (row : list Q) (i : nat) :
  Forall (fun x => 0 <= x) row -> 0 <= nth i row 0.
Proof.
  intros H. revert i. induction H as [| x row Hx Hall IH]; intros [| i]; simpl;
    try apply Qle_refl; [exact Hx | apply IH].
Qed.

Lemma shares_of_one (p n u : Q) :
  0 <= p -> 0 <= n -> 0 <= u -> p + n + u == 1 ->
  p <= 1 /\ n <= 1 /\ u <= 1 /\ Qabs (score p n) <= 1 - u.
Proof.
  intros Hp Hn Hu Hs. unfold score.
  repeat split; try lra.
  apply Qabs_Qle_condition. split; lra.
Qed.

End WrittenProbabilities.

(** X26.  From the label table to the file: with a model loaded by
    [load_finbert] from a table of three distinct ids 0, 1 and 2, and a
    classifier that gives each text three non-negative numbers that add up
    to one, every row of the scored file has probabilities between 0 and 1
    that add up to one, and a score whose size is at most one minus the
    neutral probability. *)
Theorem written_probabilities_add_up
  (parse : string -> option date)
  (probs : list string -> list (list Q)) (id2label : list (nat * string))
  (model : SentimentFinbert.finbert) (classify : string -> list Q)
  (input : option (frame SentimentFinbert.raw_row))
  (path : string) (out : frame SentimentFinbert.scored_row)
  (r : SentimentFinbert.scored_row) :
  LoadFinbert.load_finbert probs id2label = inr model ->
  NoDup (map fst id2label) ->
  (forall k, In k (map fst id2label) -> k < 3) ->
  (forall batch, probs batch = map classify batch) ->
  (forall t, List.length (classify t) = 3
             /\ Forall (fun x => (0 <= x)%Q) (classify t)
             /\ (Spec.Qsum (classify t) == 1)%Q) ->
  In (path, out) (written (fst (SentimentFinbert.main parse model input start))) ->
  In r (rows out) ->
  (SentimentFinbert.FINBERT_POS r + SentimentFinbert.FINBERT_NEG r
   + SentimentFinbert.FINBERT_NEU r == 1)%Q
  /\ (0 <= SentimentFinbert.FINBERT_POS r <= 1)%Q
  /\ (0 <= SentimentFinbert.FINBERT_NEG r <= 1)%Q
  /\ (0 <= SentimentFinbert.FINBERT_NEU r <= 1)%Q
  /\ (Qabs (SentimentFinbert.FINBERT_SCORE r)
      <= 1 - SentimentFinbert.FINBERT_NEU r)%Q.
Proof.
  intros Hload Hnd Hids Hrow Hclass Hw Hr.
  destruct (loaded_model probs id2label Hload Hnd) as (Hprobs & Hdist & Hp & Hn & Hu).
  assert (Hrowwise : forall batch,
            SentimentFinbert.probs_of_batch model batch = map classify batch)
    by (intros batch; rewrite Hprobs; apply Hrow).
  destruct (main_written_conditions _ _ _ _ _ Hw) as (df & col & -> & Hcol & Hts & Hrows).
  destruct (@main_scores parse model classify Hrowwise df col Hcol Hts Hrows)
    as (dated & header & _ & Hfile & _).
  rewrite Hfile in Hw. destruct Hw as [[= _ <-] | []].
  cbn [rows] in Hr. apply in_map_iff in Hr. destruct Hr as (rd & <- & _).
  cbn [SentimentFinbert.FINBERT_POS SentimentFinbert.FINBERT_NEG
       SentimentFinbert.FINBERT_NEU SentimentFinbert.FINBERT_SCORE].
  unfold SentimentFinbert.prob_at.
  set (text := SentimentFinbert.astype_str col (fst rd)).
  destruct (Hclass text) as (Hlen & Hpos & Hsum).
  assert (Hone : (nth (SentimentFinbert.pos_idx model) (classify text) 0
                  + nth (SentimentFinbert.neg_idx model) (classify text) 0
                  + nth (SentimentFinbert.neu_idx model) (classify text) 0 == 1)%Q).
  { rewrite <- Hsum. apply three_columns_sum; auto. }
  pose proof (nth_nonneg (SentimentFinbert.pos_idx model) Hpos) as H0p.
  pose proof (nth_nonneg (SentimentFinbert.neg_idx model) Hpos) as H0n.
  pose proof (nth_nonneg (SentimentFinbert.neu_idx model) Hpos) as H0u.
  destruct (shares_of_one H0p H0n H0u Hone) as (H1p & H1n & H1u & Hs).
  repeat split; assumption.
Qed.

Lemma written_probabilities_add_up_witness :
  (SentimentFinbert.FINBERT_POS Sample.one_scored
   + SentimentFinbert.FINBERT_NEG Sample.one_scored
   + SentimentFinbert.FINBERT_NEU Sample.one_scored == 1)%Q.
Proof.
  destruct (@written_probabilities_add_up Sample.iso_date
              (fun batch => map (fun _ => [0.1%Q; 0.2%Q; 0.7%Q]) batch)
              Cases.finbert_labels Sample.constant_model
              (fun _ => [0.1%Q; 0.2%Q; 0.7%Q])
              (Some Sample.one_headline) SentimentFinbert.OUTPUT_CSV
              (mkFrame ["TIMESTAMP"; "HEADLINE"; "STORY_ID"; "TIMESTAMP_PARSED";
                        "DATE"; "FINBERT_POS"; "FINBERT_NEG"; "FINBERT_NEU";
                        "FINBERT_SCORE"; "FINBERT_LABEL"] [Sample.one_scored])
              Sample.one_scored)
    as (H & _).
  - reflexivity.
  - repeat (constructor; [simpl; intuition discriminate |]). constructor.
  - simpl. intros k [<- | [<- | [<- | []]]]; lia.
  - reflexivity.
  - intros t. split; [reflexivity |]. split; [| reflexivity].
    repeat constructor; discriminate.
  - left. reflexivity.
  - left. reflexivity.
  - exact H.
Defined.

(* ===================================================================== *)
(** * The labelling rule                                                  *)
(* ===================================================================== *)

Section LabelRule.
Import SentimentFinbert.
Local Open Scope Q_scope.

Lemma label_cases (x : Q) :
  (0.05 < x /\ label x = "positive"%string)
  \/ (x < -0.05 /\ label x = "negative"%string)
  \/ (-0.05 <= x <= 0.05 /\ label x = "neutral"%string).
Proof.
  destruct (Qlt_le_dec 0.05 x) as [H | H].
  - left. split; [exact H | apply label_positive; exact H].
  - destruct (Qlt_le_dec x (-0.05)) as [H' | H'].
    + right. left. split; [exact H' | apply label_negative; exact H'].
    + right. right. split; [split; assumption | apply label_neutral; split; assumption].
Qed.

End LabelRule.

(** X27.  The labelling rule is symmetric and monotone: exchanging the
    positive and the negative probability negates the score and turns the
    label into its opposite (neutral stays neutral), and a higher score
    never gets a lower label in the order negative, neutral, positive. *)
Theorem label_symmetric_and_monotone (pos neg x y : Q) :
  (SentimentFinbert.score neg pos == - SentimentFinbert.score pos neg)%Q
  /\ SentimentFinbert.label (SentimentFinbert.score neg pos)
     = Pred.opposite (SentimentFinbert.label (SentimentFinbert.score pos neg))
  /\ SentimentFinbert.label (- x) = Pred.opposite (SentimentFinbert.label x)
  /\ ((x <= y)%Q ->
      Pred.rank (SentimentFinbert.label x) <= Pred.rank (SentimentFinbert.label y)).
Proof.
  assert (Hneg : forall z, SentimentFinbert.label (- z)
                           = Pred.opposite (SentimentFinbert.label z)).
  { intros z.
    destruct (label_cases z) as [[H ->] | [[H ->] | [H ->]]].
    - rewrite label_negative by lra. reflexivity.
    - rewrite label_positive by lra. reflexivity.
    - rewrite label_neutral by lra. reflexivity. }
  assert (Hscore : (SentimentFinbert.score neg pos
                    == - SentimentFinbert.score pos neg)%Q)
    by (unfold SentimentFinbert.score; ring).
  split; [exact Hscore |].
  split; [rewrite (label_compat Hscore); apply Hneg |].
  split; [apply Hneg |].
  intros Hxy.
  destruct (label_cases x) as [[Hx ->] | [[Hx ->] | [Hx ->]]];
    destruct (label_cases y) as [[Hy ->] | [[Hy ->] | [Hy ->]]];
    try (vm_compute; lia); exfalso; lra.
Qed.

Lemma label_symmetric_and_monotone_witness :
  SentimentFinbert.label (SentimentFinbert.score 0.1 0.7) = "negative"
  /\ Pred.rank (SentimentFinbert.label (-0.4)) <= Pred.rank (SentimentFinbert.label 0.2).
Proof.
  destruct (@label_symmetric_and_monotone 0.7%Q 0.1%Q (-0.4)%Q 0.2%Q)
    as (_ & Hflip & _ & Hmono).
  split.
  - rewrite Hflip. reflexivity.
  - apply Hmono. discriminate.
Defined.

(* ===================================================================== *)
(** * Missing columns in the panel builder                                *)
(* ===================================================================== *)

Section PanelColumns.
Import BuildPanel.
Variable parse : string -> option date.

Lemma load_news_cases (df : frame News.row) :
  load_news df
  = if negb (has_column df "DATE") then inl date_error
    else match missing_columns df sentiment_cols with
         | [] => inr (daily_of (dated df))
         | missing => inl (KeyError (repr_list missing ++ " not in index")%string)
         end.
Proof. reflexivity. Qed.

Lemma repr_list_bracket (l : list string) :
  exists rest, repr_list l = String "["%char rest.
Proof. unfold repr_list. eexists. reflexivity. Qed.

Lemma panel_result (news : frame News.row)
  (prices_file : option (frame Price.csv_row)) :
  snd (main parse (Some news) prices_file start)
  = match load_news news with
    | inl e => inl e
    | inr _ =>
        match prices_file with
        | None => inl (FileNotFoundError PRICES_FILE)
        | Some prices =>
            match load_prices parse prices with
            | inl e => inl e
            | inr rows =>
                match merge rows (news_key_dtype (Some news)) (daily_of (dated news)) with
                | inl e => inl e
                | inr _ => inr tt
                end
            end
        end
    end.
Proof.
  cbv beta iota zeta delta [main bind print lift to_csv raise ret start].
  destruct (load_news news) as [e | daily] eqn:En; [reflexivity |].
  apply load_news_daily in En. subst daily.
  destruct prices_file as [prices |]; [| reflexivity].
  destruct (load_prices parse prices) as [e | rows]; [reflexivity |].
  destruct (merge rows _ _); reflexivity.
Qed.

(** The key check of [merge] raises no [KeyError]. *)
Lemma merge_result_not_key_error (rows : list Price.row) (dt : Pd.dtype)
  (daily : list Daily.row) (msg : string) :
  match merge rows dt daily with
  | inl e => inl e
  | inr _ => inr tt
  end = (inl (KeyError msg) : result unit) -> False.
Proof.
  destruct (merge rows dt daily) as [e |] eqn:E; [| discriminate].
  destruct (merge_raises _ _ _ E) as [m ->]. discriminate.
Qed.

End PanelColumns.

(** X28.  The panel builder reports the scored file first: its run is ended
    by [KeyError("[...] not in index")], listing in the order of
    [sentiment_cols] the sentiment columns the scored file lacks, exactly
    when the file has [DATE] but lacks one of them, whatever the price
    file; and it is ended by [KeyError('TIMESTAMP')] or [KeyError('CLOSE')]
    of the price file only when the scored file has loaded. *)
Theorem panel_missing_columns
  (parse : string -> option date) (news : frame BuildPanel.News.row)
  (prices_file : option (frame BuildPanel.Price.csv_row)) :
  (raised (BuildPanel.main parse (Some news) prices_file start)
          (KeyError (repr_list (BuildPanel.missing_columns news BuildPanel.sentiment_cols)
                     ++ " not in index")%string)
   <-> In "DATE" (columns news)
       /\ BuildPanel.missing_columns news BuildPanel.sentiment_cols <> [])
  /\ (forall c, In c (BuildPanel.missing_columns news BuildPanel.sentiment_cols)
                <-> In c BuildPanel.sentiment_cols /\ ~ In c (columns news))
  /\ (forall prices,
        prices_file = Some prices ->
        (raised (BuildPanel.main parse (Some news) prices_file start)
                (KeyError "TIMESTAMP")
         <-> (exists daily, BuildPanel.load_news news = inr daily)
             /\ ~ In "TIMESTAMP" (columns prices))
        /\ (raised (BuildPanel.main parse (Some news) prices_file start)
                   (KeyError "CLOSE")
            <-> (exists daily, BuildPanel.load_news news = inr daily)
                /\ In "TIMESTAMP" (columns prices)
                /\ ~ In "CLOSE" (columns prices)
                /\ ~ In "TRDPRC_1" (columns prices))).
Proof.
  split; [| split].
  - unfold raised. rewrite panel_result, load_news_cases, <- has_column_In.
    destruct (has_column news "DATE"); cbn [negb].
    + destruct (BuildPanel.missing_columns news BuildPanel.sentiment_cols)
        as [| m ms] eqn:Em.
      * split; [| intros [_ H]; exfalso; apply H; reflexivity].
        destruct prices_file as [prices |]; [| discriminate].
        destruct (BuildPanel.load_prices parse prices) as [e | rows] eqn:El.
        -- unfold BuildPanel.load_prices in El.
           destruct (negb _); [injection El as <-; discriminate |].
           destruct (negb _); [injection El as <-; discriminate |].
           destruct (1 <? _); [injection El as <-; discriminate | discriminate El].
        -- intros H. exfalso. exact (merge_result_not_key_error _ _ _ H).
      * split; [intros _; split; [reflexivity | discriminate] | reflexivity].
    + split; [| intros [H _]; discriminate H].
      destruct (repr_list_bracket
                  (BuildPanel.missing_columns news BuildPanel.sentiment_cols))
        as [rest ->].
      discriminate.
  - intros c. unfold BuildPanel.missing_columns. rewrite filter_In.
    rewrite negb_true_iff, <- has_column_In.
    destruct (has_column news c); split; intros [H1 H2]; split; auto; congruence.
  - intros prices ->. unfold raised. rewrite panel_result, load_news_cases.
    rewrite <- (load_prices_no_timestamp parse prices).
    rewrite <- (load_prices_no_close parse prices).
    destruct (negb (has_column news "DATE")).
    + split; (split; [discriminate | intros [[d Hd] _]; discriminate Hd]).
    + destruct (BuildPanel.missing_columns news BuildPanel.sentiment_cols)
        as [| m ms].
      * split; (split;
          [intros H; split; [eexists; reflexivity |];
           destruct (BuildPanel.load_prices parse prices);
           [congruence | exfalso; exact (merge_result_not_key_error _ _ _ H)]
          | intros [_ ->]; reflexivity]).
      * destruct (repr_list_bracket (m :: ms)) as [rest ->].
        split; (split; [discriminate | intros [[d Hd] _]; discriminate Hd]).
Qed.
